(** * InkSync WebSocket server: session state and broadcast dispatch

    A shallow embedding of [src/index.ts]: the three process-wide maps
    ([activeClients], [roomUserMap], [roomShapes]), the message handler of
    a connection, its close handler and the three fan-out helpers.

    Handlers run to completion between two [await]s.  The two [await]s of
    the file ([prisma.roomId.findUnique] in [register], [prisma.chat.create]
    in [message]) split their handlers in two: the part before the [await]
    leaves a task in [pending], and an event of the environment settles it
    later, possibly after other events were handled.

    What throws inside the [try] of the message handler lands in its
    [catch], which answers "Server error" and undoes nothing: reading a
    property of [null], [Number] of an object it cannot convert,
    [JSON.stringify] of a value too deep or too long for the engine, [push]
    on an array that is full, and a rejected promise. *)

From Stdlib Require Import ZArith QArith String List.
From stdpp Require Import gmap strings list.

Close Scope Q_scope.
Set Warnings "-register-all".
Local Open Scope string_scope.
Local Open Scope list_scope.

(** ** Values *)

(** A connection is the identity of a [WebSocket] object. *)
Abbreviation conn := nat.

(** A number as [JSON.parse] returns it: a finite double, which is a
    rational, or an infinity, which is what a literal beyond the doubles
    such as 1e999 gives.  The handlers only test a number for being one,
    compare it with an integer id, use it as an array position or echo
    it. *)
Inductive number :=
| Finite (q : Q)
| Infinite (negative : bool).

(** What [JSON.parse] returns; the fields of an object have distinct
    keys. *)
Inductive json :=
| JNull
| JBool (b : bool)
| JNum (n : number)
| JStr (s : string)
| JArr (items : list json)
| JObj (fields : list (string * json)).

(** [JSON.parse] keeps the last of several bindings of one key. *)
Fixpoint assoc_last (k : string) (l : list (string * json)) : option json :=
  match l with
  | [] => None
  | (k', v) :: r =>
      match assoc_last k r with
      | Some w => Some w
      | None => if String.eqb k' k then Some v else None
      end
  end.

(** [parsed.k] for the keys the handlers read, on a value that is not
    [null]: [None] is [undefined].  None of these keys is a property of a
    boolean, a number, a string or an array. *)
Definition get (k : string) (v : json) : option json :=
  match v with
  | JObj fields => assoc_last k fields
  | _ => None
  end.

(** JavaScript truthiness: [!v] is [negb (truthy v)]. *)
Definition truthy (v : json) : bool :=
  match v with
  | JNull => false
  | JBool b => b
  | JNum (Finite n) => negb (Qeq_bool n 0)
  | JNum (Infinite _) => true
  | JStr s => negb (String.eqb s "")
  | JArr _ | JObj _ => true
  end.

Definition truthy_opt (o : option json) : bool :=
  match o with
  | Some v => truthy v
  | None => false
  end.

(** [typeof v === "number"], with the number. *)
Definition as_number (o : option json) : option number :=
  match o with
  | Some (JNum n) => Some n
  | _ => None
  end.

(** [typeof v === "string"], with the string. *)
Definition as_string (o : option json) : option string :=
  match o with
  | Some (JStr s) => Some s
  | _ => None
  end.

(** [n === z] for a number [n] that may be [NaN] ([None]) and an integer. *)
Definition num_is (n : option Q) (z : Z) : bool :=
  match n with
  | Some q => Qeq_bool q (inject_Z z)
  | None => false
  end.

(** [ToIntegerOrInfinity]: truncation towards zero. *)
Definition to_integer (q : Q) : Z := Z.quot (Qnum q) (Zpos (Qden q)).

(** A number is an array index when it is an integer in [0, 2^32 - 2]. *)
Definition array_index (q : Q) : option nat :=
  let z := to_integer q in
  if Qeq_bool q (inject_Z z) && (0 <=? z)%Z && (z <? 2 ^ 32 - 1)%Z
  then Some (Z.to_nat z) else None.

(** ** The array of shapes of a room

    A slot holds an element, or nothing: a hole of a sparse array and a
    slot holding [undefined] behave alike under [push], [splice], index
    assignment and [JSON.stringify], the only operations of the file. *)
Abbreviation shapes_t := (list (option json)).

(** [shapes.push(e)]: [None] when it throws, which it does on an array of
    2^32 - 1 slots, the longest there is; the sequence is then as it was. *)
Definition array_push (a : shapes_t) (e : option json) : option shapes_t :=
  if (Z.of_nat (length a) <? 2 ^ 32 - 1)%Z then Some (a ++ [e]) else None.

(** [shapes[n] = e].  Below the length the slot is replaced; at or past it
    the array grows to [i + 1] slots, the new ones before [i] being holes.
    A number that is no array index (negative, fractional, too large,
    infinite) names an ordinary property of the array object, which neither
    its length nor [JSON.stringify], [push] or [splice] sees: the sequence
    is unchanged. *)
Definition array_assign (a : shapes_t) (n : number) (e : option json) : shapes_t :=
  match n with
  | Finite q =>
      match array_index q with
      | Some i =>
          if (i <? length a)%nat then <[i := e]> a
          else a ++ replicate (i - length a) None ++ [e]
      | None => a
      end
  | Infinite _ => a
  end.

(** Where [splice(n, 1)] starts in an array of [len] slots: a negative
    start counts from the end, and a start beyond either end is that end. *)
Definition splice_start (len : Z) (n : number) : Z :=
  match n with
  | Finite q =>
      let rel := to_integer q in
      if (rel <? 0)%Z then Z.max (len + rel) 0 else Z.min rel len
  | Infinite true => 0
  | Infinite false => len
  end.

(** [shapes.splice(n, 1)]. *)
Definition array_splice1 (a : shapes_t) (n : number) : shapes_t :=
  let len := Z.of_nat (length a) in
  let start := splice_start len n in
  let count := Z.max 0 (Z.min 1 (len - start)) in
  take (Z.to_nat start) a ++ drop (Z.to_nat (start + count)) a.

(** A value as it comes back from the text [JSON.stringify] makes of it:
    an infinite number is printed as [null]. *)
Fixpoint wire (v : json) : json :=
  match v with
  | JNum (Infinite _) => JNull
  | JArr items => JArr (map wire items)
  | JObj fields =>
      JObj (map (fun kv => match kv with (k, x) => (k, wire x) end) fields)
  | _ => v
  end.

(** No infinite number anywhere in the value. *)
Fixpoint finite (v : json) : bool :=
  match v with
  | JNum (Infinite _) => false
  | JArr items => forallb finite items
  | JObj fields => forallb (fun kv => match kv with (k, x) => finite x end) fields
  | _ => true
  end.

(** [JSON.stringify] of the array, read back: holes and [undefined] are
    [null]. *)
Definition stringify_shapes (a : shapes_t) : list json :=
  map (fun o => match o with Some v => wire v | None => JNull end) a.

(** ** The three maps *)

Record ConnectionMeta := { userId : Z; roomId : string }.

(** A [Set<number>] in insertion order, as [Array.from] lists it. *)
Definition set_add (u : Z) (l : list Z) : list Z :=
  if bool_decide (u ∈ l) then l else l ++ [u].

Definition set_delete (u : Z) (l : list Z) : list Z :=
  filter (fun x => x ≠ u) l.

(** [activeClients]: a [Map] keyed by socket, iterated in insertion order. *)
Abbreviation clients_t := (list (conn * ConnectionMeta)).

Fixpoint clients_get (ws : conn) (l : clients_t) : option ConnectionMeta :=
  match l with
  | [] => None
  | (c, m) :: r => if Nat.eqb c ws then Some m else clients_get ws r
  end.

(** [Map.set] keeps the place of a key that is already there. *)
Fixpoint clients_set (ws : conn) (m : ConnectionMeta) (l : clients_t) : clients_t :=
  match l with
  | [] => [(ws, m)]
  | (c, m') :: r =>
      if Nat.eqb c ws then (c, m) :: r else (c, m') :: clients_set ws m r
  end.

Fixpoint clients_delete (ws : conn) (l : clients_t) : clients_t :=
  match l with
  | [] => []
  | (c, m) :: r =>
      if Nat.eqb c ws then clients_delete ws r else (c, m) :: clients_delete ws r
  end.

(** [ws.readyState] of a server-side socket, which is never CONNECTING. *)
Inductive ReadyState := OPEN | CLOSING | CLOSED.

#[global] Instance ReadyState_eq_dec : EqDecision ReadyState.
Proof. solve_decision. Defined.

(** The record [prisma.chat.create] returns. *)
Record Chat := {
  chat_id : Z;
  chat_message : string;
  chat_createdAt : Z;
  chat_userId : Z;
  chat_roomId : string
}.

(** What the handlers send, as the receiver reads it from the text: a
    value of the client has gone through [wire], and a field that was
    [undefined], which the text leaves out, is an [option]. *)
Inductive payload :=
| PError (message : string)
| PRegisterSuccess (room : string) (user : Z)
| PUserList (users : list Z)
| PMessageSent (chat : Chat)
| PNewMessage (chat : Chat)
| PPointer (x y : json) (color : json) (user : Z)
| PLock (lockedBy : Z)
| PUnlock
| PColor (color : string) (user : Z)
| PInit (shapes : list json)
| PSync (shapes : list json)
| PStream (element : option json) (index : json) (color : option json) (user : Z)
| PSignal (type : string) (fromUserId : Z) (data : option json).

(** One call of [client.send]: the socket and what it is given.  On a
    server-side socket [send] does not throw; what the transport does with
    the text is outside the file. *)
Abbreviation sent := (conn * payload)%type.

(** A handler suspended at its [await]. *)
Inductive task :=
| TRegister (ws : conn) (room : json) (numericUserId : option Q)
| TChat (ws : conn) (room : string) (numericUserId : Z) (text : option json).

Record State := {
  activeClients : clients_t;
  roomUserMap : gmap string (list Z);
  roomShapes : gmap string shapes_t;
  readyState : gmap conn ReadyState;
  pending : list task
}.

Definition initial : State :=
  {| activeClients := []; roomUserMap := ∅; roomShapes := ∅;
     readyState := ∅; pending := [] |}.

Definition with_clients (s : State) (c : clients_t) : State :=
  {| activeClients := c; roomUserMap := roomUserMap s;
     roomShapes := roomShapes s; readyState := readyState s;
     pending := pending s |}.

Definition with_users (s : State) (u : gmap string (list Z)) : State :=
  {| activeClients := activeClients s; roomUserMap := u;
     roomShapes := roomShapes s; readyState := readyState s;
     pending := pending s |}.

Definition with_shapes (s : State) (d : gmap string shapes_t) : State :=
  {| activeClients := activeClients s; roomUserMap := roomUserMap s;
     roomShapes := d; readyState := readyState s; pending := pending s |}.

Definition with_ready (s : State) (r : gmap conn ReadyState) : State :=
  {| activeClients := activeClients s; roomUserMap := roomUserMap s;
     roomShapes := roomShapes s; readyState := r; pending := pending s |}.

Definition with_pending (s : State) (p : list task) : State :=
  {| activeClients := activeClients s; roomUserMap := roomUserMap s;
     roomShapes := roomShapes s; readyState := readyState s; pending := p |}.

(** [client.readyState === WebSocket.OPEN]. *)
Definition is_open (s : State) (c : conn) : bool :=
  bool_decide (readyState s !! c = Some OPEN).

(** [recipients?.has(u)]. *)
Definition has_user (recipients : option (list Z)) (u : Z) : bool :=
  match recipients with
  | Some l => bool_decide (u ∈ l)
  | None => false
  end.

(** ** Fan-out *)

(** The test of the loop of [broadcastToRoom] and [broadcastStreamToRoom]. *)
Definition is_recipient (s : State) (room : string) (exclude : option conn)
    (entry : conn * ConnectionMeta) : bool :=
  negb (bool_decide (Some (fst entry) = exclude))
  && String.eqb (roomId (snd entry)) room
  && has_user (roomUserMap s !! room) (userId (snd entry))
  && is_open s (fst entry).

(** The loop of [broadcastToRoom]; the [JSON.stringify(payload)] before
    it is [printed], at the call. *)
Definition broadcastToRoom (s : State) (room : string) (p : payload)
    (exclude : option conn) : list sent :=
  map (fun entry => (fst entry, p))
      (List.filter (is_recipient s room exclude) (activeClients s)).

(** The loop of [broadcastStreamToRoom]. *)
Definition broadcastStreamToRoom (s : State) (room : string) (p : payload)
    (sender : option conn) : list sent :=
  map (fun entry => (fst entry, p))
      (List.filter (is_recipient s room sender) (activeClients s)).

(** The test of the loop of [sendToUserInRoom]. *)
Definition is_target (s : State) (room : string) (target : option Q)
    (entry : conn * ConnectionMeta) : bool :=
  String.eqb (roomId (snd entry)) room
  && num_is target (userId (snd entry))
  && is_open s (fst entry).

(** The loop of [sendToUserInRoom]: the first match in iteration order,
    if any. *)
Definition sendToUserInRoom (s : State) (room : string) (target : option Q)
    (p : payload) : bool * list sent :=
  match List.find (is_target s room target) (activeClients s) with
  | Some entry => (true, [(fst entry, p)])
  | None => (false, [])
  end.

(** ** The message handler *)

(** The [case] labels of the [switch] on [parsed.type]. *)
Inductive kind :=
| KRegister | KRequestUserList | KMessage | KPointer | KLock | KUnlock
| KColor | KInit | KDraw | KStream | KMove | KDelete | KClear
| KSignal (type : string)
| KUnknown.

Definition classify (type : option json) : kind :=
  match type with
  | Some (JStr t) =>
      if String.eqb t "register" then KRegister
      else if String.eqb t "request-user-list" then KRequestUserList
      else if String.eqb t "message" then KMessage
      else if String.eqb t "pointer" then KPointer
      else if String.eqb t "lock" then KLock
      else if String.eqb t "unlock" then KUnlock
      else if String.eqb t "color" then KColor
      else if String.eqb t "init" then KInit
      else if String.eqb t "draw" then KDraw
      else if String.eqb t "stream" then KStream
      else if String.eqb t "move" then KMove
      else if String.eqb t "delete" then KDelete
      else if String.eqb t "clear" then KClear
      else if String.eqb t "webrtc-offer" then KSignal t
      else if String.eqb t "webrtc-answer" then KSignal t
      else if String.eqb t "webrtc-ice" then KSignal t
      else KUnknown
  | _ => KUnknown
  end.

(** What [prisma.roomId.findUnique] settles to: a rejection, [null], or a
    room with the ids of its users. *)
Inductive RoomLookup := RoomThrow | RoomNull | RoomFound (users : list Z).

(** What [prisma.chat.create] settles to. *)
Inductive ChatCreate := ChatThrow | ChatCreated (chat : Chat).

Definition not_registered (ws : conn) : list sent :=
  [(ws, PError "Client not registered")].

(** The [catch] around the [switch]. *)
Definition server_error (ws : conn) : list sent :=
  [(ws, PError "Server error")].

Definition unauthorized (ws : conn) : list sent :=
  [(ws, PError "Unauthorized user or room")].

(** The shapes of a room: [roomShapes.get(roomId) || []]. *)
Definition shapes_of (s : State) (room : string) : shapes_t :=
  match roomShapes s !! room with
  | Some a => a
  | None => []
  end.

(** [Array.from(roomUserMap.get(roomId) || [])]. *)
Definition users_of (s : State) (room : string) : list Z :=
  match roomUserMap s !! room with
  | Some l => l
  | None => []
  end.

(** What [Number(v)] comes to: a [TypeError], or a number, [None] standing
    for [NaN] and the infinities, which equal no id. *)
Inductive conversion :=
| Throws
| Converts (n : option Q).

(** An object of [JSON.parse] has the key. *)
Definition has_key (k : string) (fields : list (string * json)) : bool :=
  match assoc_last k fields with
  | Some _ => true
  | None => false
  end.

Section Handlers.

(** [Number(v)] on a string or an array, which is the language's: every
    result below holds whatever it answers. *)
Variable ToNumber : json -> conversion.

(** Whether [JSON.stringify] returns on a payload that holds values of the
    client: it throws on a value nested too deep or too long for a string,
    which is the engine's to say.  Every result below holds whatever it
    answers. *)
Variable Prints : payload -> bool.

(** [Number(v)], [undefined] included.  An object of [JSON.parse] has no
    method of its own: with a key [toString] it hides the inherited one
    and the conversion throws; without, it reads "[object Object]", which
    is [NaN]. *)
Definition Number (o : option json) : conversion :=
  match o with
  | None => Converts None
  | Some JNull => Converts (Some (inject_Z 0))
  | Some (JBool b) => Converts (Some (inject_Z (if b then 1 else 0)))
  | Some (JNum (Finite q)) => Converts (Some q)
  | Some (JNum (Infinite _)) => Converts None
  | Some (JObj fields) =>
      if has_key "toString" fields then Throws else Converts None
  | Some v => ToNumber v
  end.

(** Whether [JSON.stringify(payload)] returns.  The payloads the server
    makes of its own numbers and strings are always printed. *)
Definition stringify_returns (p : payload) : bool :=
  match p with
  | PInit [] | PSync [] => true
  | PInit _ | PSync _ | PPointer _ _ _ _ | PStream _ _ _ _ | PSignal _ _ _ =>
      Prints p
  | _ => true
  end.

(** [JSON.stringify(payload)] and the sends that follow it, in the [try]
    of the handler of [ws]: when it throws nothing was sent yet, and the
    [catch] answers. *)
Definition printed (ws : conn) (p : payload) (out : list sent) : list sent :=
  if stringify_returns p then out else server_error ws.

(** [case "register"], up to the [await]. *)
Definition case_register (s : State) (ws : conn) (parsed : json)
    : State * list sent :=
  match get "roomId" parsed, get "userId" parsed with
  | Some room, Some user =>
      if negb (truthy room) || negb (truthy user)
      then (s, [(ws, PError "Missing roomId or userId")])
      else
        match Number (Some user) with
        | Throws => (s, server_error ws)
        | Converts numericUserId =>
            (with_pending s (pending s ++ [TRegister ws room numericUserId]), [])
        end
  | _, _ => (s, [(ws, PError "Missing roomId or userId")])
  end.

(** [case "register"], from the [await] on.  The test of the answer is the
    code's, whatever [roomId] is.  The registry holds a string as [roomId]
    and the lookup is by [id]: the client library rejects a lookup by
    anything else, so that a room found under an id that is no string does
    not occur; the model sends it to the [catch]. *)
Definition resume_register (s : State) (ws : conn) (room : json)
    (numericUserId : option Q) (res : RoomLookup) : State * list sent :=
  match res with
  | RoomThrow => (s, server_error ws)
  | RoomNull => (s, unauthorized ws)
  | RoomFound users =>
      match List.find (num_is numericUserId) users with
      | None => (s, unauthorized ws)
      | Some u =>
          match room with
          | JStr r =>
              let s1 := with_clients s
                          (clients_set ws {| userId := u; roomId := r |}
                                       (activeClients s)) in
              let s2 := with_users s1
                          (<[r := set_add u (users_of s1 r)]> (roomUserMap s1)) in
              (s2, (ws, PRegisterSuccess r u)
                     :: broadcastToRoom s2 r (PUserList (users_of s2 r)) None)
          | _ => (s, server_error ws)
          end
      end
  end.

Definition case_request_user_list (s : State) (ws : conn)
    (clientMeta : ConnectionMeta) : State * list sent :=
  (s, [(ws, PUserList (users_of s (roomId clientMeta)))]).

(** [case "message"], up to the [await]; [Number(user_id)] comes before
    the test of the context. *)
Definition case_message (s : State) (ws : conn) (clientMeta : ConnectionMeta)
    (parsed : json) : State * list sent :=
  match Number (get "user_id" parsed) with
  | Throws => (s, server_error ws)
  | Converts numericUserId =>
      match as_string (get "roomId" parsed) with
      | Some r =>
          if negb (String.eqb r (roomId clientMeta))
             || negb (num_is numericUserId (userId clientMeta))
          then (s, [(ws, PError "Invalid room or user context")])
          else (with_pending s
                  (pending s
                   ++ [TChat ws r (userId clientMeta) (get "text" parsed)]),
                [])
      | None => (s, [(ws, PError "Invalid room or user context")])
      end
  end.

(** [case "message"], from the [await] on. *)
Definition resume_chat (s : State) (ws : conn) (room : string)
    (res : ChatCreate) : State * list sent :=
  match res with
  | ChatThrow => (s, server_error ws)
  | ChatCreated chat =>
      (s, (ws, PMessageSent chat)
            :: broadcastToRoom s room (PNewMessage chat) (Some ws))
  end.

(** [parsed.color || null]. *)
Definition color_or_null (parsed : json) : json :=
  match get "color" parsed with
  | Some c => if truthy c then c else JNull
  | None => JNull
  end.

Definition case_pointer (s : State) (ws : conn) (clientMeta : ConnectionMeta)
    (parsed : json) : State * list sent :=
  match as_number (get "x" parsed), as_number (get "y" parsed) with
  | Some x, Some y =>
      let p := PPointer (wire (JNum x)) (wire (JNum y))
                 (wire (color_or_null parsed)) (userId clientMeta) in
      (s, printed ws p (broadcastToRoom s (roomId clientMeta) p (Some ws)))
  | _, _ => (s, [])
  end.

Definition case_lock (s : State) (ws : conn) (clientMeta : ConnectionMeta)
    : State * list sent :=
  (s, broadcastToRoom s (roomId clientMeta) (PLock (userId clientMeta)) (Some ws)).

Definition case_unlock (s : State) (ws : conn) (clientMeta : ConnectionMeta)
    : State * list sent :=
  (s, broadcastToRoom s (roomId clientMeta) PUnlock (Some ws)).

Definition case_color (s : State) (ws : conn) (clientMeta : ConnectionMeta)
    (parsed : json) : State * list sent :=
  match as_string (get "color" parsed) with
  | Some c =>
      (s, broadcastToRoom s (roomId clientMeta)
            (PColor c (userId clientMeta)) (Some ws))
  | None => (s, [])
  end.

(** [roomShapes.set(roomId, shapes)]. *)
Definition store_shapes (s : State) (room : string) (a : shapes_t) : State :=
  with_shapes s (<[room := a]> (roomShapes s)).

Definition case_init (s : State) (ws : conn) (clientMeta : ConnectionMeta)
    : State * list sent :=
  let p := PInit (stringify_shapes (shapes_of s (roomId clientMeta))) in
  (s, printed ws p [(ws, p)]).

Definition case_clear (s : State) (ws : conn) (clientMeta : ConnectionMeta)
    : State * list sent :=
  let room := roomId clientMeta in
  let s' := store_shapes s room [] in
  let p := PSync (stringify_shapes []) in
  (s', printed ws p (broadcastToRoom s' room p None)).

(** [case "draw"]: a [push] that throws leaves the map as it is; a
    [JSON.stringify] that throws comes after [roomShapes.set]. *)
Definition case_draw (s : State) (ws : conn) (clientMeta : ConnectionMeta)
    (parsed : json) : State * list sent :=
  let room := roomId clientMeta in
  match array_push (shapes_of s room) (get "element" parsed) with
  | Some shapes =>
      let s' := store_shapes s room shapes in
      let p := PSync (stringify_shapes shapes) in
      (s', printed ws p (broadcastToRoom s' room p None))
  | None => (s, server_error ws)
  end.

Definition case_stream (s : State) (ws : conn) (clientMeta : ConnectionMeta)
    (parsed : json) : State * list sent :=
  let room := roomId clientMeta in
  match as_number (get "index" parsed) with
  | Some index =>
      let element := get "element" parsed in
      let shapes := array_assign (shapes_of s room) index element in
      let s' := store_shapes s room shapes in
      let p := PStream (option_map wire element) (wire (JNum index))
                 (option_map wire (get "color" parsed)) (userId clientMeta) in
      (s', printed ws p (broadcastStreamToRoom s' room p (Some ws)))
  | None => (s, [])
  end.

Definition case_move (s : State) (ws : conn) (clientMeta : ConnectionMeta)
    (parsed : json) : State * list sent :=
  let room := roomId clientMeta in
  match as_number (get "index" parsed) with
  | Some index =>
      let shapes := array_assign (shapes_of s room) index (get "element" parsed) in
      let s' := store_shapes s room shapes in
      let p := PSync (stringify_shapes shapes) in
      (s', printed ws p (broadcastToRoom s' room p None))
  | None => (s, [])
  end.

Definition case_delete (s : State) (ws : conn) (clientMeta : ConnectionMeta)
    (parsed : json) : State * list sent :=
  let room := roomId clientMeta in
  match as_number (get "index" parsed) with
  | Some index =>
      let shapes := array_splice1 (shapes_of s room) index in
      let s' := store_shapes s room shapes in
      let p := PSync (stringify_shapes shapes) in
      (s', printed ws p (broadcastToRoom s' room p None))
  | None => (s, [])
  end.

(** [case "webrtc-offer"], ["webrtc-answer"], ["webrtc-ice"]:
    [Number(targetUserId)] is an argument of the call of
    [sendToUserInRoom], whose first line is [JSON.stringify(payload)]. *)
Definition case_signal (s : State) (ws : conn) (clientMeta : ConnectionMeta)
    (type : string) (parsed : json) : State * list sent :=
  let targetUserId := get "targetUserId" parsed in
  if negb (truthy_opt targetUserId)
  then (s, [(ws, PError "Missing targetUserId")])
  else
    match Number targetUserId with
    | Throws => (s, server_error ws)
    | Converts target =>
        let p := PSignal type (userId clientMeta)
                   (option_map wire (get "data" parsed)) in
        let '(forwarded, out) :=
          sendToUserInRoom s (roomId clientMeta) target p in
        (s, printed ws p
              (out ++ (if forwarded then []
                       else [(ws, PError "Target user not connected")])))
    end.

(** The cases that start with [if (!clientMeta)]. *)
Definition registered_only (s : State) (ws : conn)
    (k : ConnectionMeta -> State * list sent) : State * list sent :=
  match clients_get ws (activeClients s) with
  | Some clientMeta => k clientMeta
  | None => (s, not_registered ws)
  end.

(** [ws.on("message")]; [data] is [None] when [JSON.parse] throws.  On
    [null], reading [parsed.type] throws into the [catch]; a throw inside
    a case is written in the case, with the answer of the same [catch]. *)
Definition on_message (s : State) (ws : conn) (data : option json)
    : State * list sent :=
  match data with
  | None => (s, [(ws, PError "Invalid JSON format")])
  | Some JNull => (s, server_error ws)
  | Some parsed =>
      match classify (get "type" parsed) with
      | KRegister => case_register s ws parsed
      | KRequestUserList =>
          registered_only s ws (fun m => case_request_user_list s ws m)
      | KMessage => registered_only s ws (fun m => case_message s ws m parsed)
      | KPointer => registered_only s ws (fun m => case_pointer s ws m parsed)
      | KLock => registered_only s ws (fun m => case_lock s ws m)
      | KUnlock => registered_only s ws (fun m => case_unlock s ws m)
      | KColor => registered_only s ws (fun m => case_color s ws m parsed)
      | KInit => registered_only s ws (fun m => case_init s ws m)
      | KDraw => registered_only s ws (fun m => case_draw s ws m parsed)
      | KStream => registered_only s ws (fun m => case_stream s ws m parsed)
      | KMove => registered_only s ws (fun m => case_move s ws m parsed)
      | KDelete => registered_only s ws (fun m => case_delete s ws m parsed)
      | KClear => registered_only s ws (fun m => case_clear s ws m)
      | KSignal t => registered_only s ws (fun m => case_signal s ws m t parsed)
      | KUnknown => (s, [(ws, PError "Unknown message type")])
      end
  end.

(** ** The close handler *)

(** [roomSet?.delete(userId); if (roomSet?.size === 0) roomUserMap.delete(roomId)]. *)
Definition leave_room (users : gmap string (list Z)) (room : string) (u : Z)
    : gmap string (list Z) :=
  match users !! room with
  | Some roomSet =>
      let roomSet' := set_delete u roomSet in
      if (length roomSet' =? 0)%nat then delete room users
      else <[room := roomSet']> users
  | None => users
  end.

(** [ws.on("close")]. *)
Definition on_close (s : State) (ws : conn) : State :=
  match clients_get ws (activeClients s) with
  | Some meta =>
      with_clients
        (with_users s (leave_room (roomUserMap s) (roomId meta) (userId meta)))
        (clients_delete ws (activeClients s))
  | None => s
  end.

(** ** Events *)

Inductive event :=
| EvConnection (ws : conn)
| EvMessage (ws : conn) (data : option json)
| EvRoomLookup (i : nat) (res : RoomLookup)
| EvChatCreate (i : nat) (res : ChatCreate)
| EvClosing (ws : conn)
| EvClose (ws : conn).

(** One turn of the event loop.  A socket is OPEN from its [connection]
    event on; its transport may go CLOSING; its [close] event comes once,
    with the socket CLOSED, and no [message] event comes after it.  The
    [i]-th suspended handler goes on when its promise settles. *)
Definition step (s : State) (ev : event) : State * list sent :=
  match ev with
  | EvConnection ws =>
      match readyState s !! ws with
      | None => (with_ready s (<[ws := OPEN]> (readyState s)), [])
      | Some _ => (s, [])
      end
  | EvMessage ws data =>
      match readyState s !! ws with
      | Some OPEN | Some CLOSING => on_message s ws data
      | _ => (s, [])
      end
  | EvRoomLookup i res =>
      match pending s !! i with
      | Some (TRegister ws room uid) =>
          resume_register (with_pending s (delete i (pending s))) ws room uid res
      | _ => (s, [])
      end
  | EvChatCreate i res =>
      match pending s !! i with
      | Some (TChat ws room uid text) =>
          resume_chat (with_pending s (delete i (pending s))) ws room res
      | _ => (s, [])
      end
  | EvClosing ws =>
      match readyState s !! ws with
      | Some OPEN => (with_ready s (<[ws := CLOSING]> (readyState s)), [])
      | _ => (s, [])
      end
  | EvClose ws =>
      match readyState s !! ws with
      | Some OPEN | Some CLOSING =>
          (on_close (with_ready s (<[ws := CLOSED]> (readyState s))) ws, [])
      | _ => (s, [])
      end
  end.

(** The state after a run of events, and everything sent during it. *)
Fixpoint run (s : State) (evs : list event) : State * list sent :=
  match evs with
  | [] => (s, [])
  | ev :: rest =>
      let '(s1, out1) := step s ev in
      let '(s2, out2) := run s1 rest in
      (s2, out1 ++ out2)
  end.

Inductive reachable : State -> Prop :=
| reachable_initial : reachable initial
| reachable_step s ev : reachable s -> reachable (fst (step s ev)).

End Handlers.

(** ** Running the handlers on concrete messages *)

Fixpoint digits_value (acc : N) (s : string) : option N :=
  match s with
  | EmptyString => Some acc
  | String c r =>
      let n := Ascii.N_of_ascii c in
      if ((48 <=? n) && (n <=? 57))%N
      then digits_value (acc * 10 + (n - 48))%N r
      else None
  end.

(** A conversion that agrees with [Number] on strings of decimal digits
    and on the empty array, and answers [NaN] elsewhere.  The runs below
    carry their ids as numbers, which no conversion touches. *)
Definition ToNumber_digits (v : json) : conversion :=
  match v with
  | JStr s =>
      Converts (option_map (fun n => inject_Z (Z.of_N n)) (digits_value 0 s))
  | JArr [] => Converts (Some (inject_Z 0))
  | _ => Converts None
  end.

(** An engine that prints every payload; the runs below send small ones,
    which every engine prints. *)
Definition Prints_all (p : payload) : bool := true.

Definition jint (z : Z) : json := JNum (Finite (inject_Z z)).

Definition msg_register (room : string) (user : Z) : option json :=
  Some (JObj [("type", JStr "register"); ("roomId", JStr room); ("userId", jint user)]).

Definition msg_draw (element : json) : option json :=
  Some (JObj [("type", JStr "draw"); ("element", element)]).

Definition msg_stream (index : Z) (element : json) : option json :=
  Some (JObj [("type", JStr "stream"); ("index", jint index); ("element", element)]).

Definition msg_delete (index : Z) : option json :=
  Some (JObj [("type", JStr "delete"); ("index", jint index)]).

Definition msg_plain (type : string) : option json :=
  Some (JObj [("type", JStr type)]).

Definition line : json := JObj [("shape", JStr "line")].

(** The claims of the specification read on the model. *)

(** A connection counts in a room: it is registered there, its user is in
    the presence set of the room and its transport is OPEN, which is what
    the loop of [broadcastToRoom] asks of a recipient. *)
Definition is_member (s : State) (room : string) (c : conn) : Prop :=
  ∃ m, (c, m) ∈ activeClients s ∧ roomId m = room
       ∧ userId m ∈ users_of s room ∧ readyState s !! c = Some OPEN.

(** The presence sets are the users of the connections that are OPEN and
    registered, room by room. *)
Definition presence_matches (s : State) : Prop :=
  ∀ room u,
    u ∈ users_of s room ↔
    ∃ c, readyState s !! c = Some OPEN
         ∧ (c, {| userId := u; roomId := room |}) ∈ activeClients s.

(** The same with the connections whose [close] event was not handled yet,
    OPEN or CLOSING. *)
Definition presence_matches_unclosed (s : State) : Prop :=
  ∀ room u,
    u ∈ users_of s room ↔
    ∃ c, (readyState s !! c = Some OPEN ∨ readyState s !! c = Some CLOSING)
         ∧ (c, {| userId := u; roomId := room |}) ∈ activeClients s.

(** No other registered connection has the user and the room of [ws]. *)
Definition last_of_user (s : State) (ws : conn) : Prop :=
  ∀ m c m',
    clients_get ws (activeClients s) = Some m →
    (c, m') ∈ activeClients s → userId m' = userId m → roomId m' = roomId m →
    c = ws.

(** The answer of the gate completes the registration: a room, asked for
    under a string, that has a user with the id sent. *)
Definition completes (room : json) (numericUserId : option Q)
    (res : RoomLookup) : Prop :=
  ∃ r users u, room = JStr r ∧ res = RoomFound users
               ∧ List.find (num_is numericUserId) users = Some u.

(** An event that keeps to one registration per connection, completed
    while the connection is not closed, and that closes a connection only
    when it is the last of its user in its room.  A lookup that does not
    complete a registration is free to settle at any time. *)
Definition orderly (s : State) (ev : event) : Prop :=
  match ev with
  | EvRoomLookup i res =>
      match pending s !! i with
      | Some (TRegister ws room numericUserId) =>
          completes room numericUserId res →
          clients_get ws (activeClients s) = None
          ∧ (readyState s !! ws = Some OPEN ∨ readyState s !! ws = Some CLOSING)
      | _ => True
      end
  | EvClose ws => last_of_user s ws
  | _ => True
  end.

Fixpoint orderly_run (ToNumber : json -> conversion) (Prints : payload -> bool)
    (s : State) (evs : list event) : Prop :=
  match evs with
  | [] => True
  | ev :: rest =>
      orderly s ev
      ∧ orderly_run ToNumber Prints (fst (step ToNumber Prints s ev)) rest
  end.

(** A payload that carries a chat record. *)
Definition is_chat_payload (p : payload) : bool :=
  match p with
  | PMessageSent _ | PNewMessage _ => true
  | _ => false
  end.

Definition is_error (p : payload) : bool :=
  match p with
  | PError _ => true
  | _ => false
  end.

(** The gate did not confirm the pair: no such room, or a room without
    the user. *)
Definition not_confirmed (numericUserId : option Q) (res : RoomLookup) : Prop :=
  match res with
  | RoomThrow => False
  | RoomNull => True
  | RoomFound users => ∀ u, u ∈ users → num_is numericUserId u = false
  end.

(** The invariant behind the presence sets: one registry entry for a
    connection; a registered connection is one whose [close] event was not
    handled; the set of a room holds the users of the entries of the room;
    and no room is kept with an empty set. *)
Definition consistent (s : State) : Prop :=
  NoDup (activeClients s).*1
  ∧ (∀ c m, (c, m) ∈ activeClients s →
            readyState s !! c = Some OPEN ∨ readyState s !! c = Some CLOSING)
  ∧ (∀ room u, u ∈ users_of s room ↔
               ∃ c, (c, {| userId := u; roomId := room |}) ∈ activeClients s)
  ∧ (∀ room, roomUserMap s !! room ≠ Some []).

(** ** Runs used as examples *)

Definition msg_chat (room : string) (user : Z) (text : string) : option json :=
  Some (JObj [("type", JStr "message"); ("roomId", JStr room);
              ("user_id", jint user); ("text", JStr text)]).

Definition msg_offer (target : Z) (data : json) : option json :=
  Some (JObj [("type", JStr "webrtc-offer"); ("targetUserId", jint target);
              ("data", data)]).

(** A [move] whose index is a string. *)
Definition msg_move_text_index : option json :=
  Some (JObj [("type", JStr "move"); ("index", JStr "0"); ("element", line)]).

(** Connections 1 and 2 register in room "r1" as users 1 and 2. *)
Definition room_of_two : list event :=
  [EvConnection 1; EvConnection 2;
   EvMessage 1 (msg_register "r1" 1); EvRoomLookup 0 (RoomFound [1; 2]%Z);
   EvMessage 2 (msg_register "r1" 2); EvRoomLookup 0 (RoomFound [1; 2]%Z)].

Definition s_two : State := fst (run ToNumber_digits Prints_all initial room_of_two).

(** In [s_two], connection 1 has drawn a line. *)
Definition s_line : State :=
  fst (on_message ToNumber_digits Prints_all s_two 1 (msg_draw line)).

(** User 1 registers in room "r1" on connections 1 and 2, and connection 1
    is closed. *)
Definition two_tabs : list event :=
  [EvConnection 1; EvConnection 2;
   EvMessage 1 (msg_register "r1" 1); EvRoomLookup 0 (RoomFound [1; 2]%Z);
   EvMessage 2 (msg_register "r1" 1); EvRoomLookup 0 (RoomFound [1; 2]%Z);
   EvClose 1].

Definition s_two_tabs : State := fst (run ToNumber_digits Prints_all initial two_tabs).

(** User 1 registers in room "r1" on connections 1 and 2, user 2 on
    connection 3, and connection 2 is closed. *)
Definition two_tabs_and_peer : list event :=
  [EvConnection 1; EvConnection 2; EvConnection 3;
   EvMessage 1 (msg_register "r1" 1); EvRoomLookup 0 (RoomFound [1; 2]%Z);
   EvMessage 2 (msg_register "r1" 1); EvRoomLookup 0 (RoomFound [1; 2]%Z);
   EvMessage 3 (msg_register "r1" 2); EvRoomLookup 0 (RoomFound [1; 2]%Z);
   EvClose 2].

Definition s_two_tabs_and_peer : State :=
  fst (run ToNumber_digits Prints_all initial two_tabs_and_peer).

(** Connection 1 registers in room "r1" as user 1. *)
Definition first_register : list event :=
  [EvConnection 1;
   EvMessage 1 (msg_register "r1" 1); EvRoomLookup 0 (RoomFound [1; 2]%Z)].

(** The same connection then sends a second register message, for room
    "r2" as user 2; its lookup is pending in [s_second_pending]. *)
Definition s_second_pending : State :=
  fst (run ToNumber_digits Prints_all initial
         (first_register ++ [EvMessage 1 (msg_register "r2" 2)])).

(** In [s_two], connection 1 has sent a register message as user 7. *)
Definition s_stranger_pending : State :=
  fst (run ToNumber_digits Prints_all s_two [EvMessage 1 (msg_register "r1" 7)]).

(** In [s_two], connection 1 has sent a chat message. *)
Definition s_chat_pending : State :=
  fst (run ToNumber_digits Prints_all s_two [EvMessage 1 (msg_chat "r1" 1 "hi")]).

(** In [room_of_two], connection 1 then asks to register as user 7, which
    the gate denies; the transport of connection 2 starts to close and
    connection 1 is closed. *)
Definition orderly_example : list event :=
  room_of_two
  ++ [EvMessage 1 (msg_register "r1" 7); EvRoomLookup 0 RoomNull;
      EvClosing 2; EvClose 1].

Definition meta_1 : ConnectionMeta := {| userId := 1; roomId := "r1" |}.

Definition meta_2 : ConnectionMeta := {| userId := 2; roomId := "r1" |}.

(** What every run keeps, orderly or not: one registry entry for a
    connection, and presence sets without a repeated user and never
    empty. *)
Definition well_formed (s : State) : Prop :=
  NoDup (activeClients s).*1
  ∧ ∀ room l, roomUserMap s !! room = Some l → NoDup l ∧ l ≠ [].

Definition msg_move (index : Z) (element : json) : option json :=
  Some (JObj [("type", JStr "move"); ("index", jint index); ("element", element)]).

Definition circle : json := JObj [("shape", JStr "circle")].

(** The number that [JSON.parse] makes of 1e999. *)
Definition beyond_doubles : json := JNum (Infinite false).

(** An object that [Number] cannot convert. *)
Definition unconvertible : json := JObj [("toString", jint 1)].

(** An offer whose target is the number 0. *)
Definition msg_offer_to_zero : option json :=
  Some (JObj [("type", JStr "webrtc-offer");
              ("targetUserId", JNum (Finite (inject_Z 0)));
              ("data", JStr "sdp")]).


(** ** An engine with a bound on nesting

    [JSON.stringify] recurses on the value it prints and throws when the
    nesting passes what its stack holds.  [Prints_shallow limit] is such
    an engine, with the bound as a parameter. *)

Fixpoint depth (v : json) : nat :=
  match v with
  | JArr items => S (list_max (map depth items))
  | JObj fields =>
      S (list_max (map (fun kv => match kv with (_, x) => depth x end) fields))
  | _ => 0
  end.

(** The values of a payload that come from a client. *)
Definition payload_values (p : payload) : list json :=
  match p with
  | PInit shapes | PSync shapes => shapes
  | PPointer x y color _ => [x; y; color]
  | PStream element index color _ =>
      index :: (match element with Some e => [e] | None => [] end)
            ++ (match color with Some c => [c] | None => [] end)
  | PSignal _ _ data => match data with Some d => [d] | None => [] end
  | _ => []
  end.

Definition Prints_shallow (limit : nat) (p : payload) : bool :=
  forallb (fun v => (depth v <=? limit)%nat) (payload_values p).

(** The element [[[[]]]]. *)
Definition nested : json := JArr [JArr [JArr []]].

(** An offer whose target is an object that [Number] cannot convert. *)
Definition msg_offer_to_object : option json :=
  Some (JObj [("type", JStr "webrtc-offer"); ("targetUserId", unconvertible);
              ("data", JStr "sdp")]).
(** * Properties *)

Section Properties.

Variable ToNumber : json -> conversion.
Variable Prints : payload -> bool.

Local Abbreviation on_message := (on_message ToNumber Prints).
Local Abbreviation step := (step ToNumber Prints).
Local Abbreviation run := (run ToNumber Prints).
Local Abbreviation Number := (Number ToNumber).
Local Abbreviation stringify_returns := (stringify_returns Prints).
Local Abbreviation printed := (printed Prints).

(** ** Numbers and arrays *)

Lemma to_integer_inject (z : Z) : to_integer (inject_Z z) = z.
Proof. unfold to_integer, inject_Z; simpl. apply Z.quot_1_r. Qed.

Lemma Qeq_bool_refl (q : Q) : Qeq_bool q q = true.
Proof. apply Qeq_bool_iff. reflexivity. Qed.

Lemma array_index_inject (z : Z) :
  (0 <= z < 2 ^ 32 - 1)%Z → array_index (inject_Z z) = Some (Z.to_nat z).
Proof.
  intros [H0 H1]. unfold array_index. rewrite to_integer_inject, Qeq_bool_refl.
  apply Z.leb_le in H0. apply Z.ltb_lt in H1. rewrite H0, H1. reflexivity.
Qed.

Lemma array_index_negative (z : Z) :
  (z < 0)%Z → array_index (inject_Z z) = None.
Proof.
  intros H. unfold array_index. rewrite to_integer_inject, Qeq_bool_refl.
  apply Z.leb_gt in H. rewrite H. reflexivity.
Qed.

(** [splice] that starts at the end removes nothing. *)
Lemma array_splice1_at_end (a : shapes_t) (n : number) :
  splice_start (Z.of_nat (length a)) n = Z.of_nat (length a) →
  array_splice1 a n = a.
Proof.
  intros H. unfold array_splice1. rewrite H.
  replace (Z.of_nat (length a) - Z.of_nat (length a))%Z with 0%Z by lia.
  replace (Z.max 0 (Z.min 1 0)) with 0%Z by lia.
  rewrite Z.add_0_r, Nat2Z.id. apply take_drop.
Qed.

Lemma splice_start_past_end (len : Z) (q : Q) :
  (0 <= len)%Z → (len <= to_integer q)%Z → splice_start len (Finite q) = len.
Proof.
  intros Hlen H. unfold splice_start.
  assert (Hneg : (to_integer q <? 0)%Z = false) by (apply Z.ltb_ge; lia).
  rewrite Hneg. lia.
Qed.

(** [splice] on the empty array, whatever the start. *)
Lemma array_splice1_empty (n : number) : array_splice1 [] n = [].
Proof.
  unfold array_splice1.
  rewrite take_nil, drop_nil. reflexivity.
Qed.

(** [splice] with a start that falls on a slot removes that slot. *)
Lemma array_splice1_on_slot (a : shapes_t) (n : number) (i : nat) :
  (i < length a)%nat →
  splice_start (Z.of_nat (length a)) n = Z.of_nat i →
  array_splice1 a n = delete i a.
Proof.
  intros Hi Hstart. unfold array_splice1. rewrite delete_take_drop, Hstart.
  replace (Z.max 0 (Z.min 1 (Z.of_nat (length a) - Z.of_nat i))) with 1%Z by lia.
  rewrite Nat2Z.id. replace (Z.to_nat (Z.of_nat i + 1)) with (S i) by lia.
  reflexivity.
Qed.

(** A start counted from the front or, when negative, from the end. *)
Lemma splice_start_on_slot (len : nat) (q : Q) (i : nat) :
  (i < len)%nat →
  to_integer q = Z.of_nat i ∨ to_integer q = (Z.of_nat i - Z.of_nat len)%Z →
  splice_start (Z.of_nat len) (Finite q) = Z.of_nat i.
Proof.
  intros Hi Hq. unfold splice_start. destruct Hq as [Hq|Hq]; rewrite Hq.
  - assert (H : (Z.of_nat i <? 0)%Z = false) by (apply Z.ltb_ge; lia).
    rewrite H. lia.
  - assert (H : (Z.of_nat i - Z.of_nat len <? 0)%Z = true)
      by (apply Z.ltb_lt; lia).
    rewrite H. lia.
Qed.

Lemma array_push_room (a : shapes_t) (e : option json) :
  (Z.of_nat (length a) < 2 ^ 32 - 1)%Z → array_push a e = Some (a ++ [e]).
Proof.
  intros H. unfold array_push. apply Z.ltb_lt in H. by rewrite H.
Qed.

Lemma array_push_full (a : shapes_t) (e : option json) :
  (2 ^ 32 - 1 <= Z.of_nat (length a))%Z → array_push a e = None.
Proof.
  intros H. unfold array_push. apply Z.ltb_ge in H. by rewrite H.
Qed.

(** A value without an infinite number is printed as it is. *)
Lemma wire_finite : ∀ v, finite v = true → wire v = v.
Proof.
  fix IH 1. intros [| |[q|b]|s|items|fields]; simpl; try done.
  - intros H. f_equal. induction items as [|x items IHi]; [done|].
    simpl in H. apply andb_prop in H as [Hx Hi]. simpl.
    by rewrite (IH x Hx), (IHi Hi).
  - intros H. f_equal. induction fields as [|[k x] fields IHf]; [done|].
    simpl in H. apply andb_prop in H as [Hx Hf]. simpl.
    by rewrite (IH x Hx), (IHf Hf).
Qed.

(** ** Dispatch *)

(** A message that reaches a [case] label is an object. *)
Lemma classified_is_object (parsed : json) :
  classify (get "type" parsed) ≠ KUnknown → ∃ fields, parsed = JObj fields.
Proof.
  destruct parsed; simpl; try congruence. eauto.
Qed.

Lemma on_message_object (s : State) (ws : conn) (fields : list (string * json)) :
  on_message s ws (Some (JObj fields)) =
  match classify (get "type" (JObj fields)) with
  | KRegister => case_register ToNumber s ws (JObj fields)
  | KRequestUserList =>
      registered_only s ws (fun m => case_request_user_list s ws m)
  | KMessage =>
      registered_only s ws (fun m => case_message ToNumber s ws m (JObj fields))
  | KPointer =>
      registered_only s ws (fun m => case_pointer Prints s ws m (JObj fields))
  | KLock => registered_only s ws (fun m => case_lock s ws m)
  | KUnlock => registered_only s ws (fun m => case_unlock s ws m)
  | KColor => registered_only s ws (fun m => case_color s ws m (JObj fields))
  | KInit => registered_only s ws (fun m => case_init Prints s ws m)
  | KDraw =>
      registered_only s ws (fun m => case_draw Prints s ws m (JObj fields))
  | KStream =>
      registered_only s ws (fun m => case_stream Prints s ws m (JObj fields))
  | KMove =>
      registered_only s ws (fun m => case_move Prints s ws m (JObj fields))
  | KDelete =>
      registered_only s ws (fun m => case_delete Prints s ws m (JObj fields))
  | KClear => registered_only s ws (fun m => case_clear Prints s ws m)
  | KSignal t =>
      registered_only s ws
        (fun m => case_signal ToNumber Prints s ws m t (JObj fields))
  | KUnknown => (s, [(ws, PError "Unknown message type")])
  end.
Proof. reflexivity. Qed.

(** Rewrites [on_message] on a message known to reach the label [Hk] says,
    from a connection whose registry entry [Hm] gives. *)
Ltac dispatch parsed Hk Hm :=
  let fields := fresh "fields" in
  let Hobj := fresh "Hobj" in
  destruct (classified_is_object parsed) as [fields Hobj];
  [rewrite Hk; discriminate
  |subst parsed; rewrite on_message_object, Hk;
   unfold registered_only; rewrite Hm].

(** ** Index fields that are no numbers *)

(** C10: a [stream], [move] or [delete] message of a registered connection
    whose [index] is missing or is not a number is dropped without a word:
    nothing is sent to anyone and the state, the document of the room with
    it, is what it was. *)
Theorem C10_non_numeric_index_ignored (s : State) (ws : conn)
    (clientMeta : ConnectionMeta) (parsed : json) :
  clients_get ws (activeClients s) = Some clientMeta →
  classify (get "type" parsed) = KStream
  ∨ classify (get "type" parsed) = KMove
  ∨ classify (get "type" parsed) = KDelete →
  as_number (get "index" parsed) = None →
  on_message s ws (Some parsed) = (s, []).
Proof.
  intros Hm Hk Hidx.
  destruct Hk as [Hk | [Hk | Hk]]; dispatch parsed Hk Hm.
  - unfold case_stream. rewrite Hidx. reflexivity.
  - unfold case_move. rewrite Hidx. reflexivity.
  - unfold case_delete. rewrite Hidx. reflexivity.
Qed.

(** ** What a message leaves alone *)

Lemma broadcast_payload (s : State) (room : string) (p : payload)
    (exclude : option conn) (x : sent) :
  x ∈ broadcastToRoom s room p exclude → snd x = p.
Proof.
  unfold broadcastToRoom. intros H.
  apply list_elem_of_fmap in H as [e [-> _]]. reflexivity.
Qed.

Lemma broadcast_stream_payload (s : State) (room : string) (p : payload)
    (sender : option conn) (x : sent) :
  x ∈ broadcastStreamToRoom s room p sender → snd x = p.
Proof.
  unfold broadcastStreamToRoom. intros H.
  apply list_elem_of_fmap in H as [e [-> _]]. reflexivity.
Qed.

Lemma send_to_user_payload (s : State) (room : string) (target : option Q)
    (p : payload) (x : sent) :
  x ∈ snd (sendToUserInRoom s room target p) → snd x = p.
Proof.
  unfold sendToUserInRoom. destruct (List.find _ _); simpl; intros H.
  - apply list_elem_of_singleton in H. subst x. reflexivity.
  - apply elem_of_nil in H. contradiction.
Qed.

(** Unfolds the handler of every label and splits on what it tests. *)
Ltac handler_cases :=
  unfold registered_only, case_register, case_request_user_list, case_message,
    case_pointer, case_lock, case_unlock, case_color, case_init, case_clear,
    case_draw, case_stream, case_move, case_delete, case_signal, store_shapes,
    not_registered, printed, server_error;
  repeat case_match; simpl.

(** No message touches the registry, the presence sets or the sockets: a
    message changes the shapes of a room or leaves a task behind. *)
Lemma on_message_frame (s : State) (ws : conn) (data : option json) :
  activeClients (fst (on_message s ws data)) = activeClients s
  ∧ roomUserMap (fst (on_message s ws data)) = roomUserMap s
  ∧ readyState (fst (on_message s ws data)) = readyState s.
Proof.
  destruct data as [parsed|]; [|done].
  destruct parsed; try done.
  rewrite on_message_object.
  destruct (classify _); handler_cases; done.
Qed.

Lemma resume_chat_frame (s : State) (ws : conn) (room : string)
    (res : ChatCreate) :
  fst (resume_chat s ws room res) = s.
Proof. destruct res; reflexivity. Qed.

(** ** Registration the gate does not confirm *)

Lemma find_none_not_confirmed (uid : option Q) (users : list Z) :
  (∀ u, u ∈ users → num_is uid u = false) →
  List.find (num_is uid) users = None.
Proof.
  intros H. destruct (List.find (num_is uid) users) as [u|] eqn:Hf; [|done].
  apply find_some in Hf as [Hin Hu].
  apply list_elem_of_In in Hin. rewrite (H u Hin) in Hu. discriminate.
Qed.

(** C5: when the lookup of a register attempt settles without confirming
    the pair (no such room, or a room without that user), the connection
    is sent the "Unauthorized user or room" error and nothing else is
    sent; the registry and the presence sets are what they were before
    the attempt, so the connection is as unregistered as before.  The part
    of the handler before the lookup changes neither of them either. *)
Theorem C5_unauthorized_register_no_mutation (s : State) (i : nat) (ws : conn)
    (room : json) (numericUserId : option Q) (res : RoomLookup) :
  pending s !! i = Some (TRegister ws room numericUserId) →
  not_confirmed numericUserId res →
  snd (step s (EvRoomLookup i res)) = [(ws, PError "Unauthorized user or room")]
  ∧ activeClients (fst (step s (EvRoomLookup i res))) = activeClients s
  ∧ roomUserMap (fst (step s (EvRoomLookup i res))) = roomUserMap s
  ∧ clients_get ws (activeClients (fst (step s (EvRoomLookup i res))))
    = clients_get ws (activeClients s)
  ∧ ∀ s0 parsed,
      activeClients (fst (case_register ToNumber s0 ws parsed)) = activeClients s0
      ∧ roomUserMap (fst (case_register ToNumber s0 ws parsed)) = roomUserMap s0.
Proof.
  intros Hp Hres. simpl. rewrite Hp. unfold resume_register.
  assert (Hpre : ∀ s0 parsed,
      activeClients (fst (case_register ToNumber s0 ws parsed)) = activeClients s0
      ∧ roomUserMap (fst (case_register ToNumber s0 ws parsed)) = roomUserMap s0).
  { intros s0 parsed. unfold case_register. repeat case_match; done. }
  destruct res as [| |users]; simpl in Hres.
  - contradiction.
  - done.
  - rewrite (find_none_not_confirmed _ _ Hres). done.
Qed.

(** ** Chat persistence that fails *)

(** C6: when [prisma.chat.create] fails for a chat message, the only thing
    sent is the "Server error" reply to the sender: no [message-sent] and
    no [new-message] reaches any connection.  Nothing that carries a chat
    record is sent by the message handler itself either, that is, before
    the persistence call has settled. *)
Theorem C6_persistence_failure_no_delivery (s : State) (i : nat) (ws : conn)
    (room : string) (numericUserId : Z) (text : option json) :
  pending s !! i = Some (TChat ws room numericUserId text) →
  snd (step s (EvChatCreate i ChatThrow)) = [(ws, PError "Server error")]
  ∧ (∀ x, x ∈ snd (step s (EvChatCreate i ChatThrow)) →
          is_chat_payload (snd x) = false)
  ∧ ∀ s0 c data x, x ∈ snd (on_message s0 c data) →
                   is_chat_payload (snd x) = false.
Proof.
  intros Hp. simpl. rewrite Hp. simpl. split; [done|]. split.
  - intros x Hx. apply list_elem_of_singleton in Hx. subst x. reflexivity.
  - intros s0 c data x.
    destruct data as [[| | | | |fields]|];
      try (simpl; intros Hx; apply list_elem_of_singleton in Hx; subst x;
           reflexivity).
    rewrite on_message_object.
    destruct (classify _); handler_cases; intros Hx;
      repeat match goal with
        | H : _ ∈ [] |- _ => apply elem_of_nil in H; contradiction
        | H : _ ∈ [_] |- _ => apply list_elem_of_singleton in H; subst
        | H : _ ∈ _ ++ _ |- _ => apply elem_of_app in H as [H | H]
        | H : _ ∈ broadcastToRoom _ _ _ _ |- _ =>
            apply broadcast_payload in H; rewrite H
        | H : _ ∈ broadcastStreamToRoom _ _ _ _ |- _ =>
            apply broadcast_stream_payload in H; rewrite H
        | H : sendToUserInRoom ?s ?r ?t ?p = (_, ?o), H' : _ ∈ ?o |- _ =>
            let E := fresh in
            assert (E : o = snd (sendToUserInRoom s r t p)) by (rewrite H; done);
            rewrite E in H'; apply send_to_user_payload in H'; rewrite H'
        end; reflexivity.
Qed.

(** ** Draw, then init *)

Lemma shapes_of_store (s : State) (room : string) (a : shapes_t) :
  shapes_of (store_shapes s room a) room = a.
Proof. unfold shapes_of, store_shapes. simpl. by rewrite lookup_insert_eq. Qed.

Lemma on_message_init (s : State) (ws : conn) (m : ConnectionMeta)
    (parsed : json) :
  clients_get ws (activeClients s) = Some m →
  classify (get "type" parsed) = KInit →
  on_message s ws (Some parsed)
  = (s, printed ws (PInit (stringify_shapes (shapes_of s (roomId m))))
          [(ws, PInit (stringify_shapes (shapes_of s (roomId m))))]).
Proof. intros Hm Hk. dispatch parsed Hk Hm. reflexivity. Qed.

(** What a [draw] leaves in the map, whether its [sync] is printed or
    not. *)
Lemma on_message_draw_state (s : State) (ws : conn) (m : ConnectionMeta)
    (parsed : json) :
  clients_get ws (activeClients s) = Some m →
  classify (get "type" parsed) = KDraw →
  fst (on_message s ws (Some parsed))
  = match array_push (shapes_of s (roomId m)) (get "element" parsed) with
    | Some shapes => store_shapes s (roomId m) shapes
    | None => s
    end.
Proof.
  intros Hm Hk. dispatch parsed Hk Hm. unfold case_draw.
  by destruct (array_push _ _).
Qed.

(** C8, as the code has it: in a room whose document is empty, after a
    [draw] of an element by one registered connection, an [init] of a
    registered connection of the same room is answered, to that connection
    only, with a sequence of one item, the drawn element as
    [JSON.stringify] prints it: the element itself when no number in it is
    beyond the doubles, and with [null] in the place of such numbers
    otherwise.  When the engine cannot print the sequence, the connection
    is sent "Server error" instead. *)
Theorem C8_draw_then_init (s : State) (ws1 ws2 : conn)
    (m1 m2 : ConnectionMeta) (draw init element : json) :
  clients_get ws1 (activeClients s) = Some m1 →
  clients_get ws2 (activeClients s) = Some m2 →
  roomId m1 = roomId m2 →
  shapes_of s (roomId m1) = [] →
  classify (get "type" draw) = KDraw →
  get "element" draw = Some element →
  classify (get "type" init) = KInit →
  let out := snd (on_message (fst (on_message s ws1 (Some draw))) ws2 (Some init)) in
  (Prints (PInit [wire element]) = true → out = [(ws2, PInit [wire element])])
  ∧ (Prints (PInit [wire element]) = false →
     out = [(ws2, PError "Server error")])
  ∧ (finite element = true → wire element = element).
Proof.
  intros H1 H2 Hroom Hempty Hdraw Helem Hinit out. subst out.
  rewrite (on_message_draw_state _ _ _ _ H1 Hdraw), Helem, Hempty.
  rewrite array_push_room by (simpl; lia). cbn [app].
  set (s1 := store_shapes s (roomId m1) [Some element]).
  assert (H2' : clients_get ws2 (activeClients s1) = Some m2) by exact H2.
  rewrite (on_message_init _ _ _ _ H2' Hinit). cbn [snd].
  rewrite <- Hroom. unfold s1. rewrite shapes_of_store.
  unfold printed. cbn [stringify_shapes map stringify_returns].
  split; [|split].
  - intros Hp. by rewrite Hp.
  - intros Hp. by rewrite Hp.
  - apply wire_finite.
Qed.

(** ** Signaling *)

Lemma classify_signal (type : option json) (t : string) :
  classify type = KSignal t →
  type = Some (JStr t)
  ∧ (t = "webrtc-offer" ∨ t = "webrtc-answer" ∨ t = "webrtc-ice").
Proof.
  unfold classify. destruct type as [[]|]; try discriminate.
  repeat match goal with
    | |- context [String.eqb ?a ?b] =>
        let E := fresh in destruct (String.eqb a b) eqn:E; try discriminate
    end;
    intros [= <-];
    match goal with
    | E : String.eqb _ _ = true |- _ => apply String.eqb_eq in E; auto
    end.
Qed.

(** C9, as the code has it: on a [webrtc-offer], [webrtc-answer] or
    [webrtc-ice] message of a registered sender the state is left alone,
    and
    - with a [targetUserId] that is missing or that [!targetUserId] takes
      for missing ([null], [false], 0, the empty string), the sender is
      sent "Missing targetUserId" and nothing else happens;
    - with one that [Number] cannot convert, or with a message that
      [JSON.stringify] cannot print, the sender is sent "Server error" and
      nothing is relayed;
    - otherwise, when no OPEN connection is registered in the sender's room
      for the target, [sendToUserInRoom] answers [false], sends nothing,
      and the sender is sent "Target user not connected";
    - and when there is one, [sendToUserInRoom] answers [true] and the
      message [{type, fromUserId, data}], with the type of the incoming
      message and the sender's user id, is sent once, to one such
      connection, and nothing is sent to anyone else. *)
Theorem C9_signaling_relay (s : State) (ws : conn) (clientMeta : ConnectionMeta)
    (parsed : json) (t : string) :
  clients_get ws (activeClients s) = Some clientMeta →
  classify (get "type" parsed) = KSignal t →
  let target := get "targetUserId" parsed in
  let p := PSignal t (userId clientMeta) (option_map wire (get "data" parsed)) in
  get "type" parsed = Some (JStr t)
  ∧ (target = None →
     on_message s ws (Some parsed) = (s, [(ws, PError "Missing targetUserId")]))
  ∧ (truthy_opt target = false →
     on_message s ws (Some parsed) = (s, [(ws, PError "Missing targetUserId")]))
  ∧ (truthy_opt target = true → Number target = Throws →
     on_message s ws (Some parsed) = (s, [(ws, PError "Server error")]))
  ∧ (∀ n, truthy_opt target = true → Number target = Converts n →
          Prints p = false →
          on_message s ws (Some parsed) = (s, [(ws, PError "Server error")]))
  ∧ (∀ n, truthy_opt target = true → Number target = Converts n →
          Prints p = true →
          (∀ e, e ∈ activeClients s →
                is_target s (roomId clientMeta) n e = false) →
          sendToUserInRoom s (roomId clientMeta) n p = (false, [])
          ∧ on_message s ws (Some parsed)
            = (s, [(ws, PError "Target user not connected")]))
  ∧ (∀ n, truthy_opt target = true → Number target = Converts n →
          Prints p = true →
          (∃ e, e ∈ activeClients s
                ∧ is_target s (roomId clientMeta) n e = true) →
          ∃ c m, (c, m) ∈ activeClients s
                 ∧ roomId m = roomId clientMeta
                 ∧ num_is n (userId m) = true
                 ∧ readyState s !! c = Some OPEN
                 ∧ sendToUserInRoom s (roomId clientMeta) n p = (true, [(c, p)])
                 ∧ on_message s ws (Some parsed) = (s, [(c, p)])).
Proof.
  intros Hm Hk target p.
  split; [apply (classify_signal _ _ Hk)|].
  dispatch parsed Hk Hm. unfold case_signal. fold target. fold p.
  split; [|split; [|split; [|split; [|split]]]].
  - intros Ht. rewrite Ht. reflexivity.
  - intros Ht. rewrite Ht. reflexivity.
  - intros Ht Hn. rewrite Ht, Hn. reflexivity.
  - intros n Ht Hn Hp. rewrite Ht, Hn. cbn [negb].
    destruct (sendToUserInRoom _ _ _ _) as [forwarded out].
    unfold printed. change (stringify_returns p) with (Prints p). by rewrite Hp.
  - intros n Ht Hn Hp Hnone. rewrite Ht, Hn. cbn [negb].
    unfold sendToUserInRoom.
    destruct (List.find _ _) as [e|] eqn:Hf.
    + apply find_some in Hf as [Hin He].
      apply list_elem_of_In in Hin. rewrite (Hnone e Hin) in He. discriminate.
    + unfold printed. change (stringify_returns p) with (Prints p). by rewrite Hp.
  - intros n Ht Hn Hp [e [Hin He]]. rewrite Ht, Hn. cbn [negb].
    unfold sendToUserInRoom.
    destruct (List.find _ _) as [[c m]|] eqn:Hf.
    + apply find_some in Hf as [Hin' He'].
      apply list_elem_of_In in Hin'.
      exists c, m. unfold is_target in He'. simpl in He'.
      apply andb_prop in He' as [He' Hopen].
      apply andb_prop in He' as [Hroom Hnum].
      apply String.eqb_eq in Hroom.
      unfold is_open in Hopen. apply bool_decide_eq_true in Hopen.
      unfold printed. change (stringify_returns p) with (Prints p). rewrite Hp.
      done.
    + apply list_elem_of_In in Hin.
      pose proof (find_none _ _ Hf e Hin) as Hno. simpl in Hno.
      rewrite He in Hno. discriminate.
Qed.

(** ** Who a broadcast reaches *)

Lemma has_user_users_of (s : State) (room : string) (u : Z) :
  has_user (roomUserMap s !! room) u = true ↔ u ∈ users_of s room.
Proof.
  unfold has_user, users_of. destruct (roomUserMap s !! room).
  - apply bool_decide_eq_true.
  - split; [discriminate|]. intros H. apply elem_of_nil in H. contradiction.
Qed.

Lemma is_recipient_spec (s : State) (room : string) (exclude : option conn)
    (c : conn) (m : ConnectionMeta) :
  is_recipient s room exclude (c, m) = true ↔
  Some c ≠ exclude ∧ roomId m = room ∧ userId m ∈ users_of s room
  ∧ readyState s !! c = Some OPEN.
Proof.
  unfold is_recipient, is_open. simpl.
  rewrite !andb_true_iff, negb_true_iff, bool_decide_eq_false,
    String.eqb_eq, has_user_users_of, bool_decide_eq_true.
  tauto.
Qed.

(** [broadcastToRoom] sends the payload to the members of the room, the
    excluded connection apart, and to nobody else. *)
Lemma broadcast_reaches (s : State) (room : string) (p : payload)
    (exclude : option conn) (c : conn) (p' : payload) :
  (c, p') ∈ broadcastToRoom s room p exclude ↔
  p' = p ∧ Some c ≠ exclude ∧ is_member s room c.
Proof.
  clear ToNumber Prints.
  unfold broadcastToRoom, is_member. rewrite list_elem_of_fmap. split.
  - intros [[c' m] [[= -> ->] Hin]].
    apply list_elem_of_In, filter_In in Hin as [Hin Hr].
    apply list_elem_of_In in Hin. apply is_recipient_spec in Hr.
    split; [done|]. split; [tauto|]. exists m. tauto.
  - intros [-> [Hex [m [Hin [Hroom [Hu Hopen]]]]]].
    exists (c, m). split; [done|].
    apply list_elem_of_In, filter_In. split.
    + by apply list_elem_of_In.
    + apply is_recipient_spec. done.
Qed.

Lemma broadcast_stream_reaches (s : State) (room : string) (p : payload)
    (sender : option conn) (c : conn) (p' : payload) :
  (c, p') ∈ broadcastStreamToRoom s room p sender ↔
  p' = p ∧ Some c ≠ sender ∧ is_member s room c.
Proof. apply broadcast_reaches. Qed.

Lemma broadcast_all_reaches (s : State) (room : string) (p : payload)
    (c : conn) (p' : payload) :
  (c, p') ∈ broadcastToRoom s room p None ↔ p' = p ∧ is_member s room c.
Proof.
  rewrite broadcast_reaches. split.
  - intros (? & _ & ?). done.
  - intros (? & ?). done.
Qed.

(** ** A [JSON.stringify] that returns, and one that throws *)

Lemma printed_true (ws : conn) (p : payload) (out : list sent) :
  stringify_returns p = true → printed ws p out = out.
Proof. intros H. unfold printed. by rewrite H. Qed.

Lemma printed_false (ws : conn) (p : payload) (out : list sent) :
  stringify_returns p = false → printed ws p out = [(ws, PError "Server error")].
Proof. intros H. unfold printed. by rewrite H. Qed.

Lemma printed_empty_sync (ws : conn) (out : list sent) :
  printed ws (PSync []) out = out.
Proof. reflexivity. Qed.

(** ** What the drawing messages do *)

Lemma on_message_draw (s : State) (ws : conn) (m : ConnectionMeta)
    (parsed : json) :
  clients_get ws (activeClients s) = Some m →
  classify (get "type" parsed) = KDraw →
  (Z.of_nat (length (shapes_of s (roomId m))) < 2 ^ 32 - 1)%Z →
  on_message s ws (Some parsed)
  = (store_shapes s (roomId m) (shapes_of s (roomId m) ++ [get "element" parsed]),
     printed ws
       (PSync (stringify_shapes
                 (shapes_of s (roomId m) ++ [get "element" parsed])))
       (broadcastToRoom s (roomId m)
          (PSync (stringify_shapes
                    (shapes_of s (roomId m) ++ [get "element" parsed])))
          None)).
Proof.
  intros Hm Hk Hlen. dispatch parsed Hk Hm. unfold case_draw.
  rewrite array_push_room by exact Hlen. reflexivity.
Qed.

Lemma on_message_draw_full (s : State) (ws : conn) (m : ConnectionMeta)
    (parsed : json) :
  clients_get ws (activeClients s) = Some m →
  classify (get "type" parsed) = KDraw →
  (2 ^ 32 - 1 <= Z.of_nat (length (shapes_of s (roomId m))))%Z →
  on_message s ws (Some parsed) = (s, [(ws, PError "Server error")]).
Proof.
  intros Hm Hk Hlen. dispatch parsed Hk Hm. unfold case_draw.
  rewrite array_push_full by exact Hlen. reflexivity.
Qed.

Lemma on_message_clear (s : State) (ws : conn) (m : ConnectionMeta)
    (parsed : json) :
  clients_get ws (activeClients s) = Some m →
  classify (get "type" parsed) = KClear →
  on_message s ws (Some parsed)
  = (store_shapes s (roomId m) [],
     broadcastToRoom s (roomId m) (PSync []) None).
Proof. intros Hm Hk. dispatch parsed Hk Hm. reflexivity. Qed.

Lemma on_message_stream (s : State) (ws : conn) (m : ConnectionMeta)
    (parsed : json) (n : number) :
  clients_get ws (activeClients s) = Some m →
  classify (get "type" parsed) = KStream →
  as_number (get "index" parsed) = Some n →
  on_message s ws (Some parsed)
  = (store_shapes s (roomId m)
       (array_assign (shapes_of s (roomId m)) n (get "element" parsed)),
     printed ws
       (PStream (option_map wire (get "element" parsed)) (wire (JNum n))
          (option_map wire (get "color" parsed)) (userId m))
       (broadcastStreamToRoom s (roomId m)
          (PStream (option_map wire (get "element" parsed)) (wire (JNum n))
             (option_map wire (get "color" parsed)) (userId m))
          (Some ws))).
Proof.
  intros Hm Hk Hq. dispatch parsed Hk Hm. unfold case_stream. rewrite Hq.
  reflexivity.
Qed.

Lemma on_message_move (s : State) (ws : conn) (m : ConnectionMeta)
    (parsed : json) (n : number) :
  clients_get ws (activeClients s) = Some m →
  classify (get "type" parsed) = KMove →
  as_number (get "index" parsed) = Some n →
  on_message s ws (Some parsed)
  = (store_shapes s (roomId m)
       (array_assign (shapes_of s (roomId m)) n (get "element" parsed)),
     printed ws
       (PSync (stringify_shapes
                 (array_assign (shapes_of s (roomId m)) n (get "element" parsed))))
       (broadcastToRoom s (roomId m)
          (PSync (stringify_shapes
                    (array_assign (shapes_of s (roomId m)) n
                       (get "element" parsed))))
          None)).
Proof.
  intros Hm Hk Hq. dispatch parsed Hk Hm. unfold case_move. rewrite Hq.
  reflexivity.
Qed.

Lemma on_message_delete (s : State) (ws : conn) (m : ConnectionMeta)
    (parsed : json) (n : number) :
  clients_get ws (activeClients s) = Some m →
  classify (get "type" parsed) = KDelete →
  as_number (get "index" parsed) = Some n →
  on_message s ws (Some parsed)
  = (store_shapes s (roomId m) (array_splice1 (shapes_of s (roomId m)) n),
     printed ws
       (PSync (stringify_shapes (array_splice1 (shapes_of s (roomId m)) n)))
       (broadcastToRoom s (roomId m)
          (PSync (stringify_shapes (array_splice1 (shapes_of s (roomId m)) n)))
          None)).
Proof.
  intros Hm Hk Hq. dispatch parsed Hk Hm. unfold case_delete. rewrite Hq.
  reflexivity.
Qed.

(** ** Stream at any index *)

Lemma array_assign_inside (a : shapes_t) (i : Z) (e : option json) :
  (0 <= i < Z.of_nat (length a))%Z → (i < 2 ^ 32 - 1)%Z →
  array_assign a (Finite (inject_Z i)) e = <[Z.to_nat i := e]> a.
Proof.
  intros Hi Hmax. unfold array_assign. rewrite array_index_inject by lia.
  assert (H : (Z.to_nat i <? length a)%nat = true) by (apply Nat.ltb_lt; lia).
  rewrite H. reflexivity.
Qed.

Lemma array_assign_past_end (a : shapes_t) (i : Z) (e : option json) :
  (Z.of_nat (length a) <= i < 2 ^ 32 - 1)%Z →
  array_assign a (Finite (inject_Z i)) e
  = a ++ replicate (Z.to_nat i - length a) None ++ [e].
Proof.
  intros Hi. unfold array_assign. rewrite array_index_inject by lia.
  assert (H : (Z.to_nat i <? length a)%nat = false) by (apply Nat.ltb_ge; lia).
  rewrite H. reflexivity.
Qed.

Lemma array_assign_negative (a : shapes_t) (i : Z) (e : option json) :
  (i < 0)%Z → array_assign a (Finite (inject_Z i)) e = a.
Proof.
  intros Hi. unfold array_assign. rewrite array_index_negative by lia.
  reflexivity.
Qed.

(** C3, as the code has it: a [stream] message of a registered connection
    with a number as [index] is never rejected for its index.  The
    assignment is made first, and it stays whatever follows:
    - a number that is no array index (a fraction, a number below zero or
      at or past 2^32 - 1, a number beyond the doubles) leaves the sequence
      as it is;
    - an integer index inside the sequence replaces the slot;
    - an integer index at or past its length (and below 2^32 - 1) makes
      the sequence grow to [i + 1] slots: the element sits at [i], the
      slots it had are kept and the ones between are empty.
    Then the delta is printed.  When [JSON.stringify] returns, no error is
    sent to anyone and the delta goes to the other members of the room and
    to nobody else; when it throws, the sender is sent "Server error" and
    nobody receives the delta. *)
Theorem C3_stream_index_never_rejected (s : State) (ws : conn)
    (clientMeta : ConnectionMeta) (parsed : json) (n : number) :
  clients_get ws (activeClients s) = Some clientMeta →
  classify (get "type" parsed) = KStream →
  as_number (get "index" parsed) = Some n →
  let room := roomId clientMeta in
  let element := get "element" parsed in
  let before := shapes_of s room in
  let after := shapes_of (fst (on_message s ws (Some parsed))) room in
  let out := snd (on_message s ws (Some parsed)) in
  let delta := PStream (option_map wire element) (wire (JNum n))
                 (option_map wire (get "color" parsed)) (userId clientMeta) in
  (Prints delta = true →
   (∀ x, x ∈ out → is_error (snd x) = false)
   ∧ ∀ c p, (c, p) ∈ out ↔ p = delta ∧ c ≠ ws ∧ is_member s room c)
  ∧ (Prints delta = false → out = [(ws, PError "Server error")])
  ∧ (∀ negative, n = Infinite negative → after = before)
  ∧ (∀ q, n = Finite q → array_index q = None → after = before)
  ∧ ∀ i : Z, n = Finite (inject_Z i) →
      ((i < 0)%Z → after = before)
      ∧ ((0 <= i < Z.of_nat (length before))%Z → (i < 2 ^ 32 - 1)%Z →
         after = <[Z.to_nat i := element]> before)
      ∧ ((Z.of_nat (length before) <= i < 2 ^ 32 - 1)%Z →
         length after = S (Z.to_nat i)
         ∧ after !! Z.to_nat i = Some element
         ∧ (∀ j, (j < length before)%nat → after !! j = before !! j)
         ∧ (∀ j, (length before <= j < Z.to_nat i)%nat → after !! j = Some None)).
Proof.
  intros Hm Hk Hq room element before after out delta.
  subst after out. rewrite (on_message_stream _ _ _ _ _ Hm Hk Hq).
  cbn [fst snd]. rewrite shapes_of_store. fold room element before delta.
  split; [|split; [|split; [|split]]].
  - intros Hp. rewrite printed_true by exact Hp. split.
    + intros x Hx. apply broadcast_stream_payload in Hx. rewrite Hx.
      reflexivity.
    + intros c p. rewrite broadcast_stream_reaches.
      split; intros (? & ? & ?); (split; [done|]); (split; [congruence|done]).
  - intros Hp. by rewrite printed_false by exact Hp.
  - intros negative ->. reflexivity.
  - intros q -> Hnone. unfold array_assign. by rewrite Hnone.
  - intros i ->. split; [|split].
    + intros Hi. by apply array_assign_negative.
    + intros Hi Hmax. by apply array_assign_inside.
    + intros Hi. rewrite array_assign_past_end by done.
      assert (Hlen : length (replicate (Z.to_nat i - length before)
                               (@None json)) = (Z.to_nat i - length before)%nat)
        by apply length_replicate.
      split; [|split; [|split]].
      * rewrite !length_app, Hlen. simpl. lia.
      * rewrite lookup_app_r by lia. rewrite lookup_app_r by (rewrite Hlen; lia).
        rewrite Hlen.
        replace (Z.to_nat i - length before - (Z.to_nat i - length before))%nat
          with 0%nat by lia.
        reflexivity.
      * intros j Hj. by rewrite lookup_app_l.
      * intros j Hj. rewrite lookup_app_r by lia.
        rewrite lookup_app_l by (rewrite Hlen; lia).
        apply lookup_replicate_2. lia.
Qed.

(** ** Delete out of range *)

Lemma splice_start_front (q : Q) :
  (to_integer q <= 0)%Z → splice_start 1 (Finite q) = 0%Z.
Proof.
  intros Hq. unfold splice_start.
  destruct (to_integer q <? 0)%Z eqn:Hneg.
  - apply Z.ltb_lt in Hneg. lia.
  - apply Z.ltb_ge in Hneg. lia.
Qed.

(** C4, as the code has it: a [delete] message of a registered connection
    with a number as [index] is answered with a [sync] of the sequence it
    leaves, sent to every member of the room and to nobody else, and with
    no error, whenever [JSON.stringify] can print that sequence; when it
    cannot, the sender is sent "Server error" and the sequence stays as the
    delete left it.  As for the sequence,
    - when the index, cut to an integer, is at or past its length, it is
      unchanged;
    - when it is empty it stays empty, whatever the index, and the [sync]
      of the empty sequence goes out;
    - when it has length 1, [delete(i)] with [i <= 0] empties it, and the
      same [delete(i)] again leaves it empty, with a [sync] of the empty
      sequence to the members and no error.
    A negative index counts from the end of the sequence, so it is not out
    of range in this sense. *)
Theorem C4_delete_past_end_noop (s : State) (ws : conn)
    (clientMeta : ConnectionMeta) (parsed : json) (n : number) :
  clients_get ws (activeClients s) = Some clientMeta →
  classify (get "type" parsed) = KDelete →
  as_number (get "index" parsed) = Some n →
  let room := roomId clientMeta in
  let before := shapes_of s room in
  let s1 := fst (on_message s ws (Some parsed)) in
  let out1 := snd (on_message s ws (Some parsed)) in
  let s2 := fst (on_message s1 ws (Some parsed)) in
  let out2 := snd (on_message s1 ws (Some parsed)) in
  let sync1 := PSync (stringify_shapes (shapes_of s1 room)) in
  (stringify_returns sync1 = true →
   (∀ x, x ∈ out1 → is_error (snd x) = false)
   ∧ ∀ c p, (c, p) ∈ out1 ↔ p = sync1 ∧ is_member s room c)
  ∧ (stringify_returns sync1 = false → out1 = [(ws, PError "Server error")])
  ∧ ((n = Infinite false
      ∨ ∃ q, n = Finite q ∧ (Z.of_nat (length before) <= to_integer q)%Z) →
     shapes_of s1 room = before)
  ∧ (before = [] →
     shapes_of s1 room = []
     ∧ (∀ x, x ∈ out1 → is_error (snd x) = false)
     ∧ ∀ c p, (c, p) ∈ out1 ↔ p = PSync [] ∧ is_member s room c)
  ∧ (length before = 1%nat →
     (n = Infinite true ∨ ∃ q, n = Finite q ∧ (to_integer q <= 0)%Z) →
     shapes_of s1 room = []
     ∧ shapes_of s2 room = []
     ∧ (∀ x, x ∈ out2 → is_error (snd x) = false)
     ∧ ∀ c p, (c, p) ∈ out2 ↔ p = PSync [] ∧ is_member s room c).
Proof.
  intros Hm Hk Hq room before s1 out1 s2 out2 sync1.
  assert (E1 : on_message s ws (Some parsed)
               = (store_shapes s room (array_splice1 before n),
                  printed ws (PSync (stringify_shapes (array_splice1 before n)))
                    (broadcastToRoom s room
                       (PSync (stringify_shapes (array_splice1 before n)))
                       None)))
    by apply (on_message_delete _ _ _ _ _ Hm Hk Hq).
  assert (Hs1 : s1 = store_shapes s room (array_splice1 before n))
    by (subst s1; rewrite E1; reflexivity).
  assert (Ho1 : out1
                = printed ws (PSync (stringify_shapes (array_splice1 before n)))
                    (broadcastToRoom s room
                       (PSync (stringify_shapes (array_splice1 before n)))
                       None))
    by (subst out1; rewrite E1; reflexivity).
  assert (Hafter : shapes_of s1 room = array_splice1 before n)
    by (rewrite Hs1; apply shapes_of_store).
  assert (Hm1 : clients_get ws (activeClients s1) = Some clientMeta)
    by (rewrite Hs1; exact Hm).
  assert (E2 : on_message s1 ws (Some parsed)
               = (store_shapes s1 room (array_splice1 (shapes_of s1 room) n),
                  printed ws
                    (PSync (stringify_shapes
                              (array_splice1 (shapes_of s1 room) n)))
                    (broadcastToRoom s1 room
                       (PSync (stringify_shapes
                                 (array_splice1 (shapes_of s1 room) n)))
                       None)))
    by apply (on_message_delete _ _ _ _ _ Hm1 Hk Hq).
  subst sync1. clearbody s1 out1. subst s2 out2. rewrite E2. cbn [fst snd].
  rewrite shapes_of_store, Hafter.
  split; [|split; [|split; [|split]]].
  - intros Hp. rewrite Ho1, printed_true by exact Hp. split.
    + intros x Hx. apply broadcast_payload in Hx. rewrite Hx. reflexivity.
    + intros c p. apply broadcast_all_reaches.
  - intros Hp. by rewrite Ho1, printed_false by exact Hp.
  - intros Hpast. apply array_splice1_at_end.
    destruct Hpast as [->|(q & -> & Hge)].
    + reflexivity.
    + apply splice_start_past_end; [lia|done].
  - intros Hnil. rewrite Ho1, Hnil, array_splice1_empty.
    split; [done|]. cbn [stringify_shapes map]. rewrite printed_empty_sync.
    split.
    + intros x Hx. apply broadcast_payload in Hx. rewrite Hx. reflexivity.
    + intros c p. apply broadcast_all_reaches.
  - intros Hlen Hfront.
    assert (Hempty : array_splice1 before n = []).
    { destruct before as [|e [|e' r]]; simpl in Hlen; try discriminate.
      assert (Hstart : splice_start (Z.of_nat (length [e])) n = Z.of_nat 0).
      { destruct Hfront as [->|(q & -> & Hq0)]; [reflexivity|].
        by apply splice_start_front. }
      rewrite (array_splice1_on_slot [e] n 0); [reflexivity|simpl; lia|done]. }
    rewrite Hempty, array_splice1_empty.
    split; [done|]. split; [done|].
    cbn [stringify_shapes map]. rewrite printed_empty_sync. split.
    + intros x Hx. apply broadcast_payload in Hx. rewrite Hx. reflexivity.
    + intros c p. rewrite Hs1. exact (broadcast_all_reaches s room (PSync []) c p).
Qed.

(** ** Stream deltas and sync payloads *)

(** C7, as the code has it: for a registered sender, the members of its
    room being the OPEN connections registered there whose user is in the
    presence set of the room, and as long as [JSON.stringify] prints the
    message,
    - the delta of a [stream] with a number as [index] is sent to every
      member other than the sender, and never to the sender;
    - the [sync] of a [draw] on a sequence that [push] can extend, of a
      [move] with a number as [index] and of a [clear] is sent to every
      member, the sender among them when it is a member itself;
    and to nobody else.  The [sync] of a [clear] is always printed.  When
    [JSON.stringify] throws, or [push] does, the sender is sent "Server
    error" and nobody receives a delta or a [sync]. *)
Theorem C7_stream_excludes_sender_sync_includes (s : State) (ws : conn)
    (clientMeta : ConnectionMeta) (parsed : json) :
  clients_get ws (activeClients s) = Some clientMeta →
  let room := roomId clientMeta in
  let element := get "element" parsed in
  let out := snd (on_message s ws (Some parsed)) in
  (∀ n, classify (get "type" parsed) = KStream →
        as_number (get "index" parsed) = Some n →
        let delta := PStream (option_map wire element) (wire (JNum n))
                       (option_map wire (get "color" parsed))
                       (userId clientMeta) in
        ((ws, delta) ∉ out)
        ∧ (Prints delta = true →
           (∀ p, (ws, p) ∉ out)
           ∧ ∀ c p, (c, p) ∈ out ↔ p = delta ∧ c ≠ ws ∧ is_member s room c)
        ∧ (Prints delta = false → out = [(ws, PError "Server error")]))
  ∧ (classify (get "type" parsed) = KDraw →
     let sync := PSync (stringify_shapes (shapes_of s room ++ [element])) in
     ((Z.of_nat (length (shapes_of s room)) < 2 ^ 32 - 1)%Z →
      stringify_returns sync = true →
      ∀ c p, (c, p) ∈ out ↔ p = sync ∧ is_member s room c)
     ∧ ((Z.of_nat (length (shapes_of s room)) < 2 ^ 32 - 1)%Z →
        stringify_returns sync = false →
        out = [(ws, PError "Server error")])
     ∧ ((2 ^ 32 - 1 <= Z.of_nat (length (shapes_of s room)))%Z →
        out = [(ws, PError "Server error")]))
  ∧ (∀ n, classify (get "type" parsed) = KMove →
          as_number (get "index" parsed) = Some n →
          let sync := PSync (stringify_shapes
                               (array_assign (shapes_of s room) n element)) in
          (stringify_returns sync = true →
           ∀ c p, (c, p) ∈ out ↔ p = sync ∧ is_member s room c)
          ∧ (stringify_returns sync = false →
             out = [(ws, PError "Server error")]))
  ∧ (classify (get "type" parsed) = KClear →
     ∀ c p, (c, p) ∈ out ↔ p = PSync [] ∧ is_member s room c).
Proof.
  intros Hm room element out. subst out.
  split; [|split; [|split]].
  - intros n Hk Hq delta. rewrite (on_message_stream _ _ _ _ _ Hm Hk Hq).
    cbn [snd]. fold room element delta.
    destruct (Prints delta) eqn:Hp.
    + rewrite printed_true by exact Hp.
      assert (Hnot : ∀ p, (ws, p) ∉ broadcastStreamToRoom s room delta (Some ws)).
      { intros p Hin. apply broadcast_stream_reaches in Hin as (_ & Hne & _).
        congruence. }
      split; [apply Hnot|]. split; [|discriminate].
      intros _. split; [apply Hnot|].
      intros c p. rewrite broadcast_stream_reaches.
      split; intros (? & ? & ?); (split; [done|]); (split; [congruence|done]).
    + rewrite printed_false by exact Hp.
      split; [|split; [discriminate|done]].
      intros Hin. apply list_elem_of_singleton in Hin. discriminate.
  - intros Hk sync. split; [|split].
    + intros Hlen Hp. rewrite (on_message_draw _ _ _ _ Hm Hk Hlen).
      cbn [snd]. fold room element sync. rewrite printed_true by exact Hp.
      intros c p. apply broadcast_all_reaches.
    + intros Hlen Hp. rewrite (on_message_draw _ _ _ _ Hm Hk Hlen).
      cbn [snd]. fold room element sync. by rewrite printed_false by exact Hp.
    + intros Hlen. by rewrite (on_message_draw_full _ _ _ _ Hm Hk Hlen).
  - intros n Hk Hq sync. rewrite (on_message_move _ _ _ _ _ Hm Hk Hq).
    cbn [snd]. fold room element sync. split.
    + intros Hp. rewrite printed_true by exact Hp.
      intros c p. apply broadcast_all_reaches.
    + intros Hp. by rewrite printed_false by exact Hp.
  - intros Hk. rewrite (on_message_clear _ _ _ _ Hm Hk).
    cbn [snd]. intros c p. apply broadcast_all_reaches.
Qed.

(** ** What changes the meta of a connection *)

Lemma clients_get_set_eq (ws : conn) (m : ConnectionMeta) (l : clients_t) :
  clients_get ws (clients_set ws m l) = Some m.
Proof.
  induction l as [|[c m'] r IH]; simpl.
  - by rewrite Nat.eqb_refl.
  - destruct (Nat.eqb c ws) eqn:E; simpl; rewrite E; done.
Qed.

Lemma clients_get_set_ne (ws c : conn) (m : ConnectionMeta) (l : clients_t) :
  c ≠ ws → clients_get c (clients_set ws m l) = clients_get c l.
Proof.
  intros Hne. induction l as [|[c' m'] r IH]; simpl.
  - assert (E : Nat.eqb ws c = false) by (apply Nat.eqb_neq; congruence).
    by rewrite E.
  - destruct (Nat.eqb c' ws) eqn:E; simpl.
    + apply Nat.eqb_eq in E. subst c'.
      assert (E' : Nat.eqb ws c = false) by (apply Nat.eqb_neq; congruence).
      by rewrite E'.
    + destruct (Nat.eqb c' c); done.
Qed.

(** C2, as the code has it: the meta of a connection is set by every
    register message the gate confirms, also on a connection that has one.
    - No message changes the registry when it is handled, whatever its
      type, and no outcome of the chat persistence does.
    - A lookup that settles without a confirmation (a rejection, no room,
      a room without the user) leaves the registry as it is.
    - A lookup that confirms the pair gives the connection the new pair,
      whatever it had, and leaves the meta of every other connection. *)
Theorem C2_meta_changed_only_by_confirmed_register (s : State) (i : nat)
    (ws : conn) (room : json) (numericUserId : option Q) (res : RoomLookup) :
  pending s !! i = Some (TRegister ws room numericUserId) →
  let s' := fst (step s (EvRoomLookup i res)) in
  (∀ s0 c data, activeClients (fst (on_message s0 c data)) = activeClients s0)
  ∧ (∀ s0 j r, activeClients (fst (step s0 (EvChatCreate j r))) = activeClients s0)
  ∧ ((∀ r users u, room = JStr r → res = RoomFound users →
                   List.find (num_is numericUserId) users ≠ Some u) →
     activeClients s' = activeClients s)
  ∧ (∀ r users u, room = JStr r → res = RoomFound users →
                  List.find (num_is numericUserId) users = Some u →
                  clients_get ws (activeClients s')
                  = Some {| userId := u; roomId := r |}
                  ∧ ∀ c, c ≠ ws →
                         clients_get c (activeClients s')
                         = clients_get c (activeClients s)).
Proof.
  intros Hp s'. subst s'. cbn [step]. rewrite Hp.
  split; [|split; [|split]].
  - intros s0 c data. apply on_message_frame.
  - intros s0 j r. cbn [step].
    destruct (pending s0 !! j) as [[]|]; try done.
    by rewrite resume_chat_frame.
  - intros Hno. unfold resume_register.
    destruct res as [| |users]; try done.
    destruct (List.find _ _) as [u|] eqn:Hf; [|done].
    destruct room; try done. exfalso. by eapply Hno.
  - intros r users u -> -> Hf. unfold resume_register. rewrite Hf.
    cbn [fst activeClients with_users with_clients]. split.
    + apply clients_get_set_eq.
    + intros c Hc. by apply clients_get_set_ne.
Qed.

(** ** Presence and the registry *)

Lemma clients_get_elem (ws : conn) (m : ConnectionMeta) (l : clients_t) :
  clients_get ws l = Some m → (ws, m) ∈ l.
Proof.
  induction l as [|[c m'] r IH]; simpl; [discriminate|].
  destruct (Nat.eqb c ws) eqn:E.
  - apply Nat.eqb_eq in E. intros [= ->]. subst c. apply elem_of_cons. by left.
  - intros H. apply elem_of_cons. right. by apply IH.
Qed.

Lemma clients_get_None (ws : conn) (l : clients_t) :
  clients_get ws l = None → ∀ m, (ws, m) ∉ l.
Proof.
  induction l as [|[c m'] r IH]; simpl; intros H m Hin.
  - by apply elem_of_nil in Hin.
  - destruct (Nat.eqb c ws) eqn:E; [discriminate|].
    apply Nat.eqb_neq in E. apply elem_of_cons in Hin as [[= -> ->]|Hin]; [done|].
    by apply (IH H m).
Qed.

Lemma elem_clients_get (ws : conn) (m : ConnectionMeta) (l : clients_t) :
  NoDup l.*1 → (ws, m) ∈ l → clients_get ws l = Some m.
Proof.
  induction l as [|[c m'] r IH]; simpl; intros Hnd Hin.
  - by apply elem_of_nil in Hin.
  - apply NoDup_cons in Hnd as [Hc Hnd].
    apply elem_of_cons in Hin as [[= -> ->]|Hin].
    + by rewrite Nat.eqb_refl.
    + destruct (Nat.eqb c ws) eqn:E; [|by apply IH].
      apply Nat.eqb_eq in E. subst c. exfalso. apply Hc.
      apply list_elem_of_fmap. by exists (ws, m).
Qed.

Lemma clients_set_fresh (ws : conn) (m : ConnectionMeta) (l : clients_t) :
  clients_get ws l = None → clients_set ws m l = l ++ [(ws, m)].
Proof.
  induction l as [|[c m'] r IH]; simpl; [done|].
  destruct (Nat.eqb c ws); [discriminate|]. intros H. by rewrite IH.
Qed.

Lemma elem_clients_delete (ws c : conn) (m : ConnectionMeta) (l : clients_t) :
  (c, m) ∈ clients_delete ws l ↔ c ≠ ws ∧ (c, m) ∈ l.
Proof.
  induction l as [|[c' m'] r IH]; simpl.
  - rewrite elem_of_nil. tauto.
  - destruct (Nat.eqb c' ws) eqn:E.
    + apply Nat.eqb_eq in E. subst c'. rewrite IH, elem_of_cons.
      split; [tauto|]. intros [Hne [[= -> ->]|Hin]]; done.
    + apply Nat.eqb_neq in E. rewrite !elem_of_cons, IH.
      split; [|tauto]. intros [[= -> ->]|[? ?]]; [|tauto]. split; [done|by left].
Qed.

Lemma NoDup_clients_delete (ws : conn) (l : clients_t) :
  NoDup l.*1 → NoDup (clients_delete ws l).*1.
Proof.
  induction l as [|[c m] r IH]; simpl; [done|]. intros Hnd.
  apply NoDup_cons in Hnd as [Hc Hnd].
  destruct (Nat.eqb c ws); [by apply IH|].
  simpl. apply NoDup_cons. split; [|by apply IH].
  intros Hin. apply Hc. apply list_elem_of_fmap in Hin as [[c' m'] [Hc' Hin]].
  simpl in Hc'. subst c'. apply elem_clients_delete in Hin as [_ Hin].
  apply list_elem_of_fmap. by exists (c, m').
Qed.

Lemma elem_set_add (u v : Z) (l : list Z) : v ∈ set_add u l ↔ v = u ∨ v ∈ l.
Proof.
  unfold set_add. case_bool_decide.
  - split; [tauto|]. intros [->|?]; done.
  - rewrite elem_of_app, list_elem_of_singleton. tauto.
Qed.

Lemma elem_set_delete (u v : Z) (l : list Z) : v ∈ set_delete u l ↔ v ≠ u ∧ v ∈ l.
Proof. unfold set_delete. rewrite list_elem_of_filter. tauto. Qed.

(** After [leave_room] the set of the room has lost the user, and the sets
    of the other rooms are what they were. *)
Lemma users_of_leave_room (s : State) (room room' : string) (u : Z) :
  users_of (with_users s (leave_room (roomUserMap s) room u)) room'
  = if bool_decide (room' = room) then set_delete u (users_of s room)
    else users_of s room'.
Proof.
  unfold users_of, leave_room. simpl.
  destruct (roomUserMap s !! room) as [roomSet|] eqn:Hr.
  - destruct (length (set_delete u roomSet) =? 0)%nat eqn:Hlen.
    + apply Nat.eqb_eq, nil_length_inv in Hlen.
      case_bool_decide as Heq.
      * subst room'. by rewrite lookup_delete_eq.
      * by rewrite lookup_delete_ne.
    + case_bool_decide as Heq.
      * subst room'. by rewrite lookup_insert_eq.
      * by rewrite lookup_insert_ne.
  - case_bool_decide as Heq; [|done]. subst room'. by rewrite Hr.
Qed.

Lemma consistent_frame (s s' : State) :
  activeClients s' = activeClients s →
  roomUserMap s' = roomUserMap s →
  readyState s' = readyState s →
  consistent s → consistent s'.
Proof.
  unfold consistent, users_of. intros -> -> ->. done.
Qed.

Lemma consistent_initial : consistent initial.
Proof.
  unfold consistent, users_of. simpl. split; [constructor|]. split.
  - intros c m H. by apply elem_of_nil in H.
  - split.
    + intros room u. rewrite lookup_empty. split.
      * intros H. by apply elem_of_nil in H.
      * intros [c H]. by apply elem_of_nil in H.
    + intros room. by rewrite lookup_empty.
Qed.

Lemma consistent_register (s : State) (ws : conn) (room : json)
    (uid : option Q) (res : RoomLookup) :
  consistent s →
  (completes room uid res →
   clients_get ws (activeClients s) = None
   ∧ (readyState s !! ws = Some OPEN ∨ readyState s !! ws = Some CLOSING)) →
  consistent (fst (resume_register s ws room uid res)).
Proof.
  intros Hs Hord. unfold resume_register.
  destruct res as [| |users]; try done.
  destruct (List.find _ _) as [u|] eqn:Hf; [|done].
  destruct room as [| | |r| |]; try done.
  destruct Hord as [Hfresh Hready]; [by exists r, users, u|].
  destruct Hs as (Hnd & Hopen & Hpres & Hne).
  cbn [fst]. unfold consistent, users_of.
  cbn [activeClients roomUserMap readyState with_users with_clients].
  rewrite (clients_set_fresh _ _ _ Hfresh).
  split; [|split; [|split]].
  - rewrite fmap_app. apply NoDup_app. split; [done|]. split.
    + intros c Hc Hin. simpl in Hin. apply list_elem_of_singleton in Hin.
      subst c. apply list_elem_of_fmap in Hc as [[c m] [Hc Hin]].
      simpl in Hc. subst c. by apply (clients_get_None _ _ Hfresh m).
    + apply NoDup_singleton.
  - intros c m Hin. apply elem_of_app in Hin as [Hin|Hin].
    + by apply (Hopen c m).
    + apply list_elem_of_singleton in Hin. by injection Hin as -> _.
  - intros room u'. destruct (decide (room = r)) as [->|Hroom].
    + rewrite lookup_insert_eq, elem_set_add.
      fold (users_of s r). rewrite Hpres. split.
      * intros [->|[c Hc]].
        -- exists ws. apply elem_of_app. right. by apply list_elem_of_singleton.
        -- exists c. apply elem_of_app. by left.
      * intros [c Hc]. apply elem_of_app in Hc as [Hc|Hc].
        -- right. by exists c.
        -- left. apply list_elem_of_singleton in Hc. by injection Hc.
    + rewrite lookup_insert_ne by done.
      fold (users_of s room). rewrite Hpres. split.
      * intros [c Hc]. exists c. apply elem_of_app. by left.
      * intros [c Hc]. apply elem_of_app in Hc as [Hc|Hc]; [by exists c|].
        apply list_elem_of_singleton in Hc. injection Hc as _ _ Hr. done.
  - intros room. destruct (decide (room = r)) as [->|Hroom].
    + rewrite lookup_insert_eq. intros [= H].
      assert (Hin : u ∈ set_add u
                      match roomUserMap s !! r with Some l => l | None => [] end)
        by (apply elem_set_add; by left).
      rewrite H in Hin. by apply elem_of_nil in Hin.
    + rewrite lookup_insert_ne by done. apply Hne.
Qed.

Lemma leave_room_nonempty (users : gmap string (list Z)) (room : string) (u : Z) :
  (∀ r, users !! r ≠ Some []) → ∀ r, leave_room users room u !! r ≠ Some [].
Proof.
  intros Hne r. unfold leave_room.
  destruct (users !! room) as [roomSet|] eqn:Hr; [|apply Hne].
  destruct (length (set_delete u roomSet) =? 0)%nat eqn:Hlen.
  - destruct (decide (r = room)) as [->|Hd].
    + by rewrite lookup_delete_eq.
    + rewrite lookup_delete_ne by done. apply Hne.
  - destruct (decide (r = room)) as [->|Hd].
    + rewrite lookup_insert_eq. intros [= H]. rewrite H in Hlen. discriminate.
    + rewrite lookup_insert_ne by done. apply Hne.
Qed.

Lemma consistent_close (s : State) (ws : conn) :
  consistent s →
  last_of_user s ws →
  consistent (on_close (with_ready s (<[ws := CLOSED]> (readyState s))) ws).
Proof.
  intros (Hnd & Hopen & Hpres & Hne) Hlast. unfold on_close.
  cbn [activeClients roomUserMap with_ready].
  destruct (clients_get ws (activeClients s)) as [meta|] eqn:Hget.
  - unfold consistent.
    split; [|split; [|split]].
    + cbn [activeClients with_clients]. by apply NoDup_clients_delete.
    + cbn [activeClients readyState with_clients with_users with_ready].
      intros c m Hin. apply elem_clients_delete in Hin as [Hc Hin].
      rewrite lookup_insert_ne by done. by apply (Hopen c m).
    + intros room u.
      assert (Husers : users_of
                (with_clients
                   (with_users (with_ready s (<[ws:=CLOSED]> (readyState s)))
                      (leave_room (roomUserMap s) (roomId meta) (userId meta)))
                   (clients_delete ws (activeClients s))) room
              = if bool_decide (room = roomId meta)
                then set_delete (userId meta) (users_of s (roomId meta))
                else users_of s room)
        by apply (users_of_leave_room s).
      rewrite Husers. cbn [activeClients with_clients]. clear Husers.
      case_bool_decide as Hroom.
      * subst room. rewrite elem_set_delete, Hpres. split.
        -- intros [Hu [c Hc]]. exists c. apply elem_clients_delete.
           split; [|done]. intros ->.
           pose proof (elem_clients_get _ _ _ Hnd Hc) as Hget'.
           rewrite Hget in Hget'. injection Hget' as Hmeta.
           apply (f_equal userId) in Hmeta. simpl in Hmeta. congruence.
        -- intros [c Hc]. apply elem_clients_delete in Hc as [Hc Hin].
           split; [|by exists c]. intros ->. apply Hc.
           by apply (Hlast meta c _ Hget Hin).
      * rewrite Hpres. split.
        -- intros [c Hc]. exists c. apply elem_clients_delete.
           split; [|done]. intros ->.
           pose proof (elem_clients_get _ _ _ Hnd Hc) as Hget'.
           rewrite Hget in Hget'. injection Hget' as Hmeta.
           apply (f_equal roomId) in Hmeta. simpl in Hmeta. congruence.
        -- intros [c Hc]. apply elem_clients_delete in Hc as [_ Hin]. by exists c.
    + cbn [roomUserMap with_clients with_users with_ready].
      by apply leave_room_nonempty.
  - unfold consistent.
    cbn [activeClients readyState roomUserMap with_ready]. unfold users_of.
    cbn [roomUserMap with_ready]. split; [done|]. split; [|done].
    intros c m Hin. rewrite lookup_insert_ne; [by apply (Hopen c m)|].
    intros <-. by apply (clients_get_None _ _ Hget m).
Qed.

Lemma step_consistent (s : State) (ev : event) :
  consistent s → orderly s ev → consistent (fst (step s ev)).
Proof.
  intros Hs Hev. destruct ev as [ws|ws data|i res|i res|ws|ws]; cbn [step].
  - destruct (readyState s !! ws) eqn:Hr; [done|]. cbn [fst].
    destruct Hs as (Hnd & Hopen & Hpres & Hne). unfold consistent, users_of.
    cbn [activeClients roomUserMap readyState with_ready].
    split; [done|]. split; [|done].
    intros c m Hin. rewrite lookup_insert_ne; [by apply (Hopen c m)|].
    intros <-. destruct (Hopen _ _ Hin); congruence.
  - destruct (readyState s !! ws) as [[]|]; try done;
      (eapply consistent_frame; [apply on_message_frame..|done]).
  - simpl in Hev. destruct (pending s !! i) as [[ws room uid|]|]; try done.
    by apply consistent_register.
  - destruct (pending s !! i) as [[|ws room uid text]|]; try done.
    rewrite resume_chat_frame. by eapply consistent_frame.
  - destruct (readyState s !! ws) as [[]|] eqn:Hr; try done. cbn [fst].
    destruct Hs as (Hnd & Hopen & Hpres & Hne). unfold consistent, users_of.
    cbn [activeClients roomUserMap readyState with_ready].
    split; [done|]. split; [|done].
    intros c m Hin. destruct (decide (c = ws)) as [->|Hc].
    + rewrite lookup_insert_eq. by right.
    + rewrite lookup_insert_ne by done. by apply (Hopen c m).
  - simpl in Hev.
    destruct (readyState s !! ws) as [[]|]; try done; cbn [fst];
      by apply consistent_close.
Qed.

Lemma run_cons (s : State) (ev : event) (evs : list event) :
  fst (run s (ev :: evs)) = fst (run (fst (step s ev)) evs).
Proof.
  simpl. destruct (step s ev) as [s1 out1]. simpl.
  destruct (run s1 evs) as [s2 out2]. reflexivity.
Qed.

Lemma run_consistent (evs : list event) (s : State) :
  consistent s → orderly_run ToNumber Prints s evs → consistent (fst (run s evs)).
Proof.
  revert s. induction evs as [|ev evs IH]; intros s Hs Hrun; [done|].
  destruct Hrun as [Hev Hrun]. rewrite run_cons.
  apply IH; [by apply step_consistent|done].
Qed.

Lemma run_reachable (evs : list event) (s : State) :
  reachable ToNumber Prints s → reachable ToNumber Prints (fst (run s evs)).
Proof.
  revert s. induction evs as [|ev evs IH]; intros s Hs; [done|].
  rewrite run_cons. apply IH. by constructor.
Qed.

(** C1, as the code has it: along every run from the initial state in which
    a registration settles only on a connection that is not registered yet
    and whose [close] event was not handled, and in which a connection is
    closed only when no other registered connection has its user in its
    room, the presence set of every room is the set of the users of the
    registered connections of that room, each of them a connection whose
    [close] event was not handled (OPEN or CLOSING); so closing the last
    connection of a user in a room takes the user out of the set, and a
    room whose set gets empty loses its entry. *)
Theorem C1_presence_matches_registry (evs : list event) :
  orderly_run ToNumber Prints initial evs →
  let s := fst (run initial evs) in
  reachable ToNumber Prints s
  ∧ presence_matches_unclosed s
  ∧ (∀ c m, (c, m) ∈ activeClients s →
            readyState s !! c = Some OPEN ∨ readyState s !! c = Some CLOSING)
  ∧ (∀ room, roomUserMap s !! room ≠ Some []).
Proof.
  intros Hrun s.
  destruct (run_consistent evs initial consistent_initial Hrun)
    as (Hnd & Hopen & Hpres & Hne).
  fold s in Hnd, Hopen, Hpres, Hne.
  split; [apply run_reachable; constructor|].
  split; [|done].
  intros room u. rewrite Hpres. split.
  - intros [c Hc]. exists c. split; [by apply (Hopen c _ Hc)|done].
  - intros [c [_ Hc]]. by exists c.
Qed.

(** ** The gate of the router *)

(** X1: a message of any type but [register] that has a [case] label is
    refused to a connection that is not registered: the connection is sent
    "Client not registered", nothing else is sent and the state is kept. *)
Theorem unregistered_sender_is_refused (s : State) (ws : conn) (parsed : json) :
  clients_get ws (activeClients s) = None →
  classify (get "type" parsed) ≠ KRegister →
  classify (get "type" parsed) ≠ KUnknown →
  on_message s ws (Some parsed) = (s, [(ws, PError "Client not registered")]).
Proof.
  intros Hnone Hreg Hunk.
  destruct (classified_is_object parsed Hunk) as [fields ->].
  rewrite on_message_object.
  destruct (classify _); try done; unfold registered_only; by rewrite Hnone.
Qed.

Lemma send_to_user_reaches (s : State) (room : string) (target : option Q)
    (p : payload) (c : conn) (p' : payload) :
  (c, p') ∈ snd (sendToUserInRoom s room target p) →
  p' = p ∧ ∃ m, (c, m) ∈ activeClients s ∧ roomId m = room
                ∧ num_is target (userId m) = true
                ∧ readyState s !! c = Some OPEN.
Proof.
  unfold sendToUserInRoom.
  destruct (List.find _ _) as [[c' m]|] eqn:Hf; simpl; intros Hin.
  - apply list_elem_of_singleton in Hin. injection Hin as -> ->.
    apply find_some in Hf as [Hin He]. apply list_elem_of_In in Hin.
    unfold is_target in He. simpl in He.
    apply andb_prop in He as [He Hopen]. apply andb_prop in He as [Hroom Hnum].
    apply String.eqb_eq in Hroom.
    unfold is_open in Hopen. apply bool_decide_eq_true in Hopen.
    split; [done|]. by exists m.
  - by apply elem_of_nil in Hin.
Qed.

(** Takes a membership in the output of a handler apart. *)
Ltac out_cases :=
  repeat match goal with
    | H : _ ∈ [] |- _ => apply elem_of_nil in H; contradiction
    | H : _ ∈ [_] |- _ => apply list_elem_of_singleton in H
    | H : _ ∈ _ :: _ |- _ => apply elem_of_cons in H as [H | H]
    | H : _ ∈ _ ++ _ |- _ => apply elem_of_app in H as [H | H]
    | H : (_, _) ∈ broadcastToRoom _ _ _ _ |- _ =>
        apply broadcast_reaches in H as (? & ? & ?)
    | H : (_, _) ∈ broadcastStreamToRoom _ _ _ _ |- _ =>
        apply broadcast_stream_reaches in H as (? & ? & ?)
    | H : sendToUserInRoom ?s ?r ?t ?p = (_, ?o), H' : (_, _) ∈ ?o |- _ =>
        let E := fresh in
        assert (E : o = snd (sendToUserInRoom s r t p)) by (rewrite H; done);
        rewrite E in H'; clear E;
        apply send_to_user_reaches in H' as (? & ? & ? & ? & ? & ?)
    end.

(** ** Errors *)

(** X2: an error is sent to nobody but the connection whose message is
    handled.  A message that is answered with an error other than "Server
    error" has changed nothing: the state after it is the state before.  A
    message answered with "Server error" has left no task behind and has
    changed nothing but, at most, the documents: [draw], [stream], [move]
    and [delete] store the document before the [JSON.stringify] that
    throws. *)
Theorem error_reply_means_no_change (s : State) (ws : conn)
    (data : option json) (c : conn) (message : string) :
  (c, PError message) ∈ snd (on_message s ws data) →
  let s' := fst (on_message s ws data) in
  c = ws
  ∧ s' = with_shapes s (roomShapes s')
  ∧ (message ≠ "Server error" → s' = s).
Proof.
  intros Hx s'. subst s'. revert Hx.
  assert (Hsame : ∀ s0 : State, s0 = with_shapes s0 (roomShapes s0))
    by (by intros []).
  destruct data as [[| | | | |fields]|];
    try (simpl; intros Hx; apply list_elem_of_singleton in Hx;
         by injection Hx as -> _).
  rewrite on_message_object.
  destruct (classify _); handler_cases; intros Hx; out_cases;
    try discriminate;
    injection Hx as -> ->;
    (split; [done|]); (split; [done || apply Hsame|]);
    intros Hne; done || by destruct Hne.
Qed.

(** ** Rooms do not leak *)

(** X3: whatever is sent while a message is handled goes to the connection
    the message came from or to an OPEN connection registered in the room
    of that connection; the same holds of what is sent when the chat
    persistence or the room lookup settles, for the room of the chat
    message and the room asked for. *)
Theorem sends_stay_in_the_room (s : State) (ws : conn) (c : conn) (p : payload) :
  (∀ data, (c, p) ∈ snd (on_message s ws data) →
     c = ws
     ∨ ∃ m m', clients_get ws (activeClients s) = Some m
               ∧ (c, m') ∈ activeClients s ∧ roomId m' = roomId m
               ∧ readyState s !! c = Some OPEN)
  ∧ (∀ room res, (c, p) ∈ snd (resume_chat s ws room res) →
       c = ws ∨ is_member s room c)
  ∧ (∀ room uid res,
       (c, p) ∈ snd (resume_register s ws room uid res) →
       c = ws
       ∨ ∃ r, room = JStr r
              ∧ is_member (fst (resume_register s ws room uid res)) r c).
Proof.
  split; [|split].
  - intros data.
    destruct data as [[| | | | |fields]|];
      try (simpl; intros Hx; apply list_elem_of_singleton in Hx;
           left; by injection Hx as -> _).
    rewrite on_message_object.
    destruct (classify _); handler_cases; intros Hx; out_cases;
      try (left; by injection Hx as -> _);
      right;
      match goal with
      | Hm : is_member _ _ _ |- _ =>
          destruct Hm as (m' & Hin & Hroom & _ & Hopen); eauto 10
      | _ => eauto 10
      end.
  - intros room res. unfold resume_chat, server_error.
    destruct res; simpl; intros Hx; out_cases;
      try (left; by injection Hx as -> _). by right.
  - intros room uid res. unfold resume_register, server_error, unauthorized.
    destruct res as [| |users]; try (simpl; intros Hx; out_cases;
                                     left; by injection Hx as -> _).
    destruct (List.find _ _) as [u|];
      [|simpl; intros Hx; out_cases; left; by injection Hx as -> _].
    destruct room; try (simpl; intros Hx; out_cases;
                        left; by injection Hx as -> _).
    cbn [fst snd]. intros Hx. out_cases; [left; by injection Hx as -> _|].
    right. eauto.
Qed.

(** ** Documents of other rooms *)

(** X4: a message changes the document of no room but the one its sender
    is registered in, and none at all when the sender is not registered;
    no other event touches a document; and no event ever removes the
    document of a room. *)
Theorem documents_of_other_rooms_untouched (s : State) :
  (∀ ws data room,
     (∀ m, clients_get ws (activeClients s) = Some m → roomId m ≠ room) →
     roomShapes (fst (on_message s ws data)) !! room = roomShapes s !! room)
  ∧ (∀ ev, (∀ ws data, ev ≠ EvMessage ws data) →
           roomShapes (fst (step s ev)) = roomShapes s)
  ∧ (∀ ev room, is_Some (roomShapes s !! room) →
                is_Some (roomShapes (fst (step s ev)) !! room)).
Proof.
  assert (Hmsg : ∀ ws data room,
     roomShapes (fst (on_message s ws data)) !! room = roomShapes s !! room
     ∨ (∃ m a, clients_get ws (activeClients s) = Some m ∧ roomId m = room
               ∧ roomShapes (fst (on_message s ws data)) !! room = Some a)).
  { intros ws data room.
    destruct data as [[| | | | |fields]|]; try (by left).
    rewrite on_message_object.
    destruct (classify _); handler_cases; try (by left);
      match goal with
      | Hm : clients_get _ _ = Some ?m |- _ =>
          destruct (decide (roomId m = room)) as [Heq|Hne];
          [right; exists m; rewrite <- Heq, lookup_insert_eq; eauto
          |left; by rewrite lookup_insert_ne]
      end. }
  assert (Hother : ∀ ev, (∀ ws data, ev ≠ EvMessage ws data) →
                         roomShapes (fst (step s ev)) = roomShapes s).
  { intros ev Hev. destruct ev as [ws|ws data|i res|i res|ws|ws]; cbn [step].
    - by destruct (readyState s !! ws).
    - by destruct (Hev ws data).
    - destruct (pending s !! i) as [[ws room uid|]|]; try done.
      unfold resume_register. repeat case_match; done.
    - destruct (pending s !! i) as [[|ws room uid text]|]; try done.
      by rewrite resume_chat_frame.
    - by destruct (readyState s !! ws) as [[]|].
    - destruct (readyState s !! ws) as [[]|]; try done;
        unfold on_close; cbn [activeClients with_ready];
        by destruct (clients_get ws (activeClients s)). }
  split; [|split; [exact Hother|]].
  - intros ws data room Hroom.
    destruct (Hmsg ws data room) as [H|(m & a & Hm & Heq & _)]; [done|].
    by destruct (Hroom m Hm).
  - intros ev room Hsome.
    assert (Hev : (∃ ws data, ev = EvMessage ws data)
                  ∨ ∀ ws data, ev ≠ EvMessage ws data)
      by (destruct ev; eauto).
    destruct Hev as [(ws & data & ->)|Hno].
    + cbn [step]. destruct (readyState s !! ws) as [[]|]; try done;
        (destruct (Hmsg ws data room) as [H|(m & a & _ & _ & H)];
         rewrite H; [done|eauto]).
    + by rewrite Hother.
Qed.

(** ** Relays *)

(** X5: [lock], [unlock], [pointer] and [color] of a registered connection
    change nothing in the state.  [lock] and [unlock] are passed on to
    every member of the sender's room but the sender, [lock] with the
    sender's user id; so is a [color] whose [color] is a string.  A
    [pointer] whose [x] and [y] are numbers is passed on in the same way
    when [JSON.stringify] prints it, with the sender's user id, with
    [null] for a color that is missing or falsy and for a coordinate beyond
    the doubles; when [JSON.stringify] throws, the sender is sent "Server
    error" and nothing is passed on.  A [pointer] or a [color] of another
    shape is dropped: nothing is sent to anyone. *)
Theorem relays_reach_the_others (s : State) (ws : conn)
    (clientMeta : ConnectionMeta) (parsed : json) :
  clients_get ws (activeClients s) = Some clientMeta →
  let room := roomId clientMeta in
  let out := snd (on_message s ws (Some parsed)) in
  (classify (get "type" parsed) = KLock →
   fst (on_message s ws (Some parsed)) = s
   ∧ ∀ c p, (c, p) ∈ out ↔
            p = PLock (userId clientMeta) ∧ c ≠ ws ∧ is_member s room c)
  ∧ (classify (get "type" parsed) = KUnlock →
     fst (on_message s ws (Some parsed)) = s
     ∧ ∀ c p, (c, p) ∈ out ↔ p = PUnlock ∧ c ≠ ws ∧ is_member s room c)
  ∧ (classify (get "type" parsed) = KPointer →
     fst (on_message s ws (Some parsed)) = s
     ∧ (as_number (get "x" parsed) = None ∨ as_number (get "y" parsed) = None →
        out = [])
     ∧ ∀ x y, as_number (get "x" parsed) = Some x →
              as_number (get "y" parsed) = Some y →
              let coordinate (n : number) :=
                match n with Finite q => JNum (Finite q) | Infinite _ => JNull end in
              let relayed :=
                PPointer (coordinate x) (coordinate y)
                  (if truthy_opt (get "color" parsed)
                   then wire (default JNull (get "color" parsed)) else JNull)
                  (userId clientMeta) in
              (Prints relayed = true →
               ∀ c p, (c, p) ∈ out ↔ p = relayed ∧ c ≠ ws ∧ is_member s room c)
              ∧ (Prints relayed = false → out = [(ws, PError "Server error")]))
  ∧ (classify (get "type" parsed) = KColor →
     fst (on_message s ws (Some parsed)) = s
     ∧ (as_string (get "color" parsed) = None → out = [])
     ∧ ∀ color, as_string (get "color" parsed) = Some color →
                ∀ c p, (c, p) ∈ out ↔
                       p = PColor color (userId clientMeta)
                       ∧ c ≠ ws ∧ is_member s room c).
Proof.
  intros Hm room out. subst out room.
  assert (Hothers : ∀ p0 c p,
            (c, p) ∈ broadcastToRoom s (roomId clientMeta) p0 (Some ws) ↔
            p = p0 ∧ c ≠ ws ∧ is_member s (roomId clientMeta) c).
  { intros p0 c p. rewrite broadcast_reaches.
    split; intros (? & ? & ?); (split; [done|]); (split; [congruence|done]). }
  split; [|split; [|split]]; intros Hk; dispatch parsed Hk Hm.
  - unfold case_lock. cbn [fst snd]. split; [done|]. apply Hothers.
  - unfold case_unlock. cbn [fst snd]. split; [done|]. apply Hothers.
  - unfold case_pointer. split; [by repeat case_match|]. split.
    + intros [Hx|Hy]; [by rewrite Hx|rewrite Hy; by case_match].
    + intros x y Hx Hy. rewrite Hx, Hy. cbn [snd].
      match goal with
      | |- (Prints ?r = true → _) ∧ _ => set (relayed := r)
      end.
      assert (Hp : PPointer (wire (JNum x)) (wire (JNum y))
                     (wire (color_or_null (JObj fields))) (userId clientMeta)
                   = relayed).
      { subst relayed. unfold color_or_null, truthy_opt.
        f_equal; [by destruct x|by destruct y|].
        destruct (get "color" _) as [col|]; [|done]. simpl.
        by destruct (truthy col). }
      rewrite Hp. split; intros Hr.
      * rewrite printed_true by exact Hr. apply Hothers.
      * by rewrite printed_false by exact Hr.
  - unfold case_color. split; [by case_match|]. split.
    + intros Hc. by rewrite Hc.
    + intros color Hc. rewrite Hc. cbn [snd]. apply Hothers.
Qed.

(** ** A confirmed registration *)

Lemma NoDup_set_add (u : Z) (l : list Z) : NoDup l → NoDup (set_add u l).
Proof.
  intros Hnd. unfold set_add. case_bool_decide as Hin; [done|].
  apply NoDup_app. split; [done|]. split; [|apply NoDup_singleton].
  intros x Hx Hx'. apply list_elem_of_singleton in Hx'. by subst x.
Qed.

(** X6: when the lookup confirms the pair, the connection is given the id
    of the room's user that equals the number it sent, in the room it
    asked for; that user is added to the presence set of the room, behind
    the users that were there and only if it was not there, and the sets
    of the other rooms and all documents are kept.  The connection is sent
    [register-success] first, and after it the list of the users of the
    room goes to every member of the room and to nobody else; the new
    connection gets it too when its transport is OPEN. *)
Theorem confirmed_register_joins_room (s : State) (ws : conn) (r : string)
    (numericUserId : option Q) (users : list Z) (u : Z) :
  List.find (num_is numericUserId) users = Some u →
  let s' := fst (resume_register s ws (JStr r) numericUserId (RoomFound users)) in
  let out := snd (resume_register s ws (JStr r) numericUserId (RoomFound users)) in
  (u ∈ users ∧ num_is numericUserId u = true)
  ∧ clients_get ws (activeClients s') = Some {| userId := u; roomId := r |}
  ∧ (users_of s' r = if bool_decide (u ∈ users_of s r) then users_of s r
                     else users_of s r ++ [u])
  ∧ (NoDup (users_of s r) → NoDup (users_of s' r))
  ∧ (∀ room, room ≠ r → roomUserMap s' !! room = roomUserMap s !! room)
  ∧ roomShapes s' = roomShapes s
  ∧ (∃ rest, out = (ws, PRegisterSuccess r u) :: rest
             ∧ ∀ c p, (c, p) ∈ rest ↔
                      p = PUserList (users_of s' r) ∧ is_member s' r c)
  ∧ (readyState s !! ws = Some OPEN → (ws, PUserList (users_of s' r)) ∈ out).
Proof.
  intros Hf s' out. subst s' out. unfold resume_register. rewrite Hf.
  cbn [fst snd].
  set (s1 := with_clients s (clients_set ws {| userId := u; roomId := r |}
                               (activeClients s))).
  set (s2 := with_users s1 (<[r:=set_add u (users_of s1 r)]> (roomUserMap s1))).
  assert (Hget : clients_get ws (activeClients s2)
                 = Some {| userId := u; roomId := r |})
    by apply clients_get_set_eq.
  assert (Husers : users_of s2 r = set_add u (users_of s r)).
  { unfold users_of at 1. unfold s2. cbn [roomUserMap with_users].
    by rewrite lookup_insert_eq. }
  assert (Hbroad : ∀ c p,
            (c, p) ∈ broadcastToRoom s2 r (PUserList (users_of s2 r)) None ↔
            p = PUserList (users_of s2 r) ∧ is_member s2 r c).
  { intros c p. rewrite broadcast_reaches. split.
    - intros (? & _ & ?). done.
    - intros (? & ?). done. }
  split; [|split; [done|split; [|split; [|split; [|split; [done|split]]]]]].
  - apply find_some in Hf as [Hin Hu]. by apply list_elem_of_In in Hin.
  - rewrite Husers. reflexivity.
  - rewrite Husers. apply NoDup_set_add.
  - intros room Hroom. unfold s2. cbn [roomUserMap with_users].
    by rewrite lookup_insert_ne.
  - eexists. split; [reflexivity|]. exact Hbroad.
  - intros Hopen. apply elem_of_cons. right. apply Hbroad. split; [done|].
    exists {| userId := u; roomId := r |}.
    split; [by apply clients_get_elem|]. split; [done|].
    split; [|done]. rewrite Husers. apply elem_set_add. by left.
Qed.

(** ** Chat *)

Lemma delete_last {A} (l : list A) (x : A) : delete (length l) (l ++ [x]) = l.
Proof. induction l as [|y l IH]; simpl; [done|]. by rewrite IH. Qed.

Lemma lookup_last {A} (l : list A) (x : A) : (l ++ [x]) !! length l = Some x.
Proof. induction l as [|y l IH]; simpl; done. Qed.

Lemma with_pending_same (s : State) : with_pending s (pending s) = s.
Proof. by destruct s. Qed.

(** X7: on a chat message of a registered connection, [Number(user_id)]
    comes first: when it throws, the connection is sent "Server error" and
    nothing is saved.  Otherwise a message whose [roomId] is not the room
    of the connection, or whose [user_id] is not its user, is answered
    "Invalid room or user context" and nothing is saved.  One that names
    both is sent to the persistence and nothing is sent meanwhile; when the
    record comes back it goes to the sender as [message-sent] and to every
    other member of the room as [new-message], to nobody else, and the
    state is again what it was before the message. *)
Theorem chat_message_round (s : State) (ws : conn)
    (clientMeta : ConnectionMeta) (parsed : json) :
  clients_get ws (activeClients s) = Some clientMeta →
  classify (get "type" parsed) = KMessage →
  let s1 := fst (on_message s ws (Some parsed)) in
  (Number (get "user_id" parsed) = Throws →
   on_message s ws (Some parsed) = (s, [(ws, PError "Server error")]))
  ∧ (∀ n, Number (get "user_id" parsed) = Converts n →
          as_string (get "roomId" parsed) ≠ Some (roomId clientMeta)
          ∨ num_is n (userId clientMeta) = false →
          on_message s ws (Some parsed)
          = (s, [(ws, PError "Invalid room or user context")]))
  ∧ (∀ n, Number (get "user_id" parsed) = Converts n →
     as_string (get "roomId" parsed) = Some (roomId clientMeta) →
     num_is n (userId clientMeta) = true →
     snd (on_message s ws (Some parsed)) = []
     ∧ pending s1 !! length (pending s)
       = Some (TChat ws (roomId clientMeta) (userId clientMeta)
                 (get "text" parsed))
     ∧ ∀ chat,
         fst (step s1 (EvChatCreate (length (pending s)) (ChatCreated chat))) = s
         ∧ ∃ rest,
             snd (step s1 (EvChatCreate (length (pending s)) (ChatCreated chat)))
             = (ws, PMessageSent chat) :: rest
             ∧ ∀ c p, (c, p) ∈ rest ↔
                      p = PNewMessage chat ∧ c ≠ ws
                      ∧ is_member s (roomId clientMeta) c).
Proof.
  intros Hm Hk s1. subst s1. dispatch parsed Hk Hm. unfold case_message.
  split; [|split].
  - intros Hn. by rewrite Hn.
  - intros n Hn [Hroom|Huser]; rewrite Hn.
    + destruct (as_string _) as [r|]; [|done].
      destruct (String.eqb r (roomId clientMeta)) eqn:E; [|done].
      apply String.eqb_eq in E. congruence.
    + rewrite Huser. destruct (as_string _) as [r|]; [|done].
      by rewrite orb_true_r.
  - intros n Hn Hroom Huser.
    rewrite Hn, Hroom, Huser, String.eqb_refl. cbn [fst snd negb orb].
    split; [done|]. cbn [pending with_pending].
    split; [apply lookup_last|].
    intros chat. cbn [step]. cbn [pending with_pending].
    rewrite lookup_last, delete_last. cbn [resume_chat fst snd].
    assert (Hs : with_pending
                   (with_pending s
                      (pending s ++ [TChat ws (roomId clientMeta)
                                       (userId clientMeta) (get "text" (JObj fields))]))
                   (pending s) = s) by (by destruct s).
    rewrite Hs. split; [done|]. eexists. split; [reflexivity|].
    intros c p. rewrite broadcast_reaches.
    split; intros (? & ? & ?); (split; [done|]); (split; [congruence|done]).
Qed.

(** ** Closing *)

Lemma clients_get_delete_eq (ws : conn) (l : clients_t) :
  clients_get ws (clients_delete ws l) = None.
Proof.
  induction l as [|[c m] r IH]; simpl; [done|].
  destruct (Nat.eqb c ws) eqn:E; [done|]. simpl. by rewrite E.
Qed.

Lemma clients_get_delete_ne (ws c : conn) (l : clients_t) :
  c ≠ ws → clients_get c (clients_delete ws l) = clients_get c l.
Proof.
  intros Hne. induction l as [|[c' m] r IH]; simpl; [done|].
  destruct (Nat.eqb c' ws) eqn:E; simpl.
  - apply Nat.eqb_eq in E. subst c'.
    assert (E' : Nat.eqb ws c = false) by (apply Nat.eqb_neq; congruence).
    by rewrite E'.
  - by rewrite IH.
Qed.

(** X8: the close handler sends nothing and touches no document, no socket
    and no suspended handler.  After it the connection has no meta, and
    every other connection has the meta it had.  The user of the closed
    connection is out of the presence set of its room, whether or not
    another connection of that user is registered there; the other users
    of that room and the sets of the other rooms stay.  Run a second time
    it changes nothing, as it does on a connection without meta. *)
Theorem close_handler_effects (s : State) (ws : conn) :
  let s' := on_close s ws in
  clients_get ws (activeClients s') = None
  ∧ (∀ c, c ≠ ws → clients_get c (activeClients s') = clients_get c (activeClients s))
  ∧ roomShapes s' = roomShapes s
  ∧ readyState s' = readyState s
  ∧ pending s' = pending s
  ∧ (∀ m, clients_get ws (activeClients s) = Some m →
          (userId m ∉ users_of s' (roomId m))
          ∧ (∀ v, v ≠ userId m →
                  (v ∈ users_of s' (roomId m) ↔ v ∈ users_of s (roomId m)))
          ∧ ∀ room, room ≠ roomId m → users_of s' room = users_of s room)
  ∧ (clients_get ws (activeClients s) = None → s' = s)
  ∧ on_close s' ws = s'
  ∧ ∀ s0, snd (step s0 (EvClose ws)) = [].
Proof.
  intros s'. subst s'.
  assert (Hgone : clients_get ws (activeClients (on_close s ws)) = None).
  { unfold on_close. destruct (clients_get ws (activeClients s)) eqn:Hget.
    - cbn [activeClients with_clients]. apply clients_get_delete_eq.
    - exact Hget. }
  split; [exact Hgone|].
  split; [|split; [|split; [|split; [|split; [|split; [|split]]]]]].
  - intros c Hc. unfold on_close. destruct (clients_get ws (activeClients s)); [|done].
    cbn [activeClients with_clients]. by apply clients_get_delete_ne.
  - unfold on_close. by destruct (clients_get ws (activeClients s)).
  - unfold on_close. by destruct (clients_get ws (activeClients s)).
  - unfold on_close. by destruct (clients_get ws (activeClients s)).
  - intros m Hm. unfold on_close. rewrite Hm.
    assert (Hu : ∀ room,
              users_of (with_clients
                          (with_users s (leave_room (roomUserMap s) (roomId m)
                                           (userId m)))
                          (clients_delete ws (activeClients s))) room
              = if bool_decide (room = roomId m)
                then set_delete (userId m) (users_of s (roomId m))
                else users_of s room)
      by (intros room; apply (users_of_leave_room s)).
    split; [|split].
    + rewrite Hu, bool_decide_eq_true_2 by done. rewrite elem_set_delete. tauto.
    + intros v Hv. rewrite Hu, bool_decide_eq_true_2 by done.
      rewrite elem_set_delete. tauto.
    + intros room Hroom. by rewrite Hu, bool_decide_eq_false_2.
  - intros Hnone. unfold on_close. by rewrite Hnone.
  - unfold on_close at 1. by rewrite Hgone.
  - intros s0. cbn [step]. by destruct (readyState s0 !! ws) as [[]|].
Qed.

(** ** What every run keeps *)

Lemma clients_set_keys (ws k : conn) (m : ConnectionMeta) (l : clients_t) :
  k ∈ (clients_set ws m l).*1 → k = ws ∨ k ∈ l.*1.
Proof.
  induction l as [|[c m'] r IH]; simpl.
  - intros H. apply list_elem_of_singleton in H. by left.
  - destruct (Nat.eqb c ws) eqn:E; simpl; [by right|].
    rewrite !elem_of_cons. intros [->|H]; [right; by left|].
    destruct (IH H); [by left|right; by right].
Qed.

Lemma NoDup_clients_set (ws : conn) (m : ConnectionMeta) (l : clients_t) :
  NoDup l.*1 → NoDup (clients_set ws m l).*1.
Proof.
  induction l as [|[c m'] r IH]; simpl; intros Hnd.
  - apply NoDup_singleton.
  - apply NoDup_cons in Hnd as [Hc Hnd].
    destruct (Nat.eqb c ws) eqn:E; simpl.
    + apply NoDup_cons. done.
    + apply Nat.eqb_neq in E. apply NoDup_cons. split; [|by apply IH].
      intros Hin. apply clients_set_keys in Hin as [->|Hin]; done.
Qed.

Lemma filter_keys (f : conn * ConnectionMeta → bool) (k : conn) (l : clients_t) :
  k ∈ (List.filter f l).*1 → k ∈ l.*1.
Proof.
  induction l as [|e r IH]; simpl; [done|].
  destruct (f e); simpl; rewrite !elem_of_cons;
    [|intros H; right; by apply IH].
  intros [->|H]; [by left|right; by apply IH].
Qed.

Lemma NoDup_filter_keys (f : conn * ConnectionMeta → bool) (l : clients_t) :
  NoDup l.*1 → NoDup (List.filter f l).*1.
Proof.
  induction l as [|e r IH]; simpl; intros Hnd; [done|].
  apply NoDup_cons in Hnd as [He Hnd].
  destruct (f e); simpl; [|by apply IH].
  apply NoDup_cons. split; [|by apply IH].
  intros Hin. by apply filter_keys in Hin.
Qed.

Lemma broadcast_keys (s : State) (room : string) (p : payload)
    (exclude : option conn) :
  (broadcastToRoom s room p exclude).*1
  = (List.filter (is_recipient s room exclude) (activeClients s)).*1.
Proof.
  unfold broadcastToRoom.
  induction (List.filter _ _) as [|e r IH]; [done|].
  change ((e.1 :: (map (λ entry : conn * ConnectionMeta, (entry.1, p)) r).*1)
          = e.1 :: r.*1).
  by f_equal.
Qed.

Lemma well_formed_frame (s s' : State) :
  activeClients s' = activeClients s →
  roomUserMap s' = roomUserMap s →
  well_formed s → well_formed s'.
Proof. unfold well_formed. intros -> ->. done. Qed.

Lemma well_formed_register (s : State) (ws : conn) (room : json)
    (uid : option Q) (res : RoomLookup) :
  well_formed s → well_formed (fst (resume_register s ws room uid res)).
Proof.
  intros [Hnd Hsets]. unfold resume_register.
  destruct res as [| |users]; try done.
  destruct (List.find _ _) as [u|]; [|done].
  destruct room as [| | |r| |]; try done.
  cbn [fst]. unfold well_formed, users_of.
  cbn [activeClients roomUserMap with_users with_clients].
  split; [by apply NoDup_clients_set|].
  intros room l. destruct (decide (room = r)) as [->|Hroom].
  - rewrite lookup_insert_eq. intros [= <-]. split.
    + apply NoDup_set_add. destruct (roomUserMap s !! r) as [l0|] eqn:Hr.
      * by apply (Hsets r l0).
      * constructor.
    + intros H.
      assert (Hin : u ∈ set_add u
                      match roomUserMap s !! r with Some l => l | None => [] end)
        by (apply elem_set_add; by left).
      rewrite H in Hin. by apply elem_of_nil in Hin.
  - rewrite lookup_insert_ne by done. apply Hsets.
Qed.

Lemma well_formed_close (s : State) (ws : conn) :
  well_formed s → well_formed (on_close s ws).
Proof.
  intros [Hnd Hsets]. unfold on_close.
  destruct (clients_get ws (activeClients s)) as [meta|]; [|done].
  unfold well_formed. cbn [activeClients roomUserMap with_users with_clients].
  split; [by apply NoDup_clients_delete|].
  intros room l. unfold leave_room.
  destruct (roomUserMap s !! roomId meta) as [roomSet|] eqn:Hr; [|apply Hsets].
  destruct (length (set_delete (userId meta) roomSet) =? 0)%nat eqn:Hlen.
  - destruct (decide (room = roomId meta)) as [->|Hd].
    + by rewrite lookup_delete_eq.
    + rewrite lookup_delete_ne by done. apply Hsets.
  - destruct (decide (room = roomId meta)) as [->|Hd].
    + rewrite lookup_insert_eq. intros [= <-]. split.
      * apply NoDup_filter. by apply (Hsets (roomId meta) roomSet).
      * intros H. rewrite H in Hlen. discriminate.
    + rewrite lookup_insert_ne by done. apply Hsets.
Qed.

Lemma step_well_formed (s : State) (ev : event) :
  well_formed s → well_formed (fst (step s ev)).
Proof.
  intros Hs. destruct ev as [ws|ws data|i res|i res|ws|ws]; cbn [step].
  - by destruct (readyState s !! ws).
  - destruct (readyState s !! ws) as [[]|]; try done;
      (eapply well_formed_frame; [apply on_message_frame..|done]).
  - destruct (pending s !! i) as [[ws room uid|]|]; try done.
    by apply well_formed_register.
  - destruct (pending s !! i) as [[|ws room uid text]|]; try done.
    by rewrite resume_chat_frame.
  - by destruct (readyState s !! ws) as [[]|].
  - destruct (readyState s !! ws) as [[]|]; try done; cbn [fst];
      by apply well_formed_close.
Qed.

(** X9: in every state a run can reach, whatever the order of its events,
    the registry has one entry for a connection, no presence set lists a
    user twice and none is empty; so a [user-list] names every user once
    and a broadcast reaches a connection at most once. *)
Theorem reachable_states_well_formed (s : State) :
  reachable ToNumber Prints s →
  NoDup (activeClients s).*1
  ∧ (∀ room l, roomUserMap s !! room = Some l → NoDup l ∧ l ≠ [])
  ∧ (∀ room, NoDup (users_of s room))
  ∧ (∀ room p exclude, NoDup (broadcastToRoom s room p exclude).*1)
  ∧ (∀ room p sender, NoDup (broadcastStreamToRoom s room p sender).*1).
Proof.
  intros Hreach.
  assert (Hwf : well_formed s).
  { induction Hreach as [|s ev _ IH].
    - split; [constructor|]. intros room l. unfold initial. simpl.
      by rewrite lookup_empty.
    - by apply step_well_formed. }
  destruct Hwf as [Hnd Hsets].
  assert (Hb : ∀ room p exclude, NoDup (broadcastToRoom s room p exclude).*1)
    by (intros; rewrite broadcast_keys; by apply NoDup_filter_keys).
  split; [done|]. split; [done|]. split; [|split; [done|]].
  - intros room. unfold users_of.
    destruct (roomUserMap s !! room) as [l|] eqn:Hr; [|constructor].
    by apply (Hsets room l).
  - intros room p sender. apply Hb.
Qed.

(** ** Register, then close *)

Lemma clients_delete_fresh_app (ws : conn) (m : ConnectionMeta) (l : clients_t) :
  clients_get ws l = None → clients_delete ws (l ++ [(ws, m)]) = l.
Proof.
  induction l as [|[c m'] r IH]; simpl.
  - by rewrite Nat.eqb_refl.
  - destruct (Nat.eqb c ws); [discriminate|]. intros H. by rewrite IH.
Qed.

Lemma set_delete_fresh_app (u : Z) (l : list Z) :
  u ∉ l → set_delete u (l ++ [u]) = l.
Proof.
  unfold set_delete. induction l as [|x l IH]; intros Hu.
  - simpl. by rewrite filter_cons_False, filter_nil by (intros H; by apply H).
  - apply not_elem_of_cons in Hu as [Hx Hu]. simpl.
    rewrite filter_cons_True by congruence. by rewrite IH.
Qed.

(** X10: the close handler undoes a confirmed registration.  When a
    connection without meta is registered for a user that is not in the
    presence set of the room, the close handler run on the state the
    registration leaves gives back the state before the registration:
    registry, presence sets, documents and all.  As events: when the
    lookup of a suspended [register] of such a connection settles with a
    confirmation and the [close] event of the connection is handled after
    it, the state differs from the one before the two events in two things
    only, the handler that settled is no longer suspended and the socket
    is CLOSED. *)
Theorem register_then_close_restores (s : State) (ws : conn) (r : string)
    (numericUserId : option Q) (users : list Z) (u : Z) :
  clients_get ws (activeClients s) = None →
  u ∉ users_of s r →
  roomUserMap s !! r ≠ Some [] →
  List.find (num_is numericUserId) users = Some u →
  on_close (fst (resume_register s ws (JStr r) numericUserId (RoomFound users))) ws
  = s
  ∧ ∀ i, pending s !! i = Some (TRegister ws (JStr r) numericUserId) →
         readyState s !! ws = Some OPEN ∨ readyState s !! ws = Some CLOSING →
         fst (step (fst (step s (EvRoomLookup i (RoomFound users)))) (EvClose ws))
         = with_ready (with_pending s (delete i (pending s)))
             (<[ws := CLOSED]> (readyState s)).
Proof.
  assert (Hhandler : ∀ s0 : State,
            clients_get ws (activeClients s0) = None →
            u ∉ users_of s0 r →
            roomUserMap s0 !! r ≠ Some [] →
            List.find (num_is numericUserId) users = Some u →
            on_close (fst (resume_register s0 ws (JStr r) numericUserId
                             (RoomFound users))) ws = s0).
  { clear s. intros s Hfresh Hu Hne Hf.
    unfold resume_register. rewrite Hf. cbn [fst].
    unfold on_close. cbn [activeClients with_users with_clients].
    rewrite clients_get_set_eq.
    cbn [roomId userId roomUserMap with_users with_clients].
    rewrite (clients_set_fresh _ _ _ Hfresh), clients_delete_fresh_app by done.
    assert (Hleave : leave_room
                       (<[r:=set_add u
                               (users_of
                                  (with_clients s
                                     (activeClients s ++
                                      [(ws, {| userId := u; roomId := r |})])) r)]>
                          (roomUserMap s)) r u
                     = roomUserMap s).
    { unfold leave_room, users_of in *. cbn [roomUserMap with_clients] in *.
      rewrite lookup_insert_eq. unfold set_add.
      rewrite bool_decide_eq_false_2 by done.
      rewrite set_delete_fresh_app by done.
      destruct (roomUserMap s !! r) as [l|] eqn:Hr.
      - destruct l as [|x l]; [done|]. simpl.
        rewrite insert_insert_eq. by apply insert_id.
      - simpl. by apply delete_insert_id. }
    rewrite Hleave. by destruct s. }
  intros Hfresh Hu Hne Hf. split; [by apply Hhandler|].
  intros i Hp Hready.
  assert (Hclose : ∀ (s0 : State) ready,
            on_close (with_ready s0 ready) ws = with_ready (on_close s0 ws) ready).
  { intros s0 ready. unfold on_close. cbn [activeClients with_ready].
    by destruct (clients_get ws (activeClients s0)). }
  set (s0 := with_pending s (delete i (pending s))).
  assert (E1 : step s (EvRoomLookup i (RoomFound users))
               = resume_register s0 ws (JStr r) numericUserId (RoomFound users))
    by (cbn [step]; by rewrite Hp).
  rewrite E1.
  assert (Hr : readyState (fst (resume_register s0 ws (JStr r) numericUserId
                                  (RoomFound users))) = readyState s).
  { unfold resume_register. by rewrite Hf. }
  cbn [step]. rewrite Hr.
  assert (E2 : on_close
                 (with_ready (fst (resume_register s0 ws (JStr r) numericUserId
                                     (RoomFound users)))
                    (<[ws:=CLOSED]> (readyState s))) ws
               = with_ready s0 (<[ws:=CLOSED]> (readyState s)))
    by (rewrite Hclose, Hhandler; done).
  destruct Hready as [Hready|Hready]; rewrite Hready; cbn [fst]; exact E2.
Qed.

(** ** Documents *)

(** X11: a [delete] of a registered connection whose index falls on a slot
    of the document, counted from the start or, when negative, from the
    end, removes that slot and nothing else: the document is one slot
    shorter, the slots before it keep their place and the slots after it
    move down by one.  The [sync] of the new sequence goes to every member
    of the room and to nobody else when [JSON.stringify] can print the
    sequence; when it cannot, the sender is sent "Server error", no [sync]
    goes out and the slot stays removed. *)
Theorem delete_shifts_later_slots_down (s : State) (ws : conn)
    (clientMeta : ConnectionMeta) (parsed : json) (q : Q) (i : nat) :
  clients_get ws (activeClients s) = Some clientMeta →
  classify (get "type" parsed) = KDelete →
  as_number (get "index" parsed) = Some (Finite q) →
  let room := roomId clientMeta in
  let before := shapes_of s room in
  let after := shapes_of (fst (on_message s ws (Some parsed))) room in
  let out := snd (on_message s ws (Some parsed)) in
  (i < length before)%nat →
  to_integer q = Z.of_nat i
  ∨ to_integer q = (Z.of_nat i - Z.of_nat (length before))%Z →
  S (length after) = length before
  ∧ (∀ j, (j < i)%nat → after !! j = before !! j)
  ∧ (∀ j, (i <= j)%nat → after !! j = before !! S j)
  ∧ (stringify_returns (PSync (stringify_shapes after)) = true →
     ∀ c p, (c, p) ∈ out ↔
            p = PSync (stringify_shapes after) ∧ is_member s room c)
  ∧ (stringify_returns (PSync (stringify_shapes after)) = false →
     out = [(ws, PError "Server error")]).
Proof.
  intros Hm Hk Hq room before after out Hi Hidx. subst after out.
  rewrite (on_message_delete _ _ _ _ _ Hm Hk Hq). cbn [fst snd].
  rewrite shapes_of_store. fold room before.
  rewrite (array_splice1_on_slot _ _ _ Hi (splice_start_on_slot _ _ _ Hi Hidx)).
  split; [|split; [|split; [|split]]].
  - rewrite length_delete by (apply lookup_lt_is_Some; lia). lia.
  - intros j Hj. by apply list_lookup_delete_lt.
  - intros j Hj. by apply list_lookup_delete_ge.
  - intros Hp. rewrite printed_true by exact Hp.
    intros c p. apply broadcast_all_reaches.
  - intros Hp. by rewrite printed_false by exact Hp.
Qed.

(** X12: a [draw] of a registered connection on a document that [push] can
    extend (one of fewer than 2^32 - 1 slots) adds one slot at the end of
    the document of its room and keeps the others; the slot holds the
    element, and the [sync] shows it as [JSON.stringify] prints it, [null]
    when the message has no [element].  When the sequence is printed,
    whatever goes out is the [sync] of the old sequence followed by it;
    when it is not, the sender is sent "Server error" and the slot stays.
    On a document of 2^32 - 1 slots [push] throws: the document is kept
    and the sender is sent "Server error". *)
Theorem draw_appends_one_slot (s : State) (ws : conn)
    (clientMeta : ConnectionMeta) (parsed : json) :
  clients_get ws (activeClients s) = Some clientMeta →
  classify (get "type" parsed) = KDraw →
  let room := roomId clientMeta in
  let before := shapes_of s room in
  let after := shapes_of (fst (on_message s ws (Some parsed))) room in
  let out := snd (on_message s ws (Some parsed)) in
  let shown := default JNull (option_map wire (get "element" parsed)) in
  ((Z.of_nat (length before) < 2 ^ 32 - 1)%Z →
   length after = S (length before)
   ∧ (∀ j, (j < length before)%nat → after !! j = before !! j)
   ∧ after !! length before = Some (get "element" parsed)
   ∧ stringify_shapes after = stringify_shapes before ++ [shown]
   ∧ (stringify_returns (PSync (stringify_shapes before ++ [shown])) = true →
      ∀ c p, (c, p) ∈ out ↔
             p = PSync (stringify_shapes before ++ [shown])
             ∧ is_member s room c)
   ∧ (stringify_returns (PSync (stringify_shapes before ++ [shown])) = false →
      out = [(ws, PError "Server error")]))
  ∧ ((2 ^ 32 - 1 <= Z.of_nat (length before))%Z →
     fst (on_message s ws (Some parsed)) = s
     ∧ out = [(ws, PError "Server error")]).
Proof.
  intros Hm Hk room before after out shown. subst after out.
  split.
  - intros Hroom. rewrite (on_message_draw _ _ _ _ Hm Hk Hroom).
    cbn [fst snd]. rewrite shapes_of_store. fold room before.
    assert (Hwire : stringify_shapes (before ++ [get "element" parsed])
                    = stringify_shapes before ++ [shown]).
    { unfold stringify_shapes. rewrite map_app. simpl. subst shown.
      by destruct (get "element" parsed). }
    rewrite Hwire.
    split; [|split; [|split; [|split; [done|split]]]].
    + rewrite length_app. simpl. lia.
    + intros j Hj. by apply lookup_app_l.
    + apply lookup_last.
    + intros Hp. rewrite printed_true by exact Hp.
      intros c p. apply broadcast_all_reaches.
    + intros Hp. by rewrite printed_false by exact Hp.
  - intros Hfull. by rewrite (on_message_draw_full _ _ _ _ Hm Hk Hfull).
Qed.

Lemma array_splice1_last (a : shapes_t) (e : option json) (q : Q) :
  to_integer q = Z.of_nat (length a) ∨ to_integer q = (-1)%Z →
  array_splice1 (a ++ [e]) (Finite q) = a.
Proof.
  intros Hq.
  assert (Hlen : length (a ++ [e]) = S (length a))
    by (rewrite length_app; simpl; lia).
  rewrite (array_splice1_on_slot _ _ (length a)).
  - rewrite delete_take_drop, take_app_length, <- Hlen.
    by rewrite drop_all, app_nil_r.
  - lia.
  - rewrite Hlen. apply splice_start_on_slot; [lia|].
    destruct Hq as [->| ->]; [by left|right; lia].
Qed.

(** X13: a [draw] is undone by a [delete] of the last slot.  After a
    [draw] in a room whose document [push] can extend (one of fewer than
    2^32 - 1 slots), a [delete] by a connection registered in that room
    whose index is the length the document had, or -1, gives the room the
    document it had before the [draw]. *)
Theorem draw_then_delete_last_restores (s : State) (ws1 ws2 : conn)
    (m1 m2 : ConnectionMeta) (draw del : json) (q : Q) :
  clients_get ws1 (activeClients s) = Some m1 →
  clients_get ws2 (activeClients s) = Some m2 →
  roomId m1 = roomId m2 →
  (Z.of_nat (length (shapes_of s (roomId m1))) < 2 ^ 32 - 1)%Z →
  classify (get "type" draw) = KDraw →
  classify (get "type" del) = KDelete →
  as_number (get "index" del) = Some (Finite q) →
  to_integer q = Z.of_nat (length (shapes_of s (roomId m1)))
  ∨ to_integer q = (-1)%Z →
  shapes_of (fst (on_message (fst (on_message s ws1 (Some draw))) ws2 (Some del)))
    (roomId m1)
  = shapes_of s (roomId m1).
Proof.
  intros H1 H2 Hroom Hlen Hdraw Hdel Hq Hidx.
  rewrite (on_message_draw _ _ _ _ H1 Hdraw Hlen). cbn [fst].
  set (s1 := store_shapes s (roomId m1)
               (shapes_of s (roomId m1) ++ [get "element" draw])).
  assert (H2' : clients_get ws2 (activeClients s1) = Some m2) by exact H2.
  rewrite (on_message_delete _ _ _ _ _ H2' Hdel Hq). cbn [fst].
  rewrite <- Hroom, shapes_of_store. unfold s1. rewrite shapes_of_store.
  by apply array_splice1_last.
Qed.

(** X14: a [clear] of a registered connection empties the document of its
    room, whatever it held, and the [sync] of the empty sequence goes to
    every member of the room and to nobody else; an [init] in that room
    right after it is answered with the empty sequence, and a second
    [clear] leaves the state as the first one left it. *)
Theorem clear_empties_the_room (s : State) (ws1 ws2 : conn)
    (m1 m2 : ConnectionMeta) (clear : json) :
  clients_get ws1 (activeClients s) = Some m1 →
  clients_get ws2 (activeClients s) = Some m2 →
  roomId m1 = roomId m2 →
  classify (get "type" clear) = KClear →
  let s1 := fst (on_message s ws1 (Some clear)) in
  shapes_of s1 (roomId m1) = []
  ∧ (∀ c p, (c, p) ∈ snd (on_message s ws1 (Some clear)) ↔
            p = PSync [] ∧ is_member s (roomId m1) c)
  ∧ (∀ init, classify (get "type" init) = KInit →
             snd (on_message s1 ws2 (Some init)) = [(ws2, PInit [])])
  ∧ fst (on_message s1 ws2 (Some clear)) = s1.
Proof.
  intros H1 H2 Hroom Hk s1. subst s1.
  rewrite (on_message_clear _ _ _ _ H1 Hk). cbn [fst snd].
  set (s1 := store_shapes s (roomId m1) []).
  assert (H2' : clients_get ws2 (activeClients s1) = Some m2) by exact H2.
  assert (Hempty : shapes_of s1 (roomId m1) = []) by apply shapes_of_store.
  split; [done|]. split; [|split].
  - intros c p. apply broadcast_all_reaches.
  - intros init Hinit. rewrite (on_message_init _ _ _ _ H2' Hinit). cbn [snd].
    by rewrite <- Hroom, Hempty.
  - rewrite (on_message_clear _ _ _ _ H2' Hk). cbn [fst].
    rewrite <- Hroom. unfold s1, store_shapes.
    cbn [roomShapes with_shapes activeClients roomUserMap readyState pending].
    by rewrite insert_insert_eq.
Qed.

(** X15: a [move] of a registered connection whose index is an integer
    inside the document keeps the length of the document, puts the element
    in that slot and leaves the other slots.  When [JSON.stringify] can
    print the new sequence, its [sync] goes to every member of the room
    and to nobody else, and shows the element, as printed, at that place;
    when it cannot, the sender is sent "Server error", no [sync] goes out
    and the element stays in the slot. *)
Theorem move_replaces_one_slot (s : State) (ws : conn)
    (clientMeta : ConnectionMeta) (parsed : json) (i : nat) :
  clients_get ws (activeClients s) = Some clientMeta →
  classify (get "type" parsed) = KMove →
  as_number (get "index" parsed) = Some (Finite (inject_Z (Z.of_nat i))) →
  let room := roomId clientMeta in
  let before := shapes_of s room in
  let after := shapes_of (fst (on_message s ws (Some parsed))) room in
  let out := snd (on_message s ws (Some parsed)) in
  (i < length before)%nat → (Z.of_nat i < 2 ^ 32 - 1)%Z →
  length after = length before
  ∧ after !! i = Some (get "element" parsed)
  ∧ (∀ j, j ≠ i → after !! j = before !! j)
  ∧ stringify_shapes after !! i
    = Some (default JNull (option_map wire (get "element" parsed)))
  ∧ (stringify_returns (PSync (stringify_shapes after)) = true →
     ∀ c p, (c, p) ∈ out ↔
            p = PSync (stringify_shapes after) ∧ is_member s room c)
  ∧ (stringify_returns (PSync (stringify_shapes after)) = false →
     out = [(ws, PError "Server error")]).
Proof.
  intros Hm Hk Hq room before after out Hi Hmax. subst after out.
  rewrite (on_message_move _ _ _ _ _ Hm Hk Hq). cbn [fst snd].
  rewrite shapes_of_store. fold room before.
  rewrite array_assign_inside by lia. rewrite Nat2Z.id.
  split; [|split; [|split; [|split; [|split]]]].
  - apply length_insert.
  - by apply list_lookup_insert_eq.
  - intros j Hj. by apply list_lookup_insert_ne.
  - unfold stringify_shapes.
    change (map ?f ?l) with (f <$> l).
    rewrite list_lookup_fmap, list_lookup_insert_eq by done.
    simpl. by destruct (get "element" parsed).
  - intros Hp. rewrite printed_true by exact Hp.
    intros c p. apply broadcast_all_reaches.
  - intros Hp. by rewrite printed_false by exact Hp.
Qed.

(** X16: the holes a [stream] past the end leaves are seen as [null].
    After a [stream] of a registered connection at an integer index at or
    past the length of the document (below 2^32 - 1), the sequence an
    [init] in that room has to print is the old sequence, one [null] for
    every slot between its end and the index, and the element as printed.
    The requester is sent that sequence when [JSON.stringify] returns, and
    "Server error" when it throws, as it does when the index is so large
    that the text would pass the longest string of the engine. *)
Theorem stream_past_end_pads_with_null (s : State) (ws1 ws2 : conn)
    (m1 m2 : ConnectionMeta) (stream init : json) (i : nat) :
  clients_get ws1 (activeClients s) = Some m1 →
  clients_get ws2 (activeClients s) = Some m2 →
  roomId m1 = roomId m2 →
  classify (get "type" stream) = KStream →
  as_number (get "index" stream) = Some (Finite (inject_Z (Z.of_nat i))) →
  classify (get "type" init) = KInit →
  (length (shapes_of s (roomId m1)) <= i)%nat → (Z.of_nat i < 2 ^ 32 - 1)%Z →
  let out :=
    snd (on_message (fst (on_message s ws1 (Some stream))) ws2 (Some init)) in
  let padded :=
    stringify_shapes (shapes_of s (roomId m1))
    ++ replicate (i - length (shapes_of s (roomId m1))) JNull
    ++ [default JNull (option_map wire (get "element" stream))] in
  (stringify_returns (PInit padded) = true → out = [(ws2, PInit padded)])
  ∧ (stringify_returns (PInit padded) = false →
     out = [(ws2, PError "Server error")]).
Proof.
  intros H1 H2 Hroom Hk Hq Hinit Hlen Hmax out padded. subst out.
  rewrite (on_message_stream _ _ _ _ _ H1 Hk Hq). cbn [fst].
  set (s1 := store_shapes s (roomId m1) _).
  assert (H2' : clients_get ws2 (activeClients s1) = Some m2) by exact H2.
  rewrite (on_message_init _ _ _ _ H2' Hinit). cbn [snd].
  rewrite <- Hroom. unfold s1. rewrite shapes_of_store.
  rewrite array_assign_past_end by lia. rewrite Nat2Z.id.
  assert (Hpad : stringify_shapes
                   (shapes_of s (roomId m1)
                    ++ replicate (i - length (shapes_of s (roomId m1))) None
                    ++ [get "element" stream]) = padded).
  { subst padded. unfold stringify_shapes. rewrite !map_app.
    assert (Hholes : ∀ n,
              map (λ o : option json,
                     match o with Some v => wire v | None => JNull end)
                (replicate n None) = replicate n JNull)
      by (intros n; induction n as [|n IH]; simpl; [done|by rewrite IH]).
    rewrite Hholes. simpl. by destruct (get "element" stream). }
  rewrite Hpad. split; intros Hp.
  - by rewrite printed_true by exact Hp.
  - by rewrite printed_false by exact Hp.
Qed.

(** ** The first match *)

Lemma find_first {A} (f : A → bool) (l : list A) (x : A) :
  List.find f l = Some x →
  ∃ l1 l2, l = l1 ++ x :: l2 ∧ f x = true ∧ ∀ y, y ∈ l1 → f y = false.
Proof.
  induction l as [|y l IH]; simpl; [discriminate|].
  destruct (f y) eqn:Hy.
  - intros [= ->]. exists [], l. split; [done|]. split; [done|].
    intros z Hz. by apply elem_of_nil in Hz.
  - intros Hf. destruct (IH Hf) as (l1 & l2 & -> & Hx & Hl1).
    exists (y :: l1), l2. split; [done|]. split; [done|].
    intros z Hz. apply elem_of_cons in Hz as [->|Hz]; [done|by apply Hl1].
Qed.

(** X17: [sendToUserInRoom] sends to the connection that registered first
    among the OPEN connections of the target user in the room: every
    entry of the registry before the one it sends to fails its test.  It
    does not look at the presence sets: with any other sets it answers and
    sends the same, so a user that is out of the presence set of the room
    is still reached. *)
Theorem signaling_takes_first_match (s : State) (room : string)
    (target : option Q) (p : payload) (c : conn) :
  snd (sendToUserInRoom s room target p) = [(c, p)] →
  (∃ l1 m l2, activeClients s = l1 ++ (c, m) :: l2
              ∧ is_target s room target (c, m) = true
              ∧ ∀ e, e ∈ l1 → is_target s room target e = false)
  ∧ ∀ users, sendToUserInRoom (with_users s users) room target p
             = (true, [(c, p)]).
Proof.
  unfold sendToUserInRoom.
  destruct (List.find (is_target s room target) (activeClients s))
    as [[c' m]|] eqn:Hf; simpl; [|discriminate].
  intros [= ->]. split.
  - destruct (find_first _ _ _ Hf) as (l1 & l2 & Hl & Hx & Hl1).
    by exists l1, m, l2.
  - intros users.
    change (is_target (with_users s users) room target)
      with (is_target s room target).
    by rewrite Hf.
Qed.

(** ** Registration from message to meta *)

(** X18: a [register] message that lacks [roomId] or [userId], or holds
    for one of them a value that [!] takes for missing, is answered
    "Missing roomId or userId" and the gate is not asked.  One that holds
    both, with a [userId] that [Number] cannot convert, is answered "Server
    error" and the gate is not asked either.  Any other is sent to the
    gate and nothing is sent meanwhile, whether the connection has a meta
    or not; when the gate answers a room, asked for under a string, with a
    user whose id is the number sent, the connection has that user and
    that room as meta, the user is in the presence set of the room, and no
    lookup is left pending that was not pending before the message. *)
Theorem register_message_round (s : State) (ws : conn) (parsed : json) :
  classify (get "type" parsed) = KRegister →
  let s1 := fst (on_message s ws (Some parsed)) in
  (truthy_opt (get "roomId" parsed) = false
   ∨ truthy_opt (get "userId" parsed) = false →
   on_message s ws (Some parsed) = (s, [(ws, PError "Missing roomId or userId")]))
  ∧ (truthy_opt (get "roomId" parsed) = true →
     truthy_opt (get "userId" parsed) = true →
     Number (get "userId" parsed) = Throws →
     on_message s ws (Some parsed) = (s, [(ws, PError "Server error")]))
  ∧ (∀ numericUserId,
     truthy_opt (get "roomId" parsed) = true →
     truthy_opt (get "userId" parsed) = true →
     Number (get "userId" parsed) = Converts numericUserId →
     snd (on_message s ws (Some parsed)) = []
     ∧ pending s1
       = pending s ++ [TRegister ws (default JNull (get "roomId" parsed))
                         numericUserId]
     ∧ ∀ r users u,
         get "roomId" parsed = Some (JStr r) →
         List.find (num_is numericUserId) users = Some u →
         let s2 := fst (step s1 (EvRoomLookup (length (pending s))
                                   (RoomFound users))) in
         clients_get ws (activeClients s2) = Some {| userId := u; roomId := r |}
         ∧ u ∈ users_of s2 r
         ∧ pending s2 = pending s).
Proof.
  intros Hk s1. subst s1.
  destruct (classified_is_object parsed) as [fields ->];
    [rewrite Hk; discriminate|].
  rewrite on_message_object, Hk. unfold case_register, truthy_opt.
  split; [|split].
  - intros [H|H].
    + destruct (get "roomId" _) as [room|]; [|done]. rewrite H.
      by destruct (get "userId" _).
    + destruct (get "userId" _) as [user|]; [|by destruct (get "roomId" _)].
      rewrite H. destruct (get "roomId" _); [|done]. by rewrite orb_true_r.
  - destruct (get "roomId" _) as [room|]; [|discriminate].
    destruct (get "userId" _) as [user|]; [|discriminate].
    intros Hr Hu Hn. by rewrite Hr, Hu, Hn.
  - intros numericUserId.
    destruct (get "roomId" _) as [room|]; [|discriminate].
    destruct (get "userId" _) as [user|]; [|discriminate].
    intros Hr Hu Hn. rewrite Hr, Hu, Hn. cbn [negb orb fst snd default].
    split; [done|]. split; [done|].
    intros r users u [= ->] Hf. cbn [step pending with_pending].
    rewrite lookup_last, delete_last. unfold resume_register.
    rewrite Hf. cbn [fst activeClients roomUserMap pending with_pending
                       with_users with_clients].
    split; [apply clients_get_set_eq|]. split; [|done].
    unfold users_of. cbn [roomUserMap with_users with_clients with_pending].
    rewrite lookup_insert_eq. apply elem_set_add. by left.
Qed.

(** ** The user list after a close *)

Lemma on_message_request_user_list (s : State) (ws : conn)
    (m : ConnectionMeta) (parsed : json) :
  clients_get ws (activeClients s) = Some m →
  classify (get "type" parsed) = KRequestUserList →
  on_message s ws (Some parsed) = (s, [(ws, PUserList (users_of s (roomId m)))]).
Proof. intros Hm Hk. dispatch parsed Hk Hm. reflexivity. Qed.

(** X19: after the close of a registered connection, a [request-user-list]
    of another connection of its room is answered, to that connection
    only and without a change of state, with the users the room had
    before, in the order they had, the user of the closed connection
    left out. *)
Theorem user_list_after_close (s : State) (ws1 ws2 : conn)
    (m1 m2 : ConnectionMeta) (parsed : json) :
  clients_get ws1 (activeClients s) = Some m1 →
  clients_get ws2 (activeClients s) = Some m2 →
  ws2 ≠ ws1 →
  roomId m2 = roomId m1 →
  classify (get "type" parsed) = KRequestUserList →
  on_message (on_close s ws1) ws2 (Some parsed)
  = (on_close s ws1,
     [(ws2, PUserList (filter (λ v, v ≠ userId m1) (users_of s (roomId m1))))]).
Proof.
  intros H1 H2 Hne Hroom Hk.
  assert (H2' : clients_get ws2 (activeClients (on_close s ws1)) = Some m2).
  { unfold on_close. rewrite H1. cbn [activeClients with_clients].
    by rewrite clients_get_delete_ne. }
  rewrite (on_message_request_user_list _ _ _ _ H2' Hk). do 3 f_equal.
  rewrite Hroom. unfold on_close. rewrite H1.
  assert (Hu : users_of (with_clients
                           (with_users s (leave_room (roomUserMap s) (roomId m1)
                                            (userId m1)))
                           (clients_delete ws1 (activeClients s))) (roomId m1)
               = if bool_decide (roomId m1 = roomId m1)
                 then set_delete (userId m1) (users_of s (roomId m1))
                 else users_of s (roomId m1))
    by apply (users_of_leave_room s).
  rewrite Hu. by rewrite bool_decide_eq_true_2.
Qed.

End Properties.


(** * The claims on concrete runs *)

(** ** Runs on which the specification and the code part ways *)

(** C1, a run against the claim: user 1 is registered in room "r1" on
    connections 1 and 2; after the close of connection 1, connection 2 is
    still OPEN and registered for user 1 in "r1", and the presence set of
    "r1" is empty. *)
Lemma C1_close_one_of_two_drops_user :
  reachable ToNumber_digits Prints_all s_two_tabs
  ∧ readyState s_two_tabs !! 2 = Some OPEN
  ∧ clients_get 2 (activeClients s_two_tabs) = Some meta_1
  ∧ users_of s_two_tabs "r1" = []
  ∧ ¬ presence_matches s_two_tabs.
Proof.
  split; [apply run_reachable; constructor|].
  split; [vm_compute; reflexivity|].
  split; [vm_compute; reflexivity|].
  split; [vm_compute; reflexivity|].
  intros H. destruct (H "r1" 1%Z) as [_ Hin].
  assert (Hu : 1%Z ∈ users_of s_two_tabs "r1").
  { apply Hin. exists 2. split; [vm_compute; reflexivity|].
    vm_compute. constructor. }
  vm_compute in Hu. inversion Hu.
Qed.

(** C2, a run against the claim: connection 1, registered for user 1 in
    room "r1", sends a second register message for user 2 in room "r2";
    once the gate confirms it, the meta of the connection is the new pair. *)
Lemma C2_second_register_replaces_meta :
  clients_get 1 (activeClients s_second_pending) = Some meta_1
  ∧ clients_get 1
      (activeClients
         (fst (step ToNumber_digits Prints_all s_second_pending
                 (EvRoomLookup 0 (RoomFound [2%Z])))))
    = Some {| userId := 2; roomId := "r2" |}
  ∧ clients_get 1
      (activeClients
         (fst (step ToNumber_digits Prints_all s_second_pending
                 (EvRoomLookup 0 (RoomFound [2%Z])))))
    ≠ clients_get 1 (activeClients s_second_pending).
Proof.
  split; [vm_compute; reflexivity|].
  split; [vm_compute; reflexivity|].
  vm_compute. discriminate.
Qed.

(** C3, a run against the claim: on the empty document of "r1", a [stream]
    at index 2 is not rejected: the document becomes two holes and the
    element, the delta goes to the other member, and nobody is sent an
    error; a [stream] at index -1 is broadcast as well. *)
Lemma C3_stream_past_end_is_applied :
  shapes_of s_two "r1" = []
  ∧ shapes_of (fst (on_message ToNumber_digits Prints_all s_two 1 (msg_stream 2 line))) "r1"
    = [None; None; Some line]
  ∧ snd (on_message ToNumber_digits Prints_all s_two 1 (msg_stream 2 line))
    = [(2, PStream (Some line) (jint 2) None 1)]
  ∧ snd (on_message ToNumber_digits Prints_all s_two 1 (msg_stream (-1) line))
    = [(2, PStream (Some line) (jint (-1)) None 1)].
Proof. repeat split; vm_compute; reflexivity. Qed.

(** C4, a run against the claim: on the document of "r1" that holds one
    line, [delete] at index -1 removes the line. *)
Lemma C4_delete_negative_index_removes :
  shapes_of s_line "r1" = [Some line]
  ∧ shapes_of (fst (on_message ToNumber_digits Prints_all s_line 1 (msg_delete (-1)))) "r1"
    = []
  ∧ shapes_of (fst (on_message ToNumber_digits Prints_all s_line 1 (msg_delete (-1)))) "r1"
    ≠ shapes_of s_line "r1".
Proof.
  split; [vm_compute; reflexivity|].
  split; [vm_compute; reflexivity|].
  vm_compute. discriminate.
Qed.

(** C7, a run against the claim: user 1 is registered in "r1" on
    connections 1 and 2 and user 2 on connection 3; connection 2 was
    closed, which took user 1 out of the presence set.  Connection 1 is
    registered and OPEN and connection 3 is a member of the room; the
    [sync] of a [draw] of connection 1 goes to connection 3 alone, not to
    the connection it comes from. *)
Lemma C7_sender_outside_presence_gets_no_sync :
  reachable ToNumber_digits Prints_all s_two_tabs_and_peer
  ∧ clients_get 1 (activeClients s_two_tabs_and_peer) = Some meta_1
  ∧ readyState s_two_tabs_and_peer !! 1 = Some OPEN
  ∧ is_member s_two_tabs_and_peer "r1" 3
  ∧ snd (on_message ToNumber_digits Prints_all s_two_tabs_and_peer 1 (msg_draw line))
    = [(3, PSync [line])]
  ∧ ∀ p, (1, p) ∉
         snd (on_message ToNumber_digits Prints_all s_two_tabs_and_peer 1 (msg_draw line)).
Proof.
  assert (Hout : snd (on_message ToNumber_digits Prints_all s_two_tabs_and_peer 1
                        (msg_draw line)) = [(3, PSync [line])])
    by (vm_compute; reflexivity).
  split; [apply run_reachable; constructor|].
  split; [vm_compute; reflexivity|].
  split; [vm_compute; reflexivity|].
  split.
  { exists meta_2. split; [vm_compute; do 2 constructor|].
    split; [reflexivity|]. split; [vm_compute; constructor|].
    vm_compute; reflexivity. }
  split; [exact Hout|].
  intros p Hin. rewrite Hout in Hin.
  apply list_elem_of_singleton in Hin. discriminate.
Qed.

(** C8, two runs against the claim, on the empty document of "r1".
    Connection 1 draws the number that [JSON.parse] makes of 1e999, and
    the [init] of connection 2 is answered with [null] in its place, which
    is not the element drawn.  With an engine that prints no value nested
    deeper than 2, connection 1 draws [[[[]]]]; the element is stored and
    the [init] of connection 2 is answered "Server error", with no
    sequence at all. *)
Lemma C8_drawn_element_does_not_come_back :
  shapes_of s_two "r1" = []
  ∧ snd (on_message ToNumber_digits Prints_all
           (fst (on_message ToNumber_digits Prints_all s_two 1
                   (msg_draw beyond_doubles)))
           2 (msg_plain "init"))
    = [(2, PInit [JNull])]
  ∧ JNull ≠ beyond_doubles
  ∧ shapes_of (fst (on_message ToNumber_digits (Prints_shallow 2) s_two 1
                      (msg_draw nested))) "r1"
    = [Some nested]
  ∧ snd (on_message ToNumber_digits (Prints_shallow 2)
           (fst (on_message ToNumber_digits (Prints_shallow 2) s_two 1
                   (msg_draw nested)))
           2 (msg_plain "init"))
    = [(2, PError "Server error")].
Proof.
  split; [vm_compute; reflexivity|].
  split; [vm_compute; reflexivity|].
  split; [discriminate|].
  split; vm_compute; reflexivity.
Qed.

(** C9, two runs against the claim, in the room "r1" of connections 1 and
    2.  Connection 2 sends an offer whose [targetUserId] is there and is
    the number 0: it is answered "Missing targetUserId", not "Target user
    not connected".  It sends one whose [targetUserId] is there and is an
    object that [Number] cannot convert: it is answered "Server error". *)
Lemma C9_present_target_is_not_looked_up :
  clients_get 2 (activeClients s_two) = Some meta_2
  ∧ option_map (get "targetUserId") msg_offer_to_zero = Some (Some (jint 0))
  ∧ on_message ToNumber_digits Prints_all s_two 2 msg_offer_to_zero
    = (s_two, [(2, PError "Missing targetUserId")])
  ∧ option_map (get "targetUserId") msg_offer_to_object
    = Some (Some unconvertible)
  ∧ on_message ToNumber_digits Prints_all s_two 2 msg_offer_to_object
    = (s_two, [(2, PError "Server error")]).
Proof. repeat split; vm_compute; reflexivity. Qed.

(** ** The theorems at work on a run *)

(** C1 on a run: two users register in "r1"; the first asks to register
    again, as user 7, and is denied; the transport of the second starts to
    close and the connection of the first is closed. *)
Lemma C1_presence_matches_registry_witness :
  orderly_run ToNumber_digits Prints_all initial orderly_example
  ∧ presence_matches_unclosed (fst (run ToNumber_digits Prints_all initial orderly_example)).
Proof.
  assert (H : orderly_run ToNumber_digits Prints_all initial orderly_example).
  { unfold orderly_example, room_of_two.
    cbn [app orderly_run orderly].
    split; [exact I|]. split; [exact I|]. split; [exact I|].
    split; [vm_compute; intros _; split; [reflexivity|left; reflexivity]|].
    split; [exact I|].
    split; [vm_compute; intros _; split; [reflexivity|left; reflexivity]|].
    split; [exact I|].
    split; [vm_compute; intros (r & users & u & _ & Hres & _);
            discriminate Hres|].
    split; [exact I|].
    split; [|exact I].
    vm_compute.
    intros m c m' [= <-] Hin Hu Hr.
    inversion Hin as [|? ? ? Hin2]; subst; [reflexivity|].
    inversion Hin2 as [|? ? ? Hin3]; subst; [discriminate Hu|].
    inversion Hin3. }
  split; [exact H|].
  apply (C1_presence_matches_registry ToNumber_digits Prints_all orderly_example H).
Defined.

(** C2 on a run: the second register of connection 1 is confirmed. *)
Lemma C2_meta_changed_only_by_confirmed_register_witness :
  pending s_second_pending !! 0%nat
  = Some (TRegister 1 (JStr "r2") (Some (inject_Z 2)))
  ∧ clients_get 1
      (activeClients
         (fst (step ToNumber_digits Prints_all s_second_pending
                 (EvRoomLookup 0 (RoomFound [2%Z])))))
    = Some {| userId := 2; roomId := "r2" |}.
Proof.
  assert (H : pending s_second_pending !! 0%nat
              = Some (TRegister 1 (JStr "r2") (Some (inject_Z 2))))
    by (vm_compute; reflexivity).
  split; [exact H|].
  destruct (C2_meta_changed_only_by_confirmed_register ToNumber_digits Prints_all
              s_second_pending 0 1 (JStr "r2") (Some (inject_Z 2))
              (RoomFound [2%Z]) H) as (_ & _ & _ & Hnew).
  apply (Hnew "r2" [2%Z] 2%Z); reflexivity.
Defined.

(** C3 on a run: a [stream] at index 2 on the empty document of "r1". *)
Lemma C3_stream_index_never_rejected_witness :
  clients_get 1 (activeClients s_two) = Some meta_1
  ∧ length (shapes_of (fst (on_message ToNumber_digits Prints_all s_two 1
                              (msg_stream 2 line))) "r1") = 3%nat
  ∧ ∀ x, x ∈ snd (on_message ToNumber_digits Prints_all s_two 1 (msg_stream 2 line)) →
         is_error (snd x) = false.
Proof.
  assert (Hm : clients_get 1 (activeClients s_two) = Some meta_1)
    by (vm_compute; reflexivity).
  split; [exact Hm|].
  destruct (C3_stream_index_never_rejected ToNumber_digits Prints_all s_two 1 meta_1
              (JObj [("type", JStr "stream"); ("index", jint 2);
                     ("element", line)])
              (Finite (inject_Z 2)) Hm eq_refl eq_refl)
    as (Hsent & _ & _ & _ & Hidx).
  split; [|exact (proj1 (Hsent eq_refl))].
  destruct (Hidx 2%Z eq_refl) as (_ & _ & Hgrow).
  apply Hgrow. vm_compute. split; [discriminate|reflexivity].
Defined.

(** C4 on a run: [delete] at index 5 on a document of one line. *)
Lemma C4_delete_past_end_noop_witness :
  clients_get 1 (activeClients s_line) = Some meta_1
  ∧ shapes_of (fst (on_message ToNumber_digits Prints_all s_line 1 (msg_delete 5))) "r1"
    = shapes_of s_line "r1".
Proof.
  assert (Hm : clients_get 1 (activeClients s_line) = Some meta_1)
    by (vm_compute; reflexivity).
  split; [exact Hm|].
  destruct (C4_delete_past_end_noop ToNumber_digits Prints_all s_line 1 meta_1
              (JObj [("type", JStr "delete"); ("index", jint 5)])
              (Finite (inject_Z 5)) Hm eq_refl eq_refl) as (_ & _ & Hpast & _).
  apply Hpast. right. exists (inject_Z 5).
  split; [reflexivity|vm_compute; discriminate].
Defined.

(** C5 on a run: user 7 asks for room "r1", whose users are 1 and 2. *)
Lemma C5_unauthorized_register_no_mutation_witness :
  pending s_stranger_pending !! 0%nat
  = Some (TRegister 1 (JStr "r1") (Some (inject_Z 7)))
  ∧ not_confirmed (Some (inject_Z 7)) (RoomFound [1; 2]%Z)
  ∧ snd (step ToNumber_digits Prints_all s_stranger_pending
           (EvRoomLookup 0 (RoomFound [1; 2]%Z)))
    = [(1, PError "Unauthorized user or room")]
  ∧ activeClients (fst (step ToNumber_digits Prints_all s_stranger_pending
                          (EvRoomLookup 0 (RoomFound [1; 2]%Z))))
    = activeClients s_stranger_pending.
Proof.
  assert (Hp : pending s_stranger_pending !! 0%nat
               = Some (TRegister 1 (JStr "r1") (Some (inject_Z 7))))
    by (vm_compute; reflexivity).
  assert (Hno : not_confirmed (Some (inject_Z 7)) (RoomFound [1; 2]%Z)).
  { intros u Hu.
    inversion Hu as [|? ? ? Hu2]; subst; [reflexivity|].
    inversion Hu2 as [|? ? ? Hu3]; subst; [reflexivity|].
    inversion Hu3. }
  split; [exact Hp|]. split; [exact Hno|].
  destruct (C5_unauthorized_register_no_mutation ToNumber_digits Prints_all
              s_stranger_pending 0 1 (JStr "r1") (Some (inject_Z 7))
              (RoomFound [1; 2]%Z) Hp Hno) as (Hout & Hclients & _).
  split; [exact Hout|exact Hclients].
Defined.

(** C6 on a run: the chat message of connection 1 cannot be saved. *)
Lemma C6_persistence_failure_no_delivery_witness :
  pending s_chat_pending !! 0%nat = Some (TChat 1 "r1" 1 (Some (JStr "hi")))
  ∧ snd (step ToNumber_digits Prints_all s_chat_pending (EvChatCreate 0 ChatThrow))
    = [(1, PError "Server error")].
Proof.
  assert (Hp : pending s_chat_pending !! 0%nat
               = Some (TChat 1 "r1" 1 (Some (JStr "hi"))))
    by (vm_compute; reflexivity).
  split; [exact Hp|].
  apply (C6_persistence_failure_no_delivery ToNumber_digits Prints_all s_chat_pending
           0 1 "r1" 1%Z (Some (JStr "hi")) Hp).
Defined.

(** C7 on a run: connection 1, a member of "r1", draws and streams. *)
Lemma C7_stream_excludes_sender_sync_includes_witness :
  clients_get 1 (activeClients s_two) = Some meta_1
  ∧ (1, PSync [line]) ∈ snd (on_message ToNumber_digits Prints_all s_two 1 (msg_draw line))
  ∧ ∀ p, (1, p) ∉ snd (on_message ToNumber_digits Prints_all s_two 1 (msg_stream 0 line)).
Proof.
  assert (Hm : clients_get 1 (activeClients s_two) = Some meta_1)
    by (vm_compute; reflexivity).
  split; [exact Hm|]. split.
  - destruct (C7_stream_excludes_sender_sync_includes ToNumber_digits Prints_all s_two 1
                meta_1 (JObj [("type", JStr "draw"); ("element", line)]) Hm)
      as (_ & Hdraw & _).
    destruct (Hdraw eq_refl) as (Hsync & _).
    apply Hsync; [vm_compute; reflexivity|reflexivity|].
    split; [vm_compute; reflexivity|].
    exists meta_1. split; [vm_compute; constructor|].
    split; [reflexivity|]. split; [vm_compute; constructor|].
    vm_compute. reflexivity.
  - destruct (C7_stream_excludes_sender_sync_includes ToNumber_digits Prints_all s_two 1
                meta_1 (JObj [("type", JStr "stream"); ("index", jint 0);
                              ("element", line)]) Hm)
      as (Hstream & _).
    destruct (Hstream (Finite (inject_Z 0)) eq_refl eq_refl) as (_ & Hnone & _).
    apply (Hnone eq_refl).
Defined.

(** C8 on a run: connection 1 draws a line and connection 2 asks for the
    shapes. *)
Lemma C8_draw_then_init_witness :
  clients_get 1 (activeClients s_two) = Some meta_1
  ∧ clients_get 2 (activeClients s_two) = Some meta_2
  ∧ shapes_of s_two "r1" = []
  ∧ snd (on_message ToNumber_digits Prints_all
           (fst (on_message ToNumber_digits Prints_all s_two 1 (msg_draw line)))
           2 (msg_plain "init"))
    = [(2, PInit [line])].
Proof.
  assert (H1 : clients_get 1 (activeClients s_two) = Some meta_1)
    by (vm_compute; reflexivity).
  assert (H2 : clients_get 2 (activeClients s_two) = Some meta_2)
    by (vm_compute; reflexivity).
  assert (He : shapes_of s_two (roomId meta_1) = [])
    by (vm_compute; reflexivity).
  split; [exact H1|]. split; [exact H2|]. split; [exact He|].
  destruct (C8_draw_then_init ToNumber_digits Prints_all s_two 1 2
              meta_1 meta_2
              (JObj [("type", JStr "draw"); ("element", line)])
              (JObj [("type", JStr "init")]) line
              H1 H2 eq_refl He eq_refl eq_refl eq_refl) as (Hout & _).
  exact (Hout eq_refl).
Defined.

(** C9 on a run: connection 2 sends an offer to user 1, and a candidate
    without a target. *)
Lemma C9_signaling_relay_witness :
  clients_get 2 (activeClients s_two) = Some meta_2
  ∧ on_message ToNumber_digits Prints_all s_two 2 (msg_plain "webrtc-ice")
    = (s_two, [(2, PError "Missing targetUserId")])
  ∧ ∃ c m, (c, m) ∈ activeClients s_two
           ∧ num_is (Some (inject_Z 1)) (userId m) = true
           ∧ on_message ToNumber_digits Prints_all s_two 2 (msg_offer 1 (JStr "sdp"))
             = (s_two, [(c, PSignal "webrtc-offer" 2 (Some (JStr "sdp")))]).
Proof.
  assert (Hm : clients_get 2 (activeClients s_two) = Some meta_2)
    by (vm_compute; reflexivity).
  split; [exact Hm|]. split.
  - destruct (C9_signaling_relay ToNumber_digits Prints_all s_two 2 meta_2
                (JObj [("type", JStr "webrtc-ice")]) "webrtc-ice" Hm eq_refl)
      as (_ & Hmissing & _).
    apply Hmissing. reflexivity.
  - destruct (C9_signaling_relay ToNumber_digits Prints_all s_two 2 meta_2
                (JObj [("type", JStr "webrtc-offer"); ("targetUserId", jint 1);
                       ("data", JStr "sdp")]) "webrtc-offer" Hm eq_refl)
      as (_ & _ & _ & _ & _ & _ & Hfound).
    destruct (Hfound (Some (inject_Z 1)) eq_refl eq_refl eq_refl)
      as (c & m & Hin & _ & Hnum & _ & _ & Hout).
    + exists (1, meta_1). split; [vm_compute; constructor|].
      vm_compute. reflexivity.
    + exists c, m. split; [exact Hin|]. split; [exact Hnum|exact Hout].
Defined.

(** C10 on a run: a [move] whose index is the string "0". *)
Lemma C10_non_numeric_index_ignored_witness :
  clients_get 1 (activeClients s_two) = Some meta_1
  ∧ on_message ToNumber_digits Prints_all s_two 1 msg_move_text_index = (s_two, []).
Proof.
  assert (Hm : clients_get 1 (activeClients s_two) = Some meta_1)
    by (vm_compute; reflexivity).
  split; [exact Hm|].
  apply (C10_non_numeric_index_ignored ToNumber_digits Prints_all s_two 1 meta_1
           (JObj [("type", JStr "move"); ("index", JStr "0");
                  ("element", line)]) Hm).
  - right. left. reflexivity.
  - reflexivity.
Defined.

(** * Further properties on concrete runs *)

(** X1 on a run: connection 3, which never registered, draws. *)
Lemma unregistered_sender_is_refused_witness :
  clients_get 3 (activeClients s_two) = None
  ∧ on_message ToNumber_digits Prints_all s_two 3 (msg_draw line)
    = (s_two, [(3, PError "Client not registered")]).
Proof.
  assert (H : clients_get 3 (activeClients s_two) = None)
    by (vm_compute; reflexivity).
  split; [exact H|].
  apply (unregistered_sender_is_refused ToNumber_digits Prints_all s_two 3
           (JObj [("type", JStr "draw"); ("element", line)]) H);
    discriminate.
Defined.

(** X2 on a run, with an engine that prints no value nested deeper than
    2: connection 1 draws [[[[]]]] and is answered "Server error"; nothing
    but the documents has changed, and the document of "r1" holds the
    element. *)
Lemma error_reply_means_no_change_witness :
  (1, PError "Server error")
  ∈ snd (on_message ToNumber_digits (Prints_shallow 2) s_two 1 (msg_draw nested))
  ∧ fst (on_message ToNumber_digits (Prints_shallow 2) s_two 1 (msg_draw nested))
    = with_shapes s_two
        (roomShapes (fst (on_message ToNumber_digits (Prints_shallow 2) s_two 1
                            (msg_draw nested))))
  ∧ shapes_of (fst (on_message ToNumber_digits (Prints_shallow 2) s_two 1
                      (msg_draw nested))) "r1"
    = [Some nested].
Proof.
  assert (H : (1, PError "Server error")
              ∈ snd (on_message ToNumber_digits (Prints_shallow 2) s_two 1
                       (msg_draw nested)))
    by (vm_compute; constructor).
  split; [exact H|].
  split; [|vm_compute; reflexivity].
  apply (error_reply_means_no_change ToNumber_digits (Prints_shallow 2) s_two 1
           (msg_draw nested) 1 "Server error" H).
Defined.

(** X5 on a run: the [lock] of connection 1 reaches connection 2. *)
Lemma relays_reach_the_others_witness :
  clients_get 1 (activeClients s_two) = Some meta_1
  ∧ (2, PLock 1) ∈ snd (on_message ToNumber_digits Prints_all s_two 1 (msg_plain "lock")).
Proof.
  assert (Hm : clients_get 1 (activeClients s_two) = Some meta_1)
    by (vm_compute; reflexivity).
  split; [exact Hm|].
  destruct (relays_reach_the_others ToNumber_digits Prints_all s_two 1 meta_1
              (JObj [("type", JStr "lock")]) Hm) as (Hlock & _).
  destruct (Hlock eq_refl) as [_ Hout].
  apply Hout. split; [reflexivity|]. split; [discriminate|].
  exists meta_2. split; [vm_compute; do 2 constructor|].
  split; [reflexivity|]. split; [vm_compute; do 2 constructor|].
  vm_compute. reflexivity.
Defined.

(** X6 on a run: user 7 is confirmed for room "r1" on connection 3. *)
Lemma confirmed_register_joins_room_witness :
  List.find (num_is (Some (inject_Z 7))) [1; 2; 7]%Z = Some 7%Z
  ∧ clients_get 3
      (activeClients
         (fst (resume_register s_two 3 (JStr "r1") (Some (inject_Z 7))
                 (RoomFound [1; 2; 7]%Z))))
    = Some {| userId := 7; roomId := "r1" |}.
Proof.
  assert (H : List.find (num_is (Some (inject_Z 7))) [1; 2; 7]%Z = Some 7%Z)
    by (vm_compute; reflexivity).
  split; [exact H|].
  apply (confirmed_register_joins_room s_two 3 "r1" (Some (inject_Z 7))
           [1; 2; 7]%Z 7%Z H).
Defined.

(** X7 on a run: the chat message of connection 1 waits for the
    persistence without a word. *)
Lemma chat_message_round_witness :
  clients_get 1 (activeClients s_two) = Some meta_1
  ∧ snd (on_message ToNumber_digits Prints_all s_two 1 (msg_chat "r1" 1 "hi")) = [].
Proof.
  assert (Hm : clients_get 1 (activeClients s_two) = Some meta_1)
    by (vm_compute; reflexivity).
  split; [exact Hm|].
  destruct (chat_message_round ToNumber_digits Prints_all s_two 1 meta_1
              (JObj [("type", JStr "message"); ("roomId", JStr "r1");
                     ("user_id", jint 1); ("text", JStr "hi")])
              Hm eq_refl) as (_ & _ & Hsaved).
  apply (Hsaved (Some (inject_Z 1))); reflexivity.
Defined.

(** X9 on a run: the state with two registered users. *)
Lemma reachable_states_well_formed_witness :
  reachable ToNumber_digits Prints_all s_two
  ∧ NoDup (activeClients s_two).*1
  ∧ NoDup (users_of s_two "r1").
Proof.
  assert (H : reachable ToNumber_digits Prints_all s_two)
    by (apply run_reachable; constructor).
  split; [exact H|].
  destruct (reachable_states_well_formed ToNumber_digits Prints_all s_two H)
    as (Hkeys & _ & Husers & _).
  split; [exact Hkeys|apply Husers].
Defined.

(** X10 on a run: user 7 joins "r1" on connection 3, and leaves. *)
Lemma register_then_close_restores_witness :
  clients_get 3 (activeClients s_two) = None
  ∧ (7%Z ∉ users_of s_two "r1")
  ∧ roomUserMap s_two !! "r1" ≠ Some []
  ∧ on_close
      (fst (resume_register s_two 3 (JStr "r1") (Some (inject_Z 7))
              (RoomFound [7%Z]))) 3
    = s_two.
Proof.
  assert (H1 : clients_get 3 (activeClients s_two) = None)
    by (vm_compute; reflexivity).
  assert (H2 : 7%Z ∉ users_of s_two "r1").
  { vm_compute. intros H.
    inversion H as [|? ? ? H']; subst.
    inversion H' as [|? ? ? H'']; subst.
    inversion H''. }
  assert (H3 : roomUserMap s_two !! "r1" ≠ Some [])
    by (vm_compute; discriminate).
  split; [exact H1|]. split; [exact H2|]. split; [exact H3|].
  apply (proj1 (register_then_close_restores ToNumber_digits Prints_all
                  s_two 3 "r1" (Some (inject_Z 7)) [7%Z] 7%Z H1 H2 H3 eq_refl)).
Defined.

(** X11 on a run: the only line of the document is deleted. *)
Lemma delete_shifts_later_slots_down_witness :
  clients_get 1 (activeClients s_line) = Some meta_1
  ∧ S (length (shapes_of (fst (on_message ToNumber_digits Prints_all s_line 1
                                 (msg_delete 0))) "r1"))
    = length (shapes_of s_line "r1").
Proof.
  assert (Hm : clients_get 1 (activeClients s_line) = Some meta_1)
    by (vm_compute; reflexivity).
  split; [exact Hm|].
  apply (delete_shifts_later_slots_down ToNumber_digits Prints_all s_line 1 meta_1
           (JObj [("type", JStr "delete"); ("index", jint 0)])
           (inject_Z 0) 0 Hm eq_refl eq_refl).
  - vm_compute. constructor.
  - left. reflexivity.
Defined.

(** X12 on a run: a line is drawn on the empty document. *)
Lemma draw_appends_one_slot_witness :
  clients_get 1 (activeClients s_two) = Some meta_1
  ∧ length (shapes_of (fst (on_message ToNumber_digits Prints_all s_two 1 (msg_draw line)))
              "r1")
    = S (length (shapes_of s_two "r1")).
Proof.
  assert (Hm : clients_get 1 (activeClients s_two) = Some meta_1)
    by (vm_compute; reflexivity).
  split; [exact Hm|].
  destruct (draw_appends_one_slot ToNumber_digits Prints_all s_two 1 meta_1
              (JObj [("type", JStr "draw"); ("element", line)]) Hm eq_refl)
    as [Hroom _].
  apply Hroom. vm_compute. reflexivity.
Defined.

(** X13 on a run: connection 1 draws a circle after the line, connection 2
    deletes at -1. *)
Lemma draw_then_delete_last_restores_witness :
  clients_get 1 (activeClients s_line) = Some meta_1
  ∧ clients_get 2 (activeClients s_line) = Some meta_2
  ∧ shapes_of
      (fst (on_message ToNumber_digits Prints_all
              (fst (on_message ToNumber_digits Prints_all s_line 1 (msg_draw circle)))
              2 (msg_delete (-1)))) "r1"
    = shapes_of s_line "r1".
Proof.
  assert (H1 : clients_get 1 (activeClients s_line) = Some meta_1)
    by (vm_compute; reflexivity).
  assert (H2 : clients_get 2 (activeClients s_line) = Some meta_2)
    by (vm_compute; reflexivity).
  split; [exact H1|]. split; [exact H2|].
  apply (draw_then_delete_last_restores ToNumber_digits Prints_all s_line 1 2
           meta_1 meta_2
           (JObj [("type", JStr "draw"); ("element", circle)])
           (JObj [("type", JStr "delete"); ("index", jint (-1))])
           (inject_Z (-1)) H1 H2 eq_refl).
  - vm_compute. reflexivity.
  - reflexivity.
  - reflexivity.
  - reflexivity.
  - right. reflexivity.
Defined.

(** X14 on a run: connection 1 clears the document that holds a line. *)
Lemma clear_empties_the_room_witness :
  clients_get 1 (activeClients s_line) = Some meta_1
  ∧ clients_get 2 (activeClients s_line) = Some meta_2
  ∧ shapes_of (fst (on_message ToNumber_digits Prints_all s_line 1 (msg_plain "clear")))
      "r1"
    = [].
Proof.
  assert (H1 : clients_get 1 (activeClients s_line) = Some meta_1)
    by (vm_compute; reflexivity).
  assert (H2 : clients_get 2 (activeClients s_line) = Some meta_2)
    by (vm_compute; reflexivity).
  split; [exact H1|]. split; [exact H2|].
  apply (clear_empties_the_room ToNumber_digits Prints_all s_line 1 2 meta_1 meta_2
           (JObj [("type", JStr "clear")]) H1 H2 eq_refl eq_refl).
Defined.

(** X15 on a run: the line at index 0 is moved into a circle. *)
Lemma move_replaces_one_slot_witness :
  clients_get 1 (activeClients s_line) = Some meta_1
  ∧ shapes_of (fst (on_message ToNumber_digits Prints_all s_line 1 (msg_move 0 circle)))
      "r1" !! 0%nat
    = Some (Some circle).
Proof.
  assert (Hm : clients_get 1 (activeClients s_line) = Some meta_1)
    by (vm_compute; reflexivity).
  split; [exact Hm|].
  apply (move_replaces_one_slot ToNumber_digits Prints_all s_line 1 meta_1
           (JObj [("type", JStr "move"); ("index", jint 0);
                  ("element", circle)])
           0 Hm eq_refl eq_refl).
  - vm_compute. constructor.
  - reflexivity.
Defined.

(** X16 on a run: a [stream] at index 2 on the empty document, then an
    [init] of connection 2. *)
Lemma stream_past_end_pads_with_null_witness :
  clients_get 1 (activeClients s_two) = Some meta_1
  ∧ clients_get 2 (activeClients s_two) = Some meta_2
  ∧ snd (on_message ToNumber_digits Prints_all
           (fst (on_message ToNumber_digits Prints_all s_two 1 (msg_stream 2 line)))
           2 (msg_plain "init"))
    = [(2, PInit [JNull; JNull; line])].
Proof.
  assert (H1 : clients_get 1 (activeClients s_two) = Some meta_1)
    by (vm_compute; reflexivity).
  assert (H2 : clients_get 2 (activeClients s_two) = Some meta_2)
    by (vm_compute; reflexivity).
  split; [exact H1|]. split; [exact H2|].
  assert (Hlen : (length (shapes_of s_two (roomId meta_1)) <= 2)%nat)
    by (vm_compute; repeat constructor).
  destruct (stream_past_end_pads_with_null ToNumber_digits Prints_all s_two
              1 2 meta_1 meta_2
              (JObj [("type", JStr "stream"); ("index", jint 2);
                     ("element", line)])
              (JObj [("type", JStr "init")]) 2
              H1 H2 eq_refl eq_refl eq_refl eq_refl Hlen eq_refl) as [Hout _].
  exact (Hout eq_refl).
Defined.

(** X17 on a run: an offer for user 1 in "r1". *)
Lemma signaling_takes_first_match_witness :
  snd (sendToUserInRoom s_two "r1" (Some (inject_Z 1)) PUnlock) = [(1, PUnlock)]
  ∧ ∀ users, sendToUserInRoom (with_users s_two users) "r1"
               (Some (inject_Z 1)) PUnlock
             = (true, [(1, PUnlock)]).
Proof.
  assert (H : snd (sendToUserInRoom s_two "r1" (Some (inject_Z 1)) PUnlock)
              = [(1, PUnlock)]) by (vm_compute; reflexivity).
  split; [exact H|].
  apply (signaling_takes_first_match s_two "r1" (Some (inject_Z 1)) PUnlock 1 H).
Defined.

(** X18 on a run: connection 3 asks to register as user 7. *)
Lemma register_message_round_witness :
  classify (get "type" (JObj [("type", JStr "register"); ("roomId", JStr "r1");
                              ("userId", jint 7)])) = KRegister
  ∧ snd (on_message ToNumber_digits Prints_all s_two 3 (msg_register "r1" 7)) = [].
Proof.
  split; [reflexivity|].
  destruct (register_message_round ToNumber_digits Prints_all s_two 3
              (JObj [("type", JStr "register"); ("roomId", JStr "r1");
                     ("userId", jint 7)]) eq_refl) as (_ & _ & Hsent).
  apply (Hsent (Some (inject_Z 7))); reflexivity.
Defined.

(** X19 on a run: connection 1 is closed and connection 2 asks for the
    users. *)
Lemma user_list_after_close_witness :
  clients_get 1 (activeClients s_two) = Some meta_1
  ∧ clients_get 2 (activeClients s_two) = Some meta_2
  ∧ on_message ToNumber_digits Prints_all (on_close s_two 1) 2
      (msg_plain "request-user-list")
    = (on_close s_two 1,
       [(2, PUserList (filter (λ v, v ≠ 1%Z) (users_of s_two "r1")))]).
Proof.
  assert (H1 : clients_get 1 (activeClients s_two) = Some meta_1)
    by (vm_compute; reflexivity).
  assert (H2 : clients_get 2 (activeClients s_two) = Some meta_2)
    by (vm_compute; reflexivity).
  split; [exact H1|]. split; [exact H2|].
  apply (user_list_after_close ToNumber_digits Prints_all s_two 1 2 meta_1 meta_2
           (JObj [("type", JStr "request-user-list")]) H1 H2);
    [discriminate|reflexivity|reflexivity].
Defined.

(** X3 on a run: the [sync] of a [draw] of connection 1 that reaches
    connection 2 reaches a connection of the same room. *)
Lemma sends_stay_in_the_room_witness :
  (2, PSync [line]) ∈ snd (on_message ToNumber_digits Prints_all s_two 1 (msg_draw line))
  ∧ (2 = 1
     ∨ ∃ m m', clients_get 1 (activeClients s_two) = Some m
               ∧ (2, m') ∈ activeClients s_two ∧ roomId m' = roomId m
               ∧ readyState s_two !! 2 = Some OPEN).
Proof.
  assert (H : (2, PSync [line])
              ∈ snd (on_message ToNumber_digits Prints_all s_two 1 (msg_draw line)))
    by (vm_compute; do 2 constructor).
  split; [exact H|].
  apply (proj1 (sends_stay_in_the_room ToNumber_digits Prints_all s_two 1 2 (PSync [line]))
           (msg_draw line) H).
Defined.

(** X4 on a run: a [clear] in "r1" and the document of "r2". *)
Lemma documents_of_other_rooms_untouched_witness :
  roomShapes (fst (on_message ToNumber_digits Prints_all s_line 1 (msg_plain "clear")))
    !! "r2"
  = roomShapes s_line !! "r2".
Proof.
  apply (proj1 (documents_of_other_rooms_untouched ToNumber_digits Prints_all s_line)
           1 (msg_plain "clear") "r2").
  intros m Hm. vm_compute in Hm. injection Hm as <-. discriminate.
Defined.

(** X8 on a run: connection 1 is closed. *)
Lemma close_handler_effects_witness :
  clients_get 1 (activeClients (on_close s_two 1)) = None
  ∧ on_close (on_close s_two 1) 1 = on_close s_two 1.
Proof.
  destruct (close_handler_effects ToNumber_digits Prints_all s_two 1)
    as (Hgone & _ & _ & _ & _ & _ & _ & Hagain & _).
  split; [exact Hgone|exact Hagain].
Defined.
